(** * EDTA-Audit: the summary-report parser, the metric extractor, the
      tri-level rule engine and the completeness gate of [edta_audit.py].

    Conventions of the embedding.

    - Text is ASCII: a Python [str] is a [string], a character an [ascii];
      the whitespace class ([str.strip], the regex class [\s]) and the case
      maps ([str.upper], [str.lower]) are Python's on the ASCII range.
    - The functions that handle numbers are embedded twice.  In the first
      embedding a percentage or base-pair value is an exact rational [Q]; the
      not-a-number sentinel [float("nan")] that the program uses for "absent"
      is [None], so a Python float that may be NaN is an [option Q], and the
      test [b == b] is "is [Some]".  It carries the properties in which the
      value of a float plays no part or only its order does (the structure of
      the table, the statuses, the tags, the paths).  In the second
      embedding, the module [B64], a float is an IEEE 754 binary64 value with
      its rounding, its infinities, its NaN, and the [OverflowError] of
      [float(int)]; it carries the properties that depend on them.
    - A [dict] is an association list in insertion order with unique keys
      ([dict_set] overwrites in place), because [sum_by_prefix] iterates over
      [te.items()] in that order.
    - The file system is a record of observations ([FS]); a file that cannot
      be read is an error value carrying the exception text. *)

From Stdlib Require Import Bool Arith ZArith QArith Lia Lqa List.
From Stdlib Require Import Floats.SpecFloat.
From Stdlib Require Import Strings.Ascii Strings.String.
Import ListNotations.

Local Open Scope string_scope.
Local Open Scope bool_scope.

(** ** Text primitives *)

Module Text.

(** [str.isspace] on ASCII: TAB..CR, FS..US and the space. *)
Definition is_space (c : ascii) : bool :=
  let n := nat_of_ascii c in
  ((9 <=? n) && (n <=? 13))%nat || ((28 <=? n) && (n <=? 32))%nat.

Definition is_digit (c : ascii) : bool :=
  let n := nat_of_ascii c in ((48 <=? n) && (n <=? 57))%nat.

Definition newline : ascii := ascii_of_nat 10.
Definition tab : ascii := ascii_of_nat 9.

Definition upper_char (c : ascii) : ascii :=
  let n := nat_of_ascii c in
  if ((97 <=? n) && (n <=? 122))%nat then ascii_of_nat (n - 32) else c.

Definition lower_char (c : ascii) : ascii :=
  let n := nat_of_ascii c in
  if ((65 <=? n) && (n <=? 90))%nat then ascii_of_nat (n + 32) else c.

Fixpoint map_chars (f : ascii -> ascii) (s : string) : string :=
  match s with
  | EmptyString => EmptyString
  | String c s' => String (f c) (map_chars f s')
  end.

Definition upper : string -> string := map_chars upper_char.
Definition lower : string -> string := map_chars lower_char.

Fixpoint forall_chars (p : ascii -> bool) (s : string) : bool :=
  match s with
  | EmptyString => true
  | String c s' => p c && forall_chars p s'
  end.

Fixpoint exists_char (p : ascii -> bool) (s : string) : bool :=
  match s with
  | EmptyString => false
  | String c s' => p c || exists_char p s'
  end.

(** [s.lstrip(chars)] and [s.rstrip(chars)] for a character class [p]. *)
Fixpoint lstrip_by (p : ascii -> bool) (s : string) : string :=
  match s with
  | EmptyString => EmptyString
  | String c s' => if p c then lstrip_by p s' else s
  end.

Fixpoint rstrip_by (p : ascii -> bool) (s : string) : string :=
  match s with
  | EmptyString => EmptyString
  | String c s' =>
      match rstrip_by p s' with
      | EmptyString => if p c then EmptyString else String c EmptyString
      | r => String c r
      end
  end.

Definition lstrip : string -> string := lstrip_by is_space.
Definition rstrip : string -> string := rstrip_by is_space.
Definition strip (s : string) : string := lstrip (rstrip s).

(** [raw.rstrip("\n")] *)
Definition rstrip_nl : string -> string := rstrip_by (Ascii.eqb newline).

(** [s.startswith(p)] *)
Definition startswith (s p : string) : bool := String.prefix p s.

(** [s.endswith(p)] *)
Definition endswith (s p : string) : bool :=
  (String.length p <=? String.length s)%nat
  && String.eqb (substring (String.length s - String.length p) (String.length p) s) p.

(** The rest of [s] after the literal [p], when [s] starts with it. *)
Fixpoint strip_prefix (p s : string) : option string :=
  match p, s with
  | EmptyString, _ => Some s
  | String a p', String b s' => if Ascii.eqb a b then strip_prefix p' s' else None
  | String _ _, EmptyString => None
  end.

(** The regex fragment [\s+]: at least one blank, then all of them. *)
Definition ws_plus (s : string) : option string :=
  match s with
  | String c s' => if is_space c then Some (lstrip s') else None
  | EmptyString => None
  end.

Fixpoint rev_string_of (l : list ascii) (acc : string) : string :=
  match l with
  | [] => acc
  | c :: l' => rev_string_of l' (String c acc)
  end.

(** [re.compile(r"\s{2,}").split(s)]: cut at every maximal run of two or
    more blanks; a single blank stays inside its column.  [cur] is the
    column being read and [ws] the pending run of blanks, both reversed. *)
Fixpoint split_cols_go (cur ws : list ascii) (s : string) : list string :=
  match s with
  | EmptyString =>
      if (2 <=? List.length ws)%nat
      then [rev_string_of cur EmptyString; EmptyString]
      else [rev_string_of (ws ++ cur) EmptyString]
  | String c s' =>
      if is_space c then split_cols_go cur (c :: ws) s'
      else if (2 <=? List.length ws)%nat
           then rev_string_of cur EmptyString :: split_cols_go [c] [] s'
           else split_cols_go (c :: ws ++ cur) [] s'
  end.

Definition split_cols (s : string) : list string := split_cols_go [] [] s.

(** [sep.join(l)] *)
Fixpoint join (sep : string) (l : list string) : string :=
  match l with
  | [] => EmptyString
  | [x] => x
  | x :: l' => x ++ sep ++ join sep l'
  end.

(** [s.replace(old, new)] for a non-empty [old]: every occurrence, left to
    right, without overlap. *)
Fixpoint replace_go (old new : string) (skip : nat) (s : string) : string :=
  match s with
  | EmptyString => EmptyString
  | String c s' =>
      match skip with
      | S n => replace_go old new n s'
      | O =>
          if String.prefix old s
          then new ++ replace_go old new (String.length old - 1) s'
          else String c (replace_go old new 0 s')
      end
  end.

Definition replace_all (old new s : string) : string := replace_go old new 0 s.

End Text.

Import Text.

(** ** Numbers read from the report *)

Fixpoint remove_char (c : ascii) (s : string) : string :=
  match s with
  | EmptyString => EmptyString
  | String a s' => if Ascii.eqb a c then remove_char c s' else String a (remove_char c s')
  end.

Definition digit_value (c : ascii) : Z := Z.of_nat (nat_of_ascii c - 48).

Fixpoint digits_value_from (acc : Z) (s : string) : Z :=
  match s with
  | EmptyString => acc
  | String c s' => digits_value_from (10 * acc + digit_value c) s'
  end.

Definition digits_value : string -> Z := digits_value_from 0.

(** The digits of Python's [int(str)] after the sign: decimal digits, a
    single underscore allowed between two of them. *)
Fixpoint int_digits (acc : Z) (after_digit : bool) (s : string) : option Z :=
  match s with
  | EmptyString => if after_digit then Some acc else None
  | String c s' =>
      if is_digit c then int_digits (10 * acc + digit_value c) true s'
      else if Ascii.eqb c "_" && after_digit then
             match s' with
             | String d _ => if is_digit d then int_digits acc true s' else None
             | EmptyString => None
             end
           else None
  end.

(** [safe_int(x)]: [int(x.replace(",", ""))], [None] when [int] raises.
    Here without CPython's limit on the number of digits; [B64.safe_int]
    has it. *)
Definition safe_int (x : string) : option Z :=
  let y := strip (remove_char "," x) in
  match y with
  | String "+" r => int_digits 0 false r
  | String "-" r => option_map Z.opp (int_digits 0 false r)
  | _ => int_digits 0 false y
  end.

(** The longest prefix of decimal digits, and what follows it. *)
Fixpoint span_digits (s : string) : string * string :=
  match s with
  | EmptyString => (EmptyString, EmptyString)
  | String c s' =>
      if is_digit c
      then let (d, r) := span_digits s' in (String c d, r)
      else (EmptyString, s)
  end.

(** Group 1 of the percentage pattern: the integer digits and, when the
    literal has a point, the fraction digits. *)
Definition decimal_literal : Type := string * option string.

(** [re.match(r"^(\d+(?:\.\d+)?)%?$", pct_s)]: the captured group, or [None]
    when there is no match.  [$] also matches before one final newline. *)
Definition re_pct (pct_s : string) : option decimal_literal :=
  let (ip, r1) := span_digits pct_s in
  if String.eqb ip "" then None
  else
    let (g, r2) :=
      match r1 with
      | String "." r =>
          let (fp, r') := span_digits r in
          if String.eqb fp "" then ((ip, None), r1) else ((ip, Some fp), r')
      | _ => ((ip, None), r1)
      end in
    let r3 := match r2 with String "%" r => r | _ => r2 end in
    if String.eqb r3 "" || String.eqb r3 (String newline "") then Some g else None.

(** [safe_float(m.group(1))]: the value of the unsigned decimal literal,
    not rounded.  [float] accepts every such literal, so the result is never
    [None] here. *)
Definition safe_float (g : decimal_literal) : option Q :=
  match g with
  | (ip, None) => Some (inject_Z (digits_value ip))
  | (ip, Some fp) =>
      let scale := (10 ^ Z.of_nat (String.length fp))%Z in
      Some (Qmake (digits_value ip * scale + digits_value fp) (Z.to_pos scale))
  end.

(** ** The repeat-class table *)

(** The value [{"bp": ..., "pct": ...}] of one key; [e_bp = None] is the
    NaN that the parser stores when the bpMasked column is not an integer. *)
Record entry : Type := mk_entry { e_bp : option Q; e_pct : Q }.

Definition table : Type := list (string * entry).

(** [te[k] = v] *)
Fixpoint dict_set (te : table) (k : string) (v : entry) : table :=
  match te with
  | [] => [(k, v)]
  | (k', v') :: te' =>
      if String.eqb k' k then (k', v) :: te' else (k', v') :: dict_set te' k v
  end.

(** [te.get(k)] *)
Fixpoint dict_get (te : table) (k : string) : option entry :=
  match te with
  | [] => None
  | (k', v) :: te' => if String.eqb k' k then Some v else dict_get te' k
  end.

Definition keys (te : table) : list string := map fst te.

(** ** The TEanno.sum parser *)

Module Parser.

(** The loop variables of [parse_teanno_sum_repeat_classes]. *)
Record state : Type := mk_state {
  out : table;
  in_table : bool;
  current_class : option string
}.

Definition init : state := mk_state [] false None.

Definition norm_class (s : string) : string :=
  let s := upper (strip s) in
  if String.eqb s "NONTIR" then "NONTIR" else s.

(** [re.search(r"^\s*Class\s+Count\s+bpMasked\s+%masked\s*$", line)] *)
Definition is_header (line : string) : bool :=
  match strip_prefix "Class" (lstrip line) with
  | Some r1 =>
    match ws_plus r1 with
    | Some r2 =>
      match strip_prefix "Count" r2 with
      | Some r3 =>
        match ws_plus r3 with
        | Some r4 =>
          match strip_prefix "bpMasked" r4 with
          | Some r5 =>
            match ws_plus r5 with
            | Some r6 =>
              match strip_prefix "%masked" r6 with
              | Some r7 => String.eqb (lstrip r7) ""
              | None => false
              end
            | None => false
            end
          | None => false
          end
        | None => false
        end
      | None => false
      end
    | None => false
    end
  | None => false
  end.

(** [set(s) <= set("-=") and len(s) >= 5] *)
Definition is_separator (s : string) : bool :=
  forall_chars (fun c => Ascii.eqb c "-" || Ascii.eqb c "=") s
  && (5 <=? String.length s)%nat.

(** [float(bp) if bp is not None else float("nan")], not rounded and
    without the [OverflowError] of an integer too large for a float;
    [B64.bp_float] has both. *)
Definition bp_float (b : option Z) : option Q := option_map inject_Z b.

(** Truthiness of [current_class]: neither [None] nor the empty string. *)
Definition active_class (cc : option string) : option string :=
  match cc with
  | Some c => if String.eqb c "" then None else Some c
  | None => None
  end.

(** One iteration of the [for raw in f] loop; [None] is the [break]. *)
Definition step (st : state) (raw : string) : option state :=
  let line := rstrip_nl raw in
  if negb (in_table st) then
    if is_header line
    then Some (mk_state (out st) true None)
    else Some st
  else if startswith (strip line) "Repeat Stats" then None
  else
    let s := strip line in
    if String.eqb s "" then Some st
    else if is_separator s then Some st
    else
      match split_cols s with
      | name :: count_s :: bp_s :: pct_s :: _ =>
          if String.eqb count_s "--" && String.eqb bp_s "--" && String.eqb pct_s "--"
          then Some (mk_state (out st) (in_table st) (Some (norm_class name)))
          else
            let bp := safe_int bp_s in
            match match re_pct pct_s with Some g => safe_float g | None => None end with
            | None => Some st
            | Some pct =>
                let v := mk_entry (bp_float bp) pct in
                if String.eqb (lower name) "total"
                then Some (mk_state (dict_set (out st) "TOTAL" v) (in_table st) None)
                else if String.eqb (lower name) "total interspersed"
                then Some (mk_state (dict_set (out st) "TOTAL_INTERSPERSED" v)
                                    (in_table st) (current_class st))
                else
                  let is_family :=
                    startswith raw " " || startswith raw (String tab "") in
                  let key :=
                    match (if is_family then active_class (current_class st) else None) with
                    | Some c => c ++ "/" ++ strip name
                    | None => upper (strip name)
                    end in
                  Some (mk_state (dict_set (out st) key v) (in_table st) (current_class st))
            end
      | _ => Some st
      end.

Fixpoint run (st : state) (raws : list string) : table :=
  match raws with
  | [] => out st
  | raw :: rest =>
      match step st raw with
      | Some st' => run st' rest
      | None => out st
      end
  end.

End Parser.

(** [parse_teanno_sum_repeat_classes] on the lines of the opened file, each
    with its line terminator as the file iterator yields it. *)
Definition parse_teanno_sum_repeat_classes (raws : list string) : table :=
  Parser.run Parser.init raws.

(** ** The metric extractor *)

(** [get_key(te, key)]: percentage, base pairs, presence. *)
Definition get_key (te : table) (key : string) : option Q * option Q * bool :=
  match dict_get te key with
  | None => (None, None, false)
  | Some v => (Some (e_pct v), e_bp v, true)
  end.

(** The accumulators [pct], [bp], [bp_ok], [present] of [sum_by_prefix]. *)
Record acc : Type := mk_acc {
  a_pct : Q;
  a_bp : Q;
  a_bp_ok : bool;
  a_present : bool
}.

Definition sum_step (prefix : string) (a : acc) (kv : string * entry) : acc :=
  let (k, v) := kv in
  if startswith k prefix then
    match e_bp v with
    | Some b => mk_acc (a_pct a + e_pct v) (a_bp a + b) true true
    | None => mk_acc (a_pct a + e_pct v) (a_bp a) (a_bp_ok a) true
    end
  else a.

Definition sum_by_prefix (te : table) (prefix : string) : option Q * option Q * bool :=
  let a := fold_left (sum_step prefix) te (mk_acc 0 0 false false) in
  if negb (a_present a) then (None, None, false)
  else (Some (a_pct a), if a_bp_ok a then Some (a_bp a) else None, true).

Definition pick_total (te : table) : option Q * option Q * string * bool :=
  let '(pct, bp, ok) := get_key te "TOTAL" in
  if ok then (pct, bp, "TOTAL", true)
  else
    let '(pct, bp, ok) := get_key te "TOTAL_INTERSPERSED" in
    if ok then (pct, bp, "TOTAL_INTERSPERSED", true)
    else (None, None, "MISSING", false).

(** ** Profiles and the rule engine *)

Inductive status : Type := PASS | SUSPECT | FAIL | NA.

Definition status_eqb (a b : status) : bool :=
  match a, b with
  | PASS, PASS | SUSPECT, SUSPECT | FAIL, FAIL | NA, NA => true
  | _, _ => false
  end.

Record PlantThresholds : Type := mk_plant {
  total_pass : Q;
  total_suspect : Q;
  ltr_pass : Q;
  ltr_suspect : Q;
  tir_pass : Q;
  tir_suspect : Q;
  heli_warn_low : Q;
  heli_warn_mid : Q;
  ltr_known_hint_low : Q;
  ltr_unknown_pct_hint : Q;
  ltr_unknown_ratio_hint : Q
}.

Definition plant_defaults : PlantThresholds :=
  mk_plant 20 10 5 1 2 0.5 0.1 0.5 1 10 0.60.

Record AnimalThresholds : Type := mk_animal {
  an_total_pass : Q;
  an_total_suspect : Q;
  an_min_ltr : Q;
  an_min_tir : Q;
  min_nonltr : Q
}.

Definition animal_defaults : AnimalThresholds := mk_animal 10 3 0.1 0.1 0.2.

Record FungiThresholds : Type := mk_fungi {
  fu_total_pass : Q;
  fu_total_suspect : Q;
  fu_min_ltr : Q;
  fu_min_tir : Q
}.

Definition fungi_defaults : FungiThresholds := mk_fungi 5 0.5 0.1 0.1.

(** [a >= b] and [a < b] on floats that are not NaN. *)
Definition geb (a b : Q) : bool := Qle_bool b a.
Definition ltb (a b : Q) : bool := negb (Qle_bool b a).

Definition tri_level (val : option Q) (pass_cut suspect_cut : Q) : status :=
  match val with
  | None => FAIL
  | Some v =>
      if geb v pass_cut then PASS
      else if geb v suspect_cut then SUSPECT
      else FAIL
  end.

(** [if st == "FAIL": tags.append(f) elif st == "SUSPECT": tags.append(s)] *)
Definition hard_tag (st : status) (f s : string) : list string :=
  match st with
  | FAIL => [f]
  | SUSPECT => [s]
  | _ => []
  end.

(** [if c: tags.append(t)] *)
Definition tag_if (c : bool) (t : string) : list string := if c then [t] else [].

(** [v is None or v < cut] *)
Definition none_or_below (v : option Q) (cut : Q) : bool :=
  match v with
  | None => true
  | Some x => ltb x cut
  end.

Definition is_none {A : Type} (v : option A) : bool :=
  match v with None => true | Some _ => false end.

(** [if v is None: tags.append(n) elif v == 0: tags.append(z)] *)
Definition zero_tag (v : option Q) (n z : string) : list string :=
  match v with
  | None => [n]
  | Some x => tag_if (Qeq_bool x 0) z
  end.

(** [x in (a, b, c)] for statuses. *)
Definition among3 (x a b c : status) : bool :=
  status_eqb x a || status_eqb x b || status_eqb x c.

Definition classify_plant
    (total_te ltr_total tir helitron line_pct sine_pct ltr_known ltr_unknown : option Q)
    (thr : PlantThresholds) : status * list string * list string :=
  let notes : list string := [] in
  let st_total := tri_level total_te (total_pass thr) (total_suspect thr) in
  let st_ltr := tri_level ltr_total (ltr_pass thr) (ltr_suspect thr) in
  let st_tir := tri_level tir (tir_pass thr) (tir_suspect thr) in
  let tags :=
    (hard_tag st_total "HARD_FAIL_TOTAL_TE" "HARD_SUSPECT_TOTAL_TE"
     ++ hard_tag st_ltr "HARD_FAIL_LTR_TOTAL" "HARD_SUSPECT_LTR_TOTAL"
     ++ hard_tag st_tir "HARD_FAIL_TIR" "HARD_SUSPECT_TIR"
     ++ match helitron with
       | None => ["WARN_HELITRON_NOT_REPORTED"]
       | Some h =>
           if ltb h (heli_warn_low thr) then ["WARN_LOW_HELITRON"]
           else if ltb h (heli_warn_mid thr) then ["WARN_LOW_HELITRON"]
           else []
       end
     ++ zero_tag line_pct "WARN_LINE_NOT_REPORTED" "WARN_LINE_ZERO"
     ++ zero_tag sine_pct "WARN_SINE_NOT_REPORTED" "WARN_SINE_ZERO"
     ++ match ltr_known with
       | None => ["WARN_LTR_KNOWN_NOT_REPORTED"]
       | Some k => tag_if (ltb k (ltr_known_hint_low thr)) "HINT_LOW_LTR_KNOWN"
       end
     ++ match ltr_unknown, ltr_total with
       | Some u, Some t =>
           if ltb 0 t then
             let ratio := u / t in
             tag_if (geb u (ltr_unknown_pct_hint thr)
                     || geb ratio (ltr_unknown_ratio_hint thr))
                    "HINT_HIGH_LTR_UNKNOWN"
           else []
       | _, _ => []
       end)%list in
  if among3 FAIL st_total st_ltr st_tir then (FAIL, notes, tags)
  else if among3 SUSPECT st_total st_ltr st_tir then (SUSPECT, notes, tags)
  else (PASS, notes, tags).

Definition classify_animal
    (total_te ltr_total tir line_pct sine_pct : option Q)
    (thr : AnimalThresholds) : status * list string * list string :=
  let notes : list string := [] in
  let st_total := tri_level total_te (an_total_pass thr) (an_total_suspect thr) in
  let nonltr0 : Q := 0 in
  let ok0 := false in
  let '(nonltr1, ok1) :=
    match line_pct with Some l => (nonltr0 + l, true) | None => (nonltr0, ok0) end in
  let '(nonltr, ok) :=
    match sine_pct with Some s => (nonltr1 + s, true) | None => (nonltr1, ok1) end in
  let tags :=
    (hard_tag st_total "HARD_FAIL_TOTAL_TE" "HARD_SUSPECT_TOTAL_TE"
     ++ tag_if (none_or_below ltr_total (an_min_ltr thr)) "WARN_LOW_LTR"
     ++ tag_if (none_or_below tir (an_min_tir thr)) "WARN_LOW_TIR"
     ++ tag_if (negb ok || ltb nonltr (min_nonltr thr)) "WARN_LOW_NONLTR")%list in
  (st_total, notes, tags).

Definition classify_fungi
    (total_te ltr_total tir helitron line_pct sine_pct : option Q)
    (thr : FungiThresholds) : status * list string * list string :=
  let notes : list string := [] in
  let st_total := tri_level total_te (fu_total_pass thr) (fu_total_suspect thr) in
  let tags :=
    (hard_tag st_total "HARD_FAIL_TOTAL_TE" "HARD_SUSPECT_TOTAL_TE"
     ++ tag_if (none_or_below ltr_total (fu_min_ltr thr)) "WARN_LOW_LTR"
     ++ tag_if (none_or_below tir (fu_min_tir thr)) "WARN_LOW_TIR"
     ++ tag_if (is_none helitron) "WARN_HELITRON_NOT_REPORTED"
     ++ tag_if (is_none line_pct) "WARN_LINE_NOT_REPORTED"
     ++ tag_if (is_none sine_pct) "WARN_SINE_NOT_REPORTED")%list in
  (st_total, notes, tags).

(** ** Sample directories and the completeness gate *)

(** What the program observes of the file system: the listing of a
    directory in the order [os.listdir] yields it, [is_nonempty_file],
    [is_dir], and the lines of a text file or the text of the exception
    that opening or reading it raises. *)
Record FS : Type := mk_fs {
  listdir : string -> list string;
  is_nonempty_file : string -> bool;
  is_dir : string -> bool;
  read_lines : string -> string + list string
}.

Record TechConfig : Type := mk_cfg {
  require_teanno_sum : bool;
  require_teanno_gff3 : bool;
  require_telib_fa : bool;
  require_anno_dir : bool
}.

Definition tech_defaults : TechConfig := mk_cfg true true true true.

(** [os.path.join(a, b)] on POSIX. *)
Definition path_join (a b : string) : string :=
  if startswith b "/" then b
  else if String.eqb a "" || endswith a "/" then a ++ b
  else a ++ "/" ++ b.

(** [os.path.basename(p)] on POSIX: what follows the last slash. *)
Fixpoint basename (p : string) : string :=
  match p with
  | EmptyString => EmptyString
  | String c p' =>
      if exists_char (Ascii.eqb "/") p' then basename p'
      else if Ascii.eqb c "/" then p' else p
  end.

(** [re.match(r"^(GC[AF]_\d+\.\d+)", sample_id)], group 1 or the id itself. *)
Definition extract_genome_id (sample_id : string) : string :=
  match sample_id with
  | String "G" (String "C" (String c (String "_" r))) =>
      if Ascii.eqb c "A" || Ascii.eqb c "F" then
        let (d1, r1) := span_digits r in
        match r1 with
        | String "." r2 =>
            let (d2, _) := span_digits r2 in
            if String.eqb d1 "" || String.eqb d2 "" then sample_id
            else "GC" ++ String c ("_" ++ d1 ++ "." ++ d2)
        | _ => sample_id
        end
      else sample_id
  | _ => sample_id
  end.

(** The dictionary returned by [locate_outputs]. *)
Record Paths : Type := mk_paths {
  p_sample_dir : string;
  p_teanno_sum : string;
  p_teanno_gff3 : string;
  p_telib_fa : string;
  p_anno_dir : string
}.

(** The first name of the listing with one of the suffixes, joined to the
    directory; the empty string when there is none. *)
Fixpoint first_with_suffix (dir : string) (sufs : list string) (fns : list string) : string :=
  match fns with
  | [] => EmptyString
  | fn :: rest =>
      if existsb (endswith fn) sufs then path_join dir fn
      else first_with_suffix dir sufs rest
  end.

(** [s[:-n]] *)
Definition drop_last (n : nat) (s : string) : string :=
  substring 0 (String.length s - n) s.

Definition locate_outputs (fs : FS) (sample_dir : string) : Paths :=
  let teanno_sum :=
    first_with_suffix sample_dir [".EDTA.TEanno.sum"; "EDTA.TEanno.sum"]
                      (listdir fs sample_dir) in
  if negb (String.eqb teanno_sum "") then
    let base := drop_last (String.length "TEanno.sum") teanno_sum in
    let prefix := replace_all ".TEanno.sum" "" teanno_sum in
    mk_paths sample_dir teanno_sum (base ++ "TEanno.gff3") (base ++ "TElib.fa")
             (prefix ++ ".anno")
  else
    let seed0 := first_with_suffix sample_dir [".fna.mod"] (listdir fs sample_dir) in
    let seed :=
      if String.eqb seed0 ""
      then first_with_suffix sample_dir [".fna"] (listdir fs sample_dir)
      else seed0 in
    if negb (String.eqb seed "") then
      let guess_prefix := seed ++ ".EDTA." in
      mk_paths sample_dir teanno_sum (guess_prefix ++ "TEanno.gff3")
               (guess_prefix ++ "TElib.fa") (drop_last 1 guess_prefix ++ "anno")
    else mk_paths sample_dir teanno_sum "" "" "".

(** [if required: if (not path) or (not ok(path)): missing.append(label)] *)
Definition check_artifact (required : bool) (path : string) (ok : string -> bool)
    (label : string) : list string :=
  if required then
    if String.eqb path "" || negb (ok path) then [label] else []
  else [].

Definition tech_check (fs : FS) (paths : Paths) (cfg : TechConfig) : status * list string :=
  let missing :=
    (check_artifact (require_teanno_sum cfg) (p_teanno_sum paths) (is_nonempty_file fs) "TEanno.sum"
     ++ check_artifact (require_teanno_gff3 cfg) (p_teanno_gff3 paths) (is_nonempty_file fs) "TEanno.gff3"
     ++ check_artifact (require_telib_fa cfg) (p_telib_fa paths) (is_nonempty_file fs) "TElib.fa"
     ++ check_artifact (require_anno_dir cfg) (p_anno_dir paths) (is_dir fs) "EDTA.anno/")%list in
  match missing with
  | [] => (PASS, [])
  | _ => (FAIL, missing)
  end.

(** ** The per-sample record *)

(** The dataclass [Record]; a float field holding NaN is [None]. *)
Record AuditRecord : Type := mk_record {
  profile : string;
  genome_id : string;
  sample_id : string;
  overall_status : status;
  tech_status : status;
  bio_status : status;
  total_te_pct : option Q;
  total_te_bp : option Q;
  total_te_source : string;
  ltr_total_pct : option Q;
  ltr_total_bp : option Q;
  ltr_known_pct : option Q;
  ltr_known_bp : option Q;
  ltr_unknown_pct : option Q;
  ltr_unknown_bp : option Q;
  tir_pct : option Q;
  tir_bp : option Q;
  helitron_pct : option Q;
  helitron_bp : option Q;
  line_present : Z;
  line_pct : option Q;
  line_bp : option Q;
  sine_present : Z;
  sine_pct : option Q;
  sine_bp : option Q;
  notes : string;
  tags : string;
  missing : string;
  teanno_sum : string;
  sample_dir : string
}.

(** The record of a sample that is not evaluated: both early returns of
    [classify_one] build it, with their own notes, tags and missing. *)
Definition unevaluated (profile genome_id sample_id notes tags missing teanno_sum
                        sample_dir : string) : AuditRecord :=
  mk_record profile genome_id sample_id FAIL FAIL NA
            None None "NA"
            None None None None None None
            None None
            None None
            0 None None
            0 None None
            notes tags missing teanno_sum sample_dir.

(** [x or "NA"] *)
Definition or_NA (x : string) : string := if String.eqb x "" then "NA" else x.

(** LTR-known, lines 579-598 of [classify_one]: the sum of [LTR/Copia] and
    [LTR/Gypsy] over those that are present. *)
Definition ltr_known (te : table) : option Q * option Q :=
  let '(copia_pct, copia_bp, copia_present) := get_key te "LTR/Copia" in
  let '(gypsy_pct, gypsy_bp, gypsy_present) := get_key te "LTR/Gypsy" in
  if copia_present || gypsy_present then
    let a0 := mk_acc 0 0 false false in
    let a1 :=
      match copia_pct with
      | Some p =>
          match copia_bp with
          | Some b => mk_acc (a_pct a0 + p) (a_bp a0 + b) true true
          | None => mk_acc (a_pct a0 + p) (a_bp a0) (a_bp_ok a0) true
          end
      | None => a0
      end in
    let a2 :=
      match gypsy_pct with
      | Some p =>
          match gypsy_bp with
          | Some b => mk_acc (a_pct a1 + p) (a_bp a1 + b) true true
          | None => mk_acc (a_pct a1 + p) (a_bp a1) (a_bp_ok a1) true
          end
      | None => a1
      end in
    (Some (a_pct a2), if a_bp_ok a2 then Some (a_bp a2) else None)
  else (None, None).

(** [get_key] under the first name, else under the second. *)
Definition get_either (te : table) (k1 k2 : string) : option Q * option Q * bool :=
  let '(p, b, present) := get_key te k1 in
  if present then (p, b, present) else get_key te k2.

Definition flag (b : bool) : Z := if b then 1%Z else 0%Z.

(** [classify_one].  [sample_dir] is the absolute path that
    [os.path.abspath] returns.  [to_opt] maps NaN to [None] and is the
    identity on the [option Q] of this model. *)
Definition classify_one (fs : FS) (sample_dir profile : string)
    (plant_thr : PlantThresholds) (animal_thr : AnimalThresholds)
    (fungi_thr : FungiThresholds) (tech_cfg : TechConfig) : AuditRecord :=
  let sample_id := basename sample_dir in
  let genome_id := extract_genome_id sample_id in
  let paths := locate_outputs fs sample_dir in
  let '(tech_status, missing_list) := tech_check fs paths tech_cfg in
  if status_eqb tech_status FAIL then
    let tags := map (fun m => "TECH_MISSING_" ++ m) missing_list in
    unevaluated profile genome_id sample_id
                "TECH_FAIL: incomplete EDTA output"
                (join "; " tags) (join "; " missing_list)
                (or_NA (p_teanno_sum paths)) sample_dir
  else
    let teanno_sum_path := p_teanno_sum paths in
    match read_lines fs teanno_sum_path with
    | inl e =>
        unevaluated profile genome_id sample_id
                    ("TECH_FAIL: TEanno.sum parse error: " ++ e)
                    (join "; " ["TECH_PARSE_ERROR"]) "TEanno.sum(parse_error)"
                    teanno_sum_path sample_dir
    | inr raws =>
        let te := parse_teanno_sum_repeat_classes raws in
        let '(total_pct, total_bp, total_source, _) := pick_total te in
        let tags0 := ["INFO_TOTAL_SOURCE_" ++ total_source] in
        let '(ltr_total_pct, ltr_total_bp, ltr_present) := sum_by_prefix te "LTR/" in
        let '(ltr_known_pct, ltr_known_bp) := ltr_known te in
        let '(ltr_unk_pct, ltr_unk_bp, _) := get_either te "LTR/unknown" "LTR/Unknown" in
        let '(tir_pct, tir_bp, _) := sum_by_prefix te "TIR/" in
        let '(hel_pct, hel_bp, _) := get_either te "NONTIR/helitron" "NONTIR/Helitron" in
        let '(line_pct, line_bp, line_present) := sum_by_prefix te "LINE/" in
        let '(sine_pct, sine_bp, sine_present) := sum_by_prefix te "SINE/" in
        let '(bio_status, _, bio_tags) :=
          if String.eqb profile "plant" then
            classify_plant total_pct ltr_total_pct tir_pct hel_pct line_pct sine_pct
                           ltr_known_pct ltr_unk_pct plant_thr
          else if String.eqb profile "animal" then
            classify_animal total_pct ltr_total_pct tir_pct line_pct sine_pct animal_thr
          else
            classify_fungi total_pct ltr_total_pct tir_pct hel_pct line_pct sine_pct
                           fungi_thr in
        let tags := (tags0 ++ bio_tags)%list in
        let overall_status := bio_status in
        mk_record profile genome_id sample_id overall_status PASS bio_status
                  total_pct total_bp total_source
                  ltr_total_pct ltr_total_bp ltr_known_pct ltr_known_bp
                  ltr_unk_pct ltr_unk_bp
                  tir_pct tir_bp
                  hel_pct hel_bp
                  (flag line_present) line_pct line_bp
                  (flag sine_present) sine_pct sine_bp
                  "" (join "; " (filter (fun t => negb (String.eqb t "")) tags)) ""
                  teanno_sum_path sample_dir
    end.

(** ** The run and its digest *)

(** [s.split(c)] for a one-character separator. *)
Fixpoint split_char (c : ascii) (s : string) : list string :=
  match s with
  | EmptyString => [EmptyString]
  | String a s' =>
      if Ascii.eqb a c then EmptyString :: split_char c s'
      else
        match split_char c s' with
        | x :: r => String a x :: r
        | [] => [String a EmptyString]
        end
  end.

(** [split_tags] of [write_summary]:
    [[x.strip() for x in s.split(";") if x.strip()]], and [[]] for [""]. *)
Definition split_tags (s : string) : list string :=
  if String.eqb s "" then []
  else filter (fun x => negb (String.eqb x "")) (map strip (split_char ";" s)).

(** What one record adds to the counters of [write_summary], as the list
    of counted keys: the loop body of lines 730-743. *)
Definition tech_missing_keys (r : AuditRecord) : list string :=
  if status_eqb (tech_status r) FAIL then
    map (replace_all "TECH_MISSING_" "")
        (filter (fun t => startswith t "TECH_MISSING_") (split_tags (tags r)))
  else [].

Definition fail_tag_keys (r : AuditRecord) : list string :=
  if status_eqb (overall_status r) FAIL then
    filter (fun t => startswith t "TECH_" || startswith t "HARD_FAIL_")
           (split_tags (tags r))
  else [].

Definition suspect_tag_keys (r : AuditRecord) : list string :=
  if status_eqb (overall_status r) FAIL then []
  else if status_eqb (overall_status r) SUSPECT then
    filter (fun t => startswith t "HARD_SUSPECT_") (split_tags (tags r))
  else [].

(** The records of [main]: one per sample directory, in order. *)
Definition audit_records (fs : FS) (sample_dirs : list string) (profile : string)
    (plant_thr : PlantThresholds) (animal_thr : AnimalThresholds)
    (fungi_thr : FungiThresholds) (tech_cfg : TechConfig) : list AuditRecord :=
  map (fun sd => classify_one fs sd profile plant_thr animal_thr fungi_thr tech_cfg)
      sample_dirs.

(** [[r for r in records if r.overall_status == st]] *)
Definition rows_with (st : status) (records : list AuditRecord) : list AuditRecord :=
  filter (fun r => status_eqb (overall_status r) st) records.

(** * The binary64 layer

    The definitions above read a Python [float] as an exact rational.  The
    properties that depend on what a float really is (rounding of a sum or
    of a quotient, overflow to infinity, NaN, [OverflowError] of
    [float(int)]) are stated over this second embedding of the same
    functions, in which a float is an IEEE 754 binary64 value: a
    [spec_float] with precision 53 and maximal exponent 1024, rounded to
    nearest, ties to even, as CPython does it. *)

Module B64.

Definition float : Type := spec_float.

Definition prec : Z := 53.
Definition emax : Z := 1024.

(** [float("nan")] and [0.0] *)
Definition nan : float := S754_nan.
Definition zero : float := S754_zero false.

(** [a + b] and [a / b]; the program divides only by a positive number, so
    [ZeroDivisionError] does not arise. *)
Definition fadd : float -> float -> float := SFadd prec emax.
Definition fdiv : float -> float -> float := SFdiv prec emax.

(** [a >= b], [a < b], [a > b] and [a == b]; all false when a side is NaN. *)
Definition fge (a b : float) : bool := SFleb b a.
Definition flt (a b : float) : bool := SFltb a b.
Definition fgt (a b : float) : bool := SFltb b a.
Definition feq (a b : float) : bool := SFeqb a b.

(** [x != x] *)
Definition is_nan (x : float) : bool :=
  match x with S754_nan => true | _ => false end.

(** [to_opt(x)] *)
Definition to_opt (x : float) : option float := if is_nan x then None else Some x.

(** [float(n)] for an [int]: the nearest binary64, and [None] for the
    [OverflowError] that CPython raises when that would be infinite. *)
Definition float_of_int (n : Z) : option float :=
  match binary_normalize prec emax n 0 false with
  | S754_infinity _ => None
  | x => Some x
  end.

(** The binary64 nearest to [n / d], for [0 <= n] and [0 < d]. *)
Definition float_of_ratio (n d : Z) : float :=
  match n with
  | Z0 => zero
  | _ =>
      let '(q, e, l) := SFdiv_core_binary prec emax n 0 d 0 in
      binary_round_aux prec emax false q e l
  end.

(** [float(s)] for the text of an unsigned decimal literal: the nearest
    binary64, infinity when the literal is too large. *)
Definition float_of_literal (g : decimal_literal) : float :=
  match g with
  | (ip, None) => binary_normalize prec emax (digits_value ip) 0 false
  | (ip, Some fp) =>
      let scale := (10 ^ Z.of_nat (String.length fp))%Z in
      float_of_ratio (digits_value ip * scale + digits_value fp) scale
  end.

(** [safe_float(m.group(1))]: [float] accepts every literal the pattern
    captures, so the result is never [None] here. *)
Definition safe_float (g : decimal_literal) : option float := Some (float_of_literal g).

(** The blanks that [int(str)] skips at both ends of an ASCII string: the
    space and TAB..CR. *)
Definition is_int_space (c : ascii) : bool :=
  let n := nat_of_ascii c in
  (n =? 32)%nat || ((9 <=? n) && (n <=? 13))%nat.

(** [sys.get_int_max_str_digits()], as CPython sets it by default. *)
Definition int_max_str_digits : nat := 4300.

Fixpoint count_digits (s : string) : nat :=
  match s with
  | EmptyString => O
  | String c s' => ((if is_digit c then 1 else 0) + count_digits s')%nat
  end.

(** [int(s)]: [None] for the [ValueError] of a malformed literal or of one
    with more digits than the limit. *)
Definition py_int (s : string) : option Z :=
  let y := lstrip_by is_int_space (rstrip_by is_int_space s) in
  let '(negative, body) :=
    match y with
    | String "+" r => (false, r)
    | String "-" r => (true, r)
    | _ => (false, y)
    end in
  match int_digits 0 false body with
  | Some v =>
      if (count_digits body <=? int_max_str_digits)%nat
      then Some (if negative then (- v)%Z else v)
      else None
  | None => None
  end.

(** [safe_int(x)] *)
Definition safe_int (x : string) : option Z := py_int (remove_char "," x).

(** The value [{"bp": ..., "pct": ...}] of one key. *)
Record entry : Type := mk_entry { e_bp : float; e_pct : float }.

Definition table : Type := list (string * entry).

Fixpoint dict_set (te : table) (k : string) (v : entry) : table :=
  match te with
  | [] => [(k, v)]
  | (k', v') :: te' =>
      if String.eqb k' k then (k', v) :: te' else (k', v') :: dict_set te' k v
  end.

Fixpoint dict_get (te : table) (k : string) : option entry :=
  match te with
  | [] => None
  | (k', v) :: te' => if String.eqb k' k then Some v else dict_get te' k
  end.

(** The text of the [OverflowError] of [float(bp)]. *)
Definition overflow_message : string := "int too large to convert to float".

(** What one iteration of the [for raw in f] loop does to the loop. *)
Inductive outcome (A : Type) : Type :=
| Continue (st : A)
| Break
| Raise (e : string).

Arguments Continue {A} st.
Arguments Break {A}.
Arguments Raise {A} e.

Record state : Type := mk_state {
  out : table;
  in_table : bool;
  current_class : option string
}.

Definition init : state := mk_state [] false None.

(** [float(bp) if bp is not None else float("nan")] *)
Definition bp_float (b : option Z) : option float :=
  match b with
  | Some n => float_of_int n
  | None => Some nan
  end.

(** One iteration of the loop of [parse_teanno_sum_repeat_classes].  Each of
    the three branches that store a row evaluates [float(bp)] first. *)
Definition step (st : state) (raw : string) : outcome state :=
  let line := rstrip_nl raw in
  if negb (in_table st) then
    if Parser.is_header line
    then Continue (mk_state (out st) true None)
    else Continue st
  else if startswith (strip line) "Repeat Stats" then Break
  else
    let s := strip line in
    if String.eqb s "" then Continue st
    else if Parser.is_separator s then Continue st
    else
      match split_cols s with
      | name :: count_s :: bp_s :: pct_s :: _ =>
          if String.eqb count_s "--" && String.eqb bp_s "--" && String.eqb pct_s "--"
          then Continue (mk_state (out st) (in_table st) (Some (Parser.norm_class name)))
          else
            let bp := safe_int bp_s in
            match match re_pct pct_s with Some g => safe_float g | None => None end with
            | None => Continue st
            | Some pct =>
                match bp_float bp with
                | None => Raise overflow_message
                | Some b =>
                    let v := mk_entry b pct in
                    if String.eqb (lower name) "total"
                    then Continue (mk_state (dict_set (out st) "TOTAL" v) (in_table st) None)
                    else if String.eqb (lower name) "total interspersed"
                    then Continue (mk_state (dict_set (out st) "TOTAL_INTERSPERSED" v)
                                            (in_table st) (current_class st))
                    else
                      let is_family :=
                        startswith raw " " || startswith raw (String tab "") in
                      let key :=
                        match (if is_family then Parser.active_class (current_class st)
                               else None) with
                        | Some c => c ++ "/" ++ strip name
                        | None => upper (strip name)
                        end in
                      Continue (mk_state (dict_set (out st) key v) (in_table st)
                                         (current_class st))
                end
            end
      | _ => Continue st
      end.

(** The loop: the table, or the text of the exception that ends it. *)
Fixpoint run (st : state) (raws : list string) : string + table :=
  match raws with
  | [] => inr (out st)
  | raw :: rest =>
      match step st raw with
      | Continue st' => run st' rest
      | Break => inr (out st)
      | Raise e => inl e
      end
  end.

(** [parse_teanno_sum_repeat_classes(sum_path)]: the table, or the text of
    the exception raised by opening or reading the file or by a row. *)
Definition parse_teanno_sum_repeat_classes (fs : FS) (sum_path : string) : string + table :=
  match read_lines fs sum_path with
  | inl e => inl e
  | inr raws => run init raws
  end.

Definition get_key (te : table) (key : string) : float * float * bool :=
  match dict_get te key with
  | None => (nan, nan, false)
  | Some v => (e_pct v, e_bp v, true)
  end.

Record acc : Type := mk_acc {
  a_pct : float;
  a_bp : float;
  a_bp_ok : bool;
  a_present : bool
}.

Definition sum_step (prefix : string) (a : acc) (kv : string * entry) : acc :=
  let (k, v) := kv in
  if startswith k prefix then
    let b := e_bp v in
    if feq b b
    then mk_acc (fadd (a_pct a) (e_pct v)) (fadd (a_bp a) b) true true
    else mk_acc (fadd (a_pct a) (e_pct v)) (a_bp a) (a_bp_ok a) true
  else a.

Definition sum_by_prefix (te : table) (prefix : string) : float * float * bool :=
  let a := fold_left (sum_step prefix) te (mk_acc zero zero false false) in
  if negb (a_present a) then (nan, nan, false)
  else (a_pct a, if a_bp_ok a then a_bp a else nan, true).

Definition pick_total (te : table) : float * float * string * bool :=
  let '(pct, bp, ok) := get_key te "TOTAL" in
  if ok then (pct, bp, "TOTAL", true)
  else
    let '(pct, bp, ok) := get_key te "TOTAL_INTERSPERSED" in
    if ok then (pct, bp, "TOTAL_INTERSPERSED", true)
    else (nan, nan, "MISSING", false).

Record PlantThresholds : Type := mk_plant {
  total_pass : float;
  total_suspect : float;
  ltr_pass : float;
  ltr_suspect : float;
  tir_pass : float;
  tir_suspect : float;
  heli_warn_low : float;
  heli_warn_mid : float;
  ltr_known_hint_low : float;
  ltr_unknown_pct_hint : float;
  ltr_unknown_ratio_hint : float
}.

(** The float that a literal [ip.fp] of the source denotes. *)
Definition lit (ip fp : string) : float := float_of_literal (ip, Some fp).

Definition plant_defaults : PlantThresholds :=
  mk_plant (lit "20" "0") (lit "10" "0") (lit "5" "0") (lit "1" "0")
           (lit "2" "0") (lit "0" "5") (lit "0" "1") (lit "0" "5")
           (lit "1" "0") (lit "10" "0") (lit "0" "60").

Record AnimalThresholds : Type := mk_animal {
  an_total_pass : float;
  an_total_suspect : float;
  an_min_ltr : float;
  an_min_tir : float;
  min_nonltr : float
}.

Definition animal_defaults : AnimalThresholds :=
  mk_animal (lit "10" "0") (lit "3" "0") (lit "0" "1") (lit "0" "1") (lit "0" "2").

Record FungiThresholds : Type := mk_fungi {
  fu_total_pass : float;
  fu_total_suspect : float;
  fu_min_ltr : float;
  fu_min_tir : float
}.

Definition fungi_defaults : FungiThresholds :=
  mk_fungi (lit "5" "0") (lit "0" "5") (lit "0" "1") (lit "0" "1").

Definition tri_level (val : option float) (pass_cut suspect_cut : float) : status :=
  match val with
  | None => FAIL
  | Some v =>
      if fge v pass_cut then PASS
      else if fge v suspect_cut then SUSPECT
      else FAIL
  end.

(** [v is None or v < cut] *)
Definition none_or_below (v : option float) (cut : float) : bool :=
  match v with
  | None => true
  | Some x => flt x cut
  end.

(** [if v is None: tags.append(n) elif v == 0: tags.append(z)] *)
Definition zero_tag (v : option float) (n z : string) : list string :=
  match v with
  | None => [n]
  | Some x => tag_if (feq x zero) z
  end.

Definition classify_plant
    (total_te ltr_total tir helitron line_pct sine_pct ltr_known ltr_unknown : option float)
    (thr : PlantThresholds) : status * list string * list string :=
  let notes : list string := [] in
  let st_total := tri_level total_te (total_pass thr) (total_suspect thr) in
  let st_ltr := tri_level ltr_total (ltr_pass thr) (ltr_suspect thr) in
  let st_tir := tri_level tir (tir_pass thr) (tir_suspect thr) in
  let tags :=
    (hard_tag st_total "HARD_FAIL_TOTAL_TE" "HARD_SUSPECT_TOTAL_TE"
     ++ hard_tag st_ltr "HARD_FAIL_LTR_TOTAL" "HARD_SUSPECT_LTR_TOTAL"
     ++ hard_tag st_tir "HARD_FAIL_TIR" "HARD_SUSPECT_TIR"
     ++ match helitron with
       | None => ["WARN_HELITRON_NOT_REPORTED"]
       | Some h =>
           if flt h (heli_warn_low thr) then ["WARN_LOW_HELITRON"]
           else if flt h (heli_warn_mid thr) then ["WARN_LOW_HELITRON"]
           else []
       end
     ++ zero_tag line_pct "WARN_LINE_NOT_REPORTED" "WARN_LINE_ZERO"
     ++ zero_tag sine_pct "WARN_SINE_NOT_REPORTED" "WARN_SINE_ZERO"
     ++ match ltr_known with
       | None => ["WARN_LTR_KNOWN_NOT_REPORTED"]
       | Some k => tag_if (flt k (ltr_known_hint_low thr)) "HINT_LOW_LTR_KNOWN"
       end
     ++ match ltr_unknown, ltr_total with
       | Some u, Some t =>
           if fgt t zero then
             let ratio := fdiv u t in
             tag_if (fge u (ltr_unknown_pct_hint thr)
                     || fge ratio (ltr_unknown_ratio_hint thr))
                    "HINT_HIGH_LTR_UNKNOWN"
           else []
       | _, _ => []
       end)%list in
  if among3 FAIL st_total st_ltr st_tir then (FAIL, notes, tags)
  else if among3 SUSPECT st_total st_ltr st_tir then (SUSPECT, notes, tags)
  else (PASS, notes, tags).

Definition classify_animal
    (total_te ltr_total tir line_pct sine_pct : option float)
    (thr : AnimalThresholds) : status * list string * list string :=
  let notes : list string := [] in
  let st_total := tri_level total_te (an_total_pass thr) (an_total_suspect thr) in
  let nonltr0 : float := zero in
  let ok0 := false in
  let '(nonltr1, ok1) :=
    match line_pct with Some l => (fadd nonltr0 l, true) | None => (nonltr0, ok0) end in
  let '(nonltr, ok) :=
    match sine_pct with Some s => (fadd nonltr1 s, true) | None => (nonltr1, ok1) end in
  let tags :=
    (hard_tag st_total "HARD_FAIL_TOTAL_TE" "HARD_SUSPECT_TOTAL_TE"
     ++ tag_if (none_or_below ltr_total (an_min_ltr thr)) "WARN_LOW_LTR"
     ++ tag_if (none_or_below tir (an_min_tir thr)) "WARN_LOW_TIR"
     ++ tag_if (negb ok || flt nonltr (min_nonltr thr)) "WARN_LOW_NONLTR")%list in
  (st_total, notes, tags).

Definition classify_fungi
    (total_te ltr_total tir helitron line_pct sine_pct : option float)
    (thr : FungiThresholds) : status * list string * list string :=
  let notes : list string := [] in
  let st_total := tri_level total_te (fu_total_pass thr) (fu_total_suspect thr) in
  let tags :=
    (hard_tag st_total "HARD_FAIL_TOTAL_TE" "HARD_SUSPECT_TOTAL_TE"
     ++ tag_if (none_or_below ltr_total (fu_min_ltr thr)) "WARN_LOW_LTR"
     ++ tag_if (none_or_below tir (fu_min_tir thr)) "WARN_LOW_TIR"
     ++ tag_if (is_none helitron) "WARN_HELITRON_NOT_REPORTED"
     ++ tag_if (is_none line_pct) "WARN_LINE_NOT_REPORTED"
     ++ tag_if (is_none sine_pct) "WARN_SINE_NOT_REPORTED")%list in
  (st_total, notes, tags).

(** The dataclass [Record]; a float field may hold NaN. *)
Record AuditRecord : Type := mk_record {
  profile : string;
  genome_id : string;
  sample_id : string;
  overall_status : status;
  tech_status : status;
  bio_status : status;
  total_te_pct : float;
  total_te_bp : float;
  total_te_source : string;
  ltr_total_pct : float;
  ltr_total_bp : float;
  ltr_known_pct : float;
  ltr_known_bp : float;
  ltr_unknown_pct : float;
  ltr_unknown_bp : float;
  tir_pct : float;
  tir_bp : float;
  helitron_pct : float;
  helitron_bp : float;
  line_present : Z;
  line_pct : float;
  line_bp : float;
  sine_present : Z;
  sine_pct : float;
  sine_bp : float;
  notes : string;
  tags : string;
  missing : string;
  teanno_sum : string;
  sample_dir : string
}.

(** The record of both early returns of [classify_one]. *)
Definition unevaluated (profile genome_id sample_id notes tags missing teanno_sum
                        sample_dir : string) : AuditRecord :=
  mk_record profile genome_id sample_id FAIL FAIL NA
            nan nan "NA"
            nan nan nan nan nan nan
            nan nan
            nan nan
            0 nan nan
            0 nan nan
            notes tags missing teanno_sum sample_dir.

(** [pct += v_pct; if v_bp == v_bp: bp += v_bp; bp_ok = True] *)
Definition known_step (present : bool) (v_pct v_bp : float)
    (a : float * float * bool) : float * float * bool :=
  let '(pct, bp, bp_ok) := a in
  if present then
    if feq v_bp v_bp then (fadd pct v_pct, fadd bp v_bp, true)
    else (fadd pct v_pct, bp, bp_ok)
  else a.

(** LTR-known, lines 579-598 of [classify_one]. *)
Definition ltr_known (te : table) : float * float :=
  let '(copia_pct, copia_bp, copia_present) := get_key te "LTR/Copia" in
  let '(gypsy_pct, gypsy_bp, gypsy_present) := get_key te "LTR/Gypsy" in
  if copia_present || gypsy_present then
    let '(pct, bp, bp_ok) :=
      known_step gypsy_present gypsy_pct gypsy_bp
        (known_step copia_present copia_pct copia_bp (zero, zero, false)) in
    (pct, if bp_ok then bp else nan)
  else (nan, nan).

(** [get_key] under the first name, else under the second, else NaN. *)
Definition get_either (te : table) (k1 k2 : string) : float * float * bool :=
  let '(p, b, present) := get_key te k1 in
  if present then (p, b, present)
  else
    let '(p, b, present) := get_key te k2 in
    if present then (p, b, present) else (nan, nan, present).

(** [classify_one]: a summary file that cannot be read and a row whose
    bpMasked does not fit a float both end in the parse-error record. *)
Definition classify_one (fs : FS) (sample_dir profile : string)
    (plant_thr : PlantThresholds) (animal_thr : AnimalThresholds)
    (fungi_thr : FungiThresholds) (tech_cfg : TechConfig) : AuditRecord :=
  let sample_id := basename sample_dir in
  let genome_id := extract_genome_id sample_id in
  let paths := locate_outputs fs sample_dir in
  let '(tech_status, missing_list) := tech_check fs paths tech_cfg in
  if status_eqb tech_status FAIL then
    let tags := map (fun m => "TECH_MISSING_" ++ m) missing_list in
    unevaluated profile genome_id sample_id
                "TECH_FAIL: incomplete EDTA output"
                (join "; " tags) (join "; " missing_list)
                (or_NA (p_teanno_sum paths)) sample_dir
  else
    let teanno_sum_path := p_teanno_sum paths in
    match parse_teanno_sum_repeat_classes fs teanno_sum_path with
    | inl e =>
        unevaluated profile genome_id sample_id
                    ("TECH_FAIL: TEanno.sum parse error: " ++ e)
                    (join "; " ["TECH_PARSE_ERROR"]) "TEanno.sum(parse_error)"
                    teanno_sum_path sample_dir
    | inr te =>
        let '(total_pct, total_bp, total_source, _) := pick_total te in
        let tags0 := ["INFO_TOTAL_SOURCE_" ++ total_source] in
        let '(ltr_total_pct, ltr_total_bp, ltr_present) := sum_by_prefix te "LTR/" in
        let '(ltr_known_pct, ltr_known_bp) := ltr_known te in
        let '(ltr_unk_pct, ltr_unk_bp, _) := get_either te "LTR/unknown" "LTR/Unknown" in
        let '(tir_pct, tir_bp, _) := sum_by_prefix te "TIR/" in
        let '(hel_pct, hel_bp, _) := get_either te "NONTIR/helitron" "NONTIR/Helitron" in
        let '(line_pct, line_bp, line_present) := sum_by_prefix te "LINE/" in
        let '(sine_pct, sine_bp, sine_present) := sum_by_prefix te "SINE/" in
        let total_o := to_opt total_pct in
        let ltr_total_o := to_opt ltr_total_pct in
        let tir_o := to_opt tir_pct in
        let hel_o := to_opt hel_pct in
        let line_o := to_opt line_pct in
        let sine_o := to_opt sine_pct in
        let ltr_known_o := to_opt ltr_known_pct in
        let ltr_unk_o := to_opt ltr_unk_pct in
        let '(bio_status, _, bio_tags) :=
          if String.eqb profile "plant" then
            classify_plant total_o ltr_total_o tir_o hel_o line_o sine_o
                           ltr_known_o ltr_unk_o plant_thr
          else if String.eqb profile "animal" then
            classify_animal total_o ltr_total_o tir_o line_o sine_o animal_thr
          else
            classify_fungi total_o ltr_total_o tir_o hel_o line_o sine_o fungi_thr in
        let tags := (tags0 ++ bio_tags)%list in
        let overall_status := bio_status in
        mk_record profile genome_id sample_id overall_status PASS bio_status
                  total_pct total_bp total_source
                  ltr_total_pct ltr_total_bp ltr_known_pct ltr_known_bp
                  ltr_unk_pct ltr_unk_bp
                  tir_pct tir_bp
                  hel_pct hel_bp
                  (flag line_present) line_pct line_bp
                  (flag sine_present) sine_pct sine_bp
                  "" (join "; " (filter (fun t => negb (String.eqb t "")) tags)) ""
                  teanno_sum_path sample_dir
    end.

End B64.

(** * Vocabulary of the properties *)

(** FAIL > SUSPECT > PASS. *)
Definition severity (s : status) : nat :=
  match s with
  | FAIL => 2
  | SUSPECT => 1
  | _ => 0
  end.

Definition worst (a b : status) : status :=
  if (severity a <? severity b)%nat then b else a.

Definition verdict (r : status * list string * list string) : status := fst (fst r).
Definition tags_of (r : status * list string * list string) : list string := snd r.




(** The columns of a report line, as the parser cuts them. *)
Definition row_cols (raw : string) : list string :=
  split_cols (strip (rstrip_nl raw)).

(** A class-heading line: at least four columns, of which the count,
    bpMasked and %masked ones are the literal [--]; its normalised name. *)
Definition heading_name (raw : string) : option string :=
  match row_cols raw with
  | name :: count_s :: bp_s :: pct_s :: _ =>
      if String.eqb count_s "--" && String.eqb bp_s "--" && String.eqb pct_s "--"
      then Some (Parser.norm_class name)
      else None
  | _ => None
  end.

(** The name column of a line with at least four columns. *)
Definition row_name (raw : string) : option string :=
  match row_cols raw with
  | name :: _ :: _ :: _ :: _ => Some name
  | _ => None
  end.

(** The line is indented: it begins with a space or a tab. *)
Definition is_family (raw : string) : bool :=
  startswith raw " " || startswith raw (String tab "").

Definition has_slash (k : string) : bool := exists_char (Ascii.eqb "/") k.

(** The invariant in the words of the specification: every key with a
    slash is [class/family] for a class that some class-heading line of the
    input carries. *)
Definition slash_keys_have_headings (raws : list string) : Prop :=
  forall k, In k (keys (parse_teanno_sum_repeat_classes raws)) ->
    has_slash k = true ->
    exists c fam j h,
      k = c ++ "/" ++ fam /\ nth_error raws j = Some h /\ heading_name h = Some c.

(** Where a key of the table comes from: a grand-total row, a row stored
    under its own upper-cased name, or an indented row stored under the
    class of a heading line that precedes it. *)
Definition key_origin (raws : list string) (k : string) : Prop :=
  k = "TOTAL"
  \/ k = "TOTAL_INTERSPERSED"
  \/ (exists i d name,
        nth_error raws i = Some d /\ row_name d = Some name
        /\ k = upper (strip name))
  \/ (exists j h c i d name,
        (j < i)%nat
        /\ nth_error raws j = Some h /\ heading_name h = Some c
        /\ nth_error raws i = Some d /\ row_name d = Some name
        /\ is_family d = true
        /\ k = c ++ "/" ++ strip name).

(** A heading among the lines read so far, carrying the class [c]. *)
Definition heading_seen (done : list string) (c : string) : Prop :=
  exists j h, nth_error done j = Some h /\ heading_name h = Some c.

(** No metric of the record is populated: every float field is NaN, the
    presence flags are 0 and the total's source is [NA]. *)
Definition metrics_absent (r : AuditRecord) : Prop :=
  total_te_pct r = None /\ total_te_bp r = None /\ total_te_source r = "NA"
  /\ ltr_total_pct r = None /\ ltr_total_bp r = None
  /\ ltr_known_pct r = None /\ ltr_known_bp r = None
  /\ ltr_unknown_pct r = None /\ ltr_unknown_bp r = None
  /\ tir_pct r = None /\ tir_bp r = None
  /\ helitron_pct r = None /\ helitron_bp r = None
  /\ line_present r = 0%Z /\ line_pct r = None /\ line_bp r = None
  /\ sine_present r = 0%Z /\ sine_pct r = None /\ sine_bp r = None.

(** The same directory tree, with other file contents. *)
Definition with_contents (fs : FS) (rd : string -> string + list string) : FS :=
  mk_fs (listdir fs) (is_nonempty_file fs) (is_dir fs) rd.

(** The repeat-library file is not there: no path for it, or no non-empty
    file at that path. *)
Definition telib_missing (fs : FS) (sample_dir : string) : Prop :=
  p_telib_fa (locate_outputs fs sample_dir) = ""
  \/ is_nonempty_file fs (p_telib_fa (locate_outputs fs sample_dir)) = false.

Definition artifact_labels : list string :=
  ["TEanno.sum"; "TEanno.gff3"; "TElib.fa"; "EDTA.anno/"].

Definition no_semicolon (t : string) : Prop :=
  exists_char (Ascii.eqb ";") t = false.

(** The field is a list of tags joined by [; ], none with a semicolon. *)
Definition tags_well_formed (s : string) : Prop :=
  exists ts, s = join "; " ts /\ Forall no_semicolon ts.

(** The field is a list of artifact labels joined by [; ]. *)
Definition missing_uses_labels (s : string) : Prop :=
  exists ms, s = join "; " ms /\ Forall (fun m => In m artifact_labels) ms.

(** A file system in which every artifact of the sample is in place and
    the summary file cannot be read. *)
Definition unreadable_fs : FS :=
  mk_fs (fun _ => ["g.fna.mod.EDTA.TEanno.sum"]) (fun _ => true) (fun _ => true)
        (fun _ => inl "Permission denied").

(** A sample whose repeat library is an empty file. *)
Definition no_telib_fs : FS :=
  mk_fs (fun _ => ["g.fna"; "g.fna.mod.EDTA.TEanno.sum"])
        (fun p => negb (endswith p "TElib.fa")) (fun _ => true)
        (fun _ => inr []).

(** A small report: one class with three families, and the grand total. *)
Definition small_report : list string :=
  ["Class  Count  bpMasked  %masked";
   "LTR    --     --        --";
   "    Copia    10  1,000  1.00%";
   "    Gypsy    20  5,000  2.5%";
   "    unknown  5   x      0.25%";
   "Total    35  6,250  3.75%"].

(** Some tag of the list starts with [p]. *)
Definition has_tag_with (p : string) (tags : list string) : bool :=
  existsb (fun t => startswith t p) tags.

(** A tag that survives the digest's [split_tags] unchanged: not empty, no
    semicolon, no blank at either end. *)
Definition clean_tag (t : string) : bool :=
  negb (String.eqb t "")
  && negb (exists_char (Ascii.eqb ";") t)
  && String.eqb (lstrip t) t
  && String.eqb (rstrip t) t.

(** A required artifact is in place. *)
Definition artifact_ok (required : bool) (path : string) (ok : string -> bool) : Prop :=
  required = true -> path <> "" /\ ok path = true.

(** No name of the listing is a summary file. *)
Definition no_summary_file (fs : FS) (sample_dir : string) : Prop :=
  Forall (fun fn => endswith fn "EDTA.TEanno.sum" = false) (listdir fs sample_dir).

(** Absent, or present and below the cutoff. *)
Definition absent_or_below (v : option Q) (cut : Q) : Prop :=
  match v with
  | None => True
  | Some x => x < cut
  end.

(** [res] is what one of the three rule sets returns on a sample whose
    total-TE% is [total]. *)
Definition bio_result (total : option Q) (res : status * list string * list string) : Prop :=
  (exists ltr tir hel line sine known unk thr,
     res = classify_plant total ltr tir hel line sine known unk thr)
  \/ (exists ltr tir line sine thr, res = classify_animal total ltr tir line sine thr)
  \/ (exists ltr tir hel line sine thr, res = classify_fungi total ltr tir hel line sine thr).

(** The tags that [classify_one] joins into the tags field, by the way the
    record was built. *)
Definition record_tag_list (fs : FS) (sample_dir profile : string)
    (plant_thr : PlantThresholds) (animal_thr : AnimalThresholds)
    (fungi_thr : FungiThresholds) (tech_cfg : TechConfig)
    (ts : list string) : Prop :=
  let r := classify_one fs sample_dir profile plant_thr animal_thr fungi_thr tech_cfg in
  tags r = join "; " ts
  /\ forallb clean_tag ts = true
  /\ ((exists ms,
         tech_check fs (locate_outputs fs sample_dir) tech_cfg = (FAIL, ms)
         /\ ms <> [] /\ Forall (fun m => In m artifact_labels) ms
         /\ ts = map (fun m => "TECH_MISSING_" ++ m) ms
         /\ tech_status r = FAIL /\ overall_status r = FAIL /\ bio_status r = NA
         /\ total_te_pct r = None)
      \/ (ts = ["TECH_PARSE_ERROR"]
          /\ tech_status r = FAIL /\ overall_status r = FAIL /\ bio_status r = NA
          /\ total_te_pct r = None)
      \/ (exists res src,
            ts = ("INFO_TOTAL_SOURCE_" ++ src) :: tags_of res
            /\ tech_status r = PASS
            /\ overall_status r = verdict res /\ bio_status r = verdict res
            /\ total_te_source r = src
            /\ (src = "MISSING" -> total_te_pct r = None)
            /\ bio_result (total_te_pct r) res)).



(** A line that carries nothing but layout: blank, or a rule of at least
    five [-] and [=]. *)
Definition layout_line (raw : string) : bool :=
  let s := strip (rstrip_nl raw) in
  String.eqb s "" || Parser.is_separator s.

(** A line of the table region that is no row: fewer than four columns, or
    a %masked column that is no unsigned decimal on a line that is no class
    heading. *)
Definition malformed_row (raw : string) : bool :=
  match row_cols raw with
  | _ :: count_s :: bp_s :: pct_s :: _ =>
      negb (String.eqb count_s "--" && String.eqb bp_s "--" && String.eqb pct_s "--")
      && is_none (re_pct pct_s)
  | _ => true
  end.

(** The line is neither the header nor the end marker. *)
Definition plain_line (raw : string) : bool :=
  negb (Parser.is_header (rstrip_nl raw))
  && negb (startswith (strip (rstrip_nl raw)) "Repeat Stats").


(** ** Vocabulary of the binary64 properties *)

(** An absent component counts as [0.0] in a sum. *)
Definition contribution (v : option B64.float) : B64.float :=
  match v with
  | Some x => x
  | None => B64.zero
  end.

(** The condition for [HINT_HIGH_LTR_UNKNOWN] in the words of the
    specification: the absolute cutoff does not look at LTR-total. *)
Definition high_unknown_as_specified (ltr_unknown ltr_total : option B64.float)
    (thr : B64.PlantThresholds) : Prop :=
  exists u, ltr_unknown = Some u
    /\ (B64.fge u (B64.ltr_unknown_pct_hint thr) = true
        \/ exists t, ltr_total = Some t /\ B64.fgt t B64.zero = true
                     /\ B64.fge (B64.fdiv u t) (B64.ltr_unknown_ratio_hint thr) = true).

(** The condition that [classify_plant] tests: both cutoffs sit behind the
    guard on LTR-total, and the ratio is the rounded quotient. *)
Definition high_unknown_guarded (ltr_unknown ltr_total : option B64.float)
    (thr : B64.PlantThresholds) : Prop :=
  exists u t, ltr_unknown = Some u /\ ltr_total = Some t
    /\ B64.fgt t B64.zero = true
    /\ (B64.fge u (B64.ltr_unknown_pct_hint thr) = true
        \/ B64.fge (B64.fdiv u t) (B64.ltr_unknown_ratio_hint thr) = true).

(** [math.isfinite(x)] *)
Definition is_finite (x : B64.float) : bool :=
  match x with
  | S754_zero _ | S754_finite _ _ _ => true
  | _ => false
  end.

(** [x >= 0.0]: a zero, a positive number or [+inf]; never NaN. *)
Definition nonneg64 (x : B64.float) : Prop := B64.fge x B64.zero = true.

(** Every percentage stored in the table that the parser returns for the
    file is finite and at least 0. *)
Definition percentages_finite_nonneg (fs : FS) (sum_path : string) : Prop :=
  forall te, B64.parse_teanno_sum_repeat_classes fs sum_path = inr te ->
  forall k v, In (k, v) te -> is_finite (B64.e_pct v) = true /\ nonneg64 (B64.e_pct v).

(** [n] zeros. *)
Fixpoint zeros (n : nat) : string :=
  match n with
  | O => EmptyString
  | S n' => String "0" (zeros n')
  end.

(** A complete sample whose summary file holds the lines [raws]. *)
Definition fs_of_lines (raws : list string) : FS :=
  mk_fs (fun _ => ["g.fna.mod.EDTA.TEanno.sum"]) (fun _ => true) (fun _ => true)
        (fun _ => inr raws).

(** A report with a %masked literal of 310 digits. *)
Definition huge_percentage_report : list string :=
  ["Class  Count  bpMasked  %masked";
   "Satellite  1  2  1" ++ zeros 309 ++ "%"].

(** A report with a bpMasked literal of 310 digits. *)
Definition huge_bp_report : list string :=
  ["Class  Count  bpMasked  %masked";
   "Satellite  1  1" ++ zeros 309 ++ "  0.5%"].

(** A report whose three LTR percentages do not add up exactly. *)
Definition rounding_report : list string :=
  ["Class  Count  bpMasked  %masked";
   "LTR    --     --        --";
   "    Copia    10  1,000  0.1%";
   "    Gypsy    20  5,000  4.1%";
   "    unknown  5   x      0.8%"].

(** The entry of the pair counts under [prefix]. *)
Definition under_prefix (prefix : string) (kv : string * B64.entry) : bool :=
  startswith (fst kv) prefix.

(** The entry counts under [prefix] and has a numeric base-pair value. *)
Definition under_prefix_with_bp (prefix : string) (kv : string * B64.entry) : bool :=
  startswith (fst kv) prefix && B64.feq (B64.e_bp (snd kv)) (B64.e_bp (snd kv)).

(** [0.0 + x1 + ... + xn], added from left to right. *)
Definition float_sum (xs : list B64.float) : B64.float :=
  fold_left B64.fadd xs B64.zero.

(** A listing with two summary files. *)
Definition two_summaries_fs : FS :=
  mk_fs (fun _ => ["g.fna"; "a.EDTA.TEanno.sum"; "b.EDTA.TEanno.sum"])
        (fun _ => true) (fun _ => true) (fun _ => inr []).

(** The text after the accession does not go on with a digit. *)
Definition no_leading_digit (s : string) : bool :=
  match s with
  | String c _ => negb (is_digit c)
  | EmptyString => true
  end.

(** [s] starts with the accession [a]: [GCA_] or [GCF_], digits, a point and
    the longest run of digits after it. *)
Definition accession_of (s a : string) : Prop :=
  exists c d1 d2 rest,
    (c = "A"%char \/ c = "F"%char)
    /\ forall_chars is_digit d1 = true /\ d1 <> ""
    /\ forall_chars is_digit d2 = true /\ d2 <> ""
    /\ no_leading_digit rest = true
    /\ s = String "G" (String "C" (String c (String "_" (d1 ++ String "." (d2 ++ rest)))))
    /\ a = String "G" (String "C" (String c (String "_" (d1 ++ String "." d2)))).

(** A zero, a positive number or [+inf]. *)
Definition plus_or_zero (x : B64.float) : bool :=
  match x with
  | S754_zero _ => true
  | S754_infinity s | S754_finite s _ _ => negb s
  | S754_nan => false
  end.

(** Every stored percentage is a zero, a positive number or [+inf]. *)
Definition nonneg_table64 (te : B64.table) : Prop :=
  Forall (fun kv : string * B64.entry => plus_or_zero (B64.e_pct (snd kv)) = true) te.

(** * Properties *)

(** ** Comparisons *)

Lemma geb_true (a b : Q) : geb a b = true <-> b <= a.
Proof. unfold geb. apply Qle_bool_iff. Qed.

Lemma geb_false (a b : Q) : geb a b = false <-> a < b.
Proof.
  unfold geb. split.
  - intros H. apply Qnot_le_lt. intros L. apply Qle_bool_iff in L. congruence.
  - intros H. destruct (Qle_bool b a) eqn:E; [|reflexivity].
    apply Qle_bool_iff in E. exfalso. exact (Qlt_not_le _ _ H E).
Qed.

Lemma ltb_true (a b : Q) : ltb a b = true <-> a < b.
Proof.
  unfold ltb. rewrite negb_true_iff. apply (geb_false a b).
Qed.

(** ** The tri-level primitive *)

(** C2.  [tri_level] is FAIL on an absent value, whatever the cutoffs; on a
    present value [v] it is PASS when [v >= passCut], SUSPECT when
    [suspectCut <= v < passCut], and FAIL in every other case. *)
Theorem tri_level_cases (pass_cut suspect_cut : Q) :
  tri_level None pass_cut suspect_cut = FAIL
  /\ forall v : Q,
       (pass_cut <= v -> tri_level (Some v) pass_cut suspect_cut = PASS)
       /\ (suspect_cut <= v /\ v < pass_cut ->
           tri_level (Some v) pass_cut suspect_cut = SUSPECT)
       /\ (~ pass_cut <= v -> ~ (suspect_cut <= v /\ v < pass_cut) ->
           tri_level (Some v) pass_cut suspect_cut = FAIL).
Proof.
  split; [reflexivity|].
  intros v. unfold tri_level.
  destruct (geb v pass_cut) eqn:Hp.
  - apply geb_true in Hp. repeat split; intros; try reflexivity.
    + destruct H as [_ H]. exfalso. exact (Qlt_not_le _ _ H Hp).
    + contradiction.
  - apply geb_false in Hp.
    destruct (geb v suspect_cut) eqn:Hs.
    + apply geb_true in Hs. repeat split; intros; try reflexivity.
      * exfalso. exact (Qlt_not_le _ _ Hp H).
      * exfalso. apply H0. split; assumption.
    + apply geb_false in Hs. repeat split; intros; try reflexivity.
      * exfalso. exact (Qlt_not_le _ _ Hp H).
      * destruct H as [H _]. exfalso. exact (Qlt_not_le _ _ Hs H).
Qed.

Lemma tri_level_cases_witness :
  tri_level None 20 10 = FAIL
  /\ tri_level (Some 25) 20 10 = PASS
  /\ tri_level (Some 12.5) 20 10 = SUSPECT
  /\ tri_level (Some 3) 20 10 = FAIL.
Proof.
  destruct (tri_level_cases 20 10) as [H0 H].
  split; [exact H0|].
  split; [apply (H 25); discriminate|].
  split; [apply (H 12.5); split; [discriminate|reflexivity]|].
  apply (H 3).
  - intros L. apply L. reflexivity.
  - intros [L _]. apply L. reflexivity.
Defined.

(** ** The plant rule set *)

Lemma tri_level_not_NA (v : option Q) (p s : Q) : tri_level v p s <> NA.
Proof.
  unfold tri_level. destruct v as [x|]; [|discriminate].
  destruct (geb x p); [discriminate|]. destruct (geb x s); discriminate.
Qed.

(** C3.  The verdict of [classify_plant] is the worst of the tri-level
    statuses of total-TE%, LTR-total% and TIR%, and it is the same for every
    choice of the helitron, LINE, SINE, LTR-known and LTR-unknown inputs. *)
Theorem classify_plant_verdict
    (total_te ltr_total tir helitron line_pct sine_pct ltr_known ltr_unknown : option Q)
    (thr : PlantThresholds) :
  verdict (classify_plant total_te ltr_total tir helitron line_pct sine_pct
                          ltr_known ltr_unknown thr)
  = worst (worst (tri_level total_te (total_pass thr) (total_suspect thr))
                 (tri_level ltr_total (ltr_pass thr) (ltr_suspect thr)))
          (tri_level tir (tir_pass thr) (tir_suspect thr))
  /\ forall helitron' line_pct' sine_pct' ltr_known' ltr_unknown' : option Q,
       verdict (classify_plant total_te ltr_total tir helitron' line_pct' sine_pct'
                               ltr_known' ltr_unknown' thr)
       = verdict (classify_plant total_te ltr_total tir helitron line_pct sine_pct
                                 ltr_known ltr_unknown thr).
Proof.
  assert (V : forall h l s k u,
             verdict (classify_plant total_te ltr_total tir h l s k u thr)
             = worst (worst (tri_level total_te (total_pass thr) (total_suspect thr))
                            (tri_level ltr_total (ltr_pass thr) (ltr_suspect thr)))
                     (tri_level tir (tir_pass thr) (tir_suspect thr))).
  { intros h l s k u. unfold classify_plant.
    pose proof (tri_level_not_NA total_te (total_pass thr) (total_suspect thr)) as N1.
    pose proof (tri_level_not_NA ltr_total (ltr_pass thr) (ltr_suspect thr)) as N2.
    pose proof (tri_level_not_NA tir (tir_pass thr) (tir_suspect thr)) as N3.
    destruct (tri_level total_te _ _), (tri_level ltr_total _ _), (tri_level tir _ _);
      try reflexivity; congruence. }
  split.
  - apply V.
  - intros. rewrite !V. reflexivity.
Qed.

(** ** Advisory tags *)

Ltac in_tags :=
  repeat match goal with
         | H : In _ (_ ++ _) |- _ => apply in_app_or in H; destruct H as [H|H]
         | H : In _ (_ :: _) |- _ => destruct H as [H|H]; [try discriminate H|]
         | H : In _ [] |- _ => destruct H
         end.

Lemma in_hard_tag (x : string) (st : status) (f s : string) :
  In x (hard_tag st f s) -> x = f \/ x = s.
Proof. destruct st; simpl; intuition. Qed.

Lemma in_tag_if (x : string) (c : bool) (t : string) :
  In x (tag_if c t) <-> c = true /\ x = t.
Proof. destruct c; simpl; intuition congruence. Qed.

(** ** The model on concrete inputs *)

Example split_cols_keeps_single_blanks :
  split_cols "total interspersed    100   2,000   12.5%"
  = ["total interspersed"; "100"; "2,000"; "12.5%"].
Proof. reflexivity. Qed.

Example header_line_recognised :
  Parser.is_header "Class                  Count        bpMasked    %masked" = true
  /\ Parser.is_header "class  Count  bpMasked  %masked" = false
  /\ Parser.is_header "Class Count bpMasked %masked trailing" = false.
Proof. repeat split; reflexivity. Qed.

Example percentage_tokens :
  re_pct "12.5%" = Some ("12", Some "5")
  /\ re_pct "7" = Some ("7", None)
  /\ re_pct "12." = None /\ re_pct "-3%" = None /\ re_pct "--" = None.
Proof. repeat split; reflexivity. Qed.

Example small_report_keys :
  keys (parse_teanno_sum_repeat_classes small_report)
  = ["LTR/Copia"; "LTR/Gypsy"; "LTR/unknown"; "TOTAL"].
Proof. reflexivity. Qed.

Example rows_after_repeat_stats_ignored :
  keys (parse_teanno_sum_repeat_classes
          (small_report ++ ["Repeat Stats"; "TIR    --  --  --"; "    CACTA  1  2  3%"])%list)
  = ["LTR/Copia"; "LTR/Gypsy"; "LTR/unknown"; "TOTAL"].
Proof. reflexivity. Qed.

Example plant_end_to_end :
  classify_plant (Some 25) (Some 8) (Some 3) None None None (Some 0.5) (Some 9)
                 plant_defaults
  = (PASS, [],
     ["WARN_HELITRON_NOT_REPORTED"; "WARN_LINE_NOT_REPORTED"; "WARN_SINE_NOT_REPORTED";
      "HINT_LOW_LTR_KNOWN"; "HINT_HIGH_LTR_UNKNOWN"]).
Proof. reflexivity. Qed.

Example anno_dir_optional :
  let fs := mk_fs (fun _ => ["g.fna.mod.EDTA.TEanno.sum"]) (fun _ => true)
                  (fun _ => false) (fun _ => inr small_report) in
  tech_check fs (locate_outputs fs "/data/GCA_000001.1_genomic")
             (mk_cfg true true true false) = (PASS, [])
  /\ tech_check fs (locate_outputs fs "/data/GCA_000001.1_genomic") tech_defaults
     = (FAIL, ["EDTA.anno/"]).
Proof. split; reflexivity. Qed.

(** ** The parser: no header, no table *)

Lemma step_before_header (st : Parser.state) (raw : string) :
  Parser.in_table st = false ->
  Parser.is_header (rstrip_nl raw) = false ->
  Parser.step st raw = Some st.
Proof.
  intros Hin Hh. unfold Parser.step. rewrite Hin, Hh. reflexivity.
Qed.

Lemma run_before_header (raws : list string) (st : Parser.state) :
  Parser.in_table st = false ->
  (forall raw, In raw raws -> Parser.is_header (rstrip_nl raw) = false) ->
  Parser.run st raws = Parser.out st.
Proof.
  induction raws as [|raw rest IH]; intros Hin Hall; [reflexivity|].
  simpl. rewrite step_before_header; auto using in_eq.
  apply IH; auto using in_cons.
Qed.

(** C5.  When no line of the input matches the header pattern, the parser
    returns the empty table, and [pick_total] of that table reports the
    source [MISSING] with both values absent.  Both functions are total:
    neither has an error result. *)
Theorem no_header_empty_table (raws : list string) :
  (forall raw, In raw raws -> Parser.is_header (rstrip_nl raw) = false) ->
  parse_teanno_sum_repeat_classes raws = []
  /\ pick_total (parse_teanno_sum_repeat_classes raws) = (None, None, "MISSING", false).
Proof.
  intros H.
  assert (E : parse_teanno_sum_repeat_classes raws = []).
  { unfold parse_teanno_sum_repeat_classes. rewrite run_before_header; auto. }
  rewrite E. split; reflexivity.
Qed.

Lemma no_header_empty_table_witness :
  let raws := ["Repeat Classes"; "LTR   --   --   --"; "    Copia   10   1,000   1.00%"] in
  parse_teanno_sum_repeat_classes raws = []
  /\ pick_total (parse_teanno_sum_repeat_classes raws) = (None, None, "MISSING", false).
Proof.
  apply no_header_empty_table.
  intros raw [<-|[<-|[<-|[]]]]; reflexivity.
Defined.

(** ** The parser: stored percentages *)

Lemma digit_value_nonneg (c : ascii) : (0 <= digit_value c)%Z.
Proof. unfold digit_value. lia. Qed.

Lemma digits_value_from_nonneg (s : string) (a : Z) :
  (0 <= a)%Z -> (0 <= digits_value_from a s)%Z.
Proof.
  revert a. induction s as [|c s IH]; intros a Ha; cbn [digits_value_from]; [exact Ha|].
  apply IH. pose proof (digit_value_nonneg c). lia.
Qed.

Lemma digits_value_nonneg (s : string) : (0 <= digits_value s)%Z.
Proof. apply digits_value_from_nonneg. lia. Qed.



(** Every way through one loop iteration: the table is left alone or one
    key receives a row whose percentage came out of [safe_float]. *)
Lemma step_out (st st' : Parser.state) (raw : string) :
  Parser.step st raw = Some st' ->
  Parser.out st' = Parser.out st
  \/ exists k b g q,
       safe_float g = Some q
       /\ Parser.out st' = dict_set (Parser.out st) k (mk_entry b q).
Proof.
  unfold Parser.step. intros H.
  repeat match type of H with
         | (if ?c then _ else _) = _ => destruct c
         | match ?x with _ => _ end = _ => destruct x eqn:?
         | (let _ := _ in _) = _ => cbv zeta in H
         end;
    try discriminate H; injection H as <-; simpl; auto;
    right;
    match goal with
    | Hq : match re_pct ?x with _ => _ end = Some _ |- _ =>
        destruct (re_pct x); [|discriminate Hq]
    end;
    eauto 10.
Qed.




(** ** Prefix sums *)




(** ** The parser: where keys come from *)

Lemma keys_dict_set (te : table) (k : string) (v : entry) (k' : string) :
  In k' (keys (dict_set te k v)) -> k' = k \/ In k' (keys te).
Proof.
  unfold keys. induction te as [|[k0 v0] te IH]; simpl.
  - intros [<-|[]]. auto.
  - destruct (String.eqb k0 k) eqn:E; simpl.
    + tauto.
    + intros [<-|H]; [tauto|]. apply IH in H. tauto.
Qed.

Lemma active_family (raw : string) (cc : option string) (c : string) :
  (if startswith raw " " || startswith raw (String tab "")
   then Parser.active_class cc else None) = Some c ->
  is_family raw = true /\ cc = Some c.
Proof.
  unfold is_family.
  destruct (startswith raw " " || startswith raw (String tab "")); [|discriminate].
  unfold Parser.active_class. destruct cc as [c'|]; [|discriminate].
  destruct (String.eqb c' ""); [discriminate|].
  intros H. injection H as <-. auto.
Qed.

(** One loop iteration, seen from the keys and the carried class. *)
Lemma step_cases (st st' : Parser.state) (raw : string) :
  Parser.step st raw = Some st' ->
  (Parser.out st' = Parser.out st
   /\ (Parser.current_class st' = Parser.current_class st
       \/ Parser.current_class st' = None
       \/ exists c, Parser.current_class st' = Some c /\ heading_name raw = Some c))
  \/ (exists k v,
        Parser.out st' = dict_set (Parser.out st) k v
        /\ (Parser.current_class st' = Parser.current_class st
            \/ Parser.current_class st' = None)
        /\ (k = "TOTAL" \/ k = "TOTAL_INTERSPERSED"
            \/ exists name,
                 row_name raw = Some name
                 /\ (k = upper (strip name)
                     \/ exists c, Parser.current_class st = Some c
                                  /\ is_family raw = true
                                  /\ k = c ++ "/" ++ strip name))).
Proof.
  unfold Parser.step. intros H.
  repeat match type of H with
         | (if ?c then _ else _) = _ => destruct c eqn:?
         | match ?x with _ => _ end = _ => destruct x eqn:?
         | (let _ := _ in _) = _ => cbv zeta in H
         end;
    try discriminate H; injection H as <-; cbn [Parser.out Parser.current_class];
    try (left; split; [reflexivity|]; auto; fail).
  - (* class heading *)
    left. split; [reflexivity|]. right. right. eexists. split; [reflexivity|].
    unfold heading_name, row_cols.
    match goal with E : split_cols _ = _ |- _ => rewrite E end.
    match goal with E : (_ && _) = true |- _ => rewrite E end. reflexivity.
  - right. do 2 eexists. split; [reflexivity|]. auto.
  - right. do 2 eexists. split; [reflexivity|]. auto.
  - (* data row *)
    right. do 2 eexists. split; [reflexivity|]. split; [auto|].
    right. right. eexists. split.
    + unfold row_name, row_cols.
      match goal with E : split_cols _ = _ |- _ => rewrite E end. reflexivity.
    + destruct (if startswith raw " " || startswith raw (String tab "")
                then Parser.active_class (Parser.current_class st) else None)
        as [c|] eqn:E.
      * apply active_family in E. destruct E as [? ?]. right. eauto.
      * left. reflexivity.
Qed.

Lemma nth_error_snoc_old {A : Type} (l : list A) (x : A) (i : nat) (y : A) :
  nth_error l i = Some y -> nth_error (l ++ [x]) i = Some y.
Proof.
  intros H. rewrite nth_error_app1; [exact H|].
  apply nth_error_Some. congruence.
Qed.

Lemma nth_error_snoc_new {A : Type} (l : list A) (x : A) :
  nth_error (l ++ [x]) (List.length l) = Some x.
Proof.
  rewrite nth_error_app2 by lia. rewrite Nat.sub_diag. reflexivity.
Qed.

Lemma nth_error_prefix {A : Type} (l r : list A) (i : nat) (y : A) :
  nth_error l i = Some y -> nth_error (l ++ r) i = Some y.
Proof.
  intros H. rewrite nth_error_app1; [exact H|].
  apply nth_error_Some. congruence.
Qed.

Lemma key_origin_prefix (done rest : list string) (k : string) :
  key_origin done k -> key_origin (done ++ rest) k.
Proof.
  intros [H|[H|[(i & d & name & Hi & Hn & Hk)
               |(j & h & c & i & d & name & Hji & Hj & Hh & Hi & Hn & Hf & Hk)]]].
  - left. exact H.
  - right. left. exact H.
  - right. right. left. exists i, d, name. eauto using nth_error_prefix.
  - right. right. right. exists j, h, c, i, d, name.
    repeat split; eauto using nth_error_prefix.
Qed.

Lemma run_key_origin (rest done : list string) (st : Parser.state) :
  (forall k, In k (keys (Parser.out st)) -> key_origin done k) ->
  (forall c, Parser.current_class st = Some c -> heading_seen done c) ->
  forall k, In k (keys (Parser.run st rest)) -> key_origin (done ++ rest) k.
Proof.
  revert done st. induction rest as [|raw rest IH]; intros done st Hk Hc k Hin.
  - simpl in Hin. apply key_origin_prefix. auto.
  - simpl in Hin. destruct (Parser.step st raw) as [st'|] eqn:Hs.
    + replace (done ++ raw :: rest)%list with ((done ++ [raw]) ++ rest)%list
        by (rewrite <- app_assoc; reflexivity).
      apply (IH (done ++ [raw])%list st'); [| |exact Hin].
      * (* keys of the new table *)
        intros k' Hk'. apply step_cases in Hs.
        destruct Hs as [[Eo _]|(kn & v & Eo & _ & Hnew)].
        { rewrite Eo in Hk'. apply key_origin_prefix. auto. }
        rewrite Eo in Hk'. apply keys_dict_set in Hk'.
        destruct Hk' as [->|Hold]; [|apply key_origin_prefix; auto].
        destruct Hnew as [->|[->|(name & Hn & [->|(c & Hcc & Hf & ->)])]].
        { left. reflexivity. }
        { right. left. reflexivity. }
        { right. right. left. exists (List.length done), raw, name.
          split; [apply nth_error_snoc_new|]. auto. }
        { right. right. right.
          destruct (Hc c Hcc) as (j & h & Hj & Hh).
          exists j, h, c, (List.length done), raw, name.
          split; [apply nth_error_Some; congruence|].
          split; [apply nth_error_snoc_old; exact Hj|].
          split; [exact Hh|].
          split; [apply nth_error_snoc_new|]. auto. }
      * (* the carried class *)
        intros c Hcc. apply step_cases in Hs.
        assert (Hcur : Parser.current_class st' = Parser.current_class st
                       \/ Parser.current_class st' = None
                       \/ exists c0, Parser.current_class st' = Some c0
                                     /\ heading_name raw = Some c0).
        { destruct Hs as [[_ H]|(kn & v & _ & [H|H] & _)]; auto. }
        destruct Hcur as [E|[E|(c0 & E & Hh)]].
        { rewrite E in Hcc. destruct (Hc c Hcc) as (j & h & Hj & Hh).
          exists j, h. split; [apply nth_error_snoc_old; exact Hj|exact Hh]. }
        { congruence. }
        { rewrite E in Hcc. injection Hcc as <-.
          exists (List.length done), raw. split; [apply nth_error_snoc_new|exact Hh]. }
    + apply key_origin_prefix. auto.
Qed.

(** C4, as the code has it.  Every key of the returned table is [TOTAL],
    [TOTAL_INTERSPERSED], the upper-cased trimmed name of a data row (kept as
    it is, slash or not), or [class/name] for an indented data row, where
    [class] is the normalised name of a class-heading line that stands
    earlier in the same input. *)
Theorem parsed_key_origin (raws : list string) (k : string) :
  In k (keys (parse_teanno_sum_repeat_classes raws)) -> key_origin raws k.
Proof.
  intros H.
  apply (run_key_origin raws [] Parser.init); [| |exact H].
  - intros k' [].
  - intros c Hc. discriminate Hc.
Qed.

Lemma parsed_key_origin_witness :
  let raws := ["Class  Count  bpMasked  %masked";
               "LTR    --     --        --";
               "    Copia  10  1,000  1.00%"] in
  key_origin raws "LTR/Copia".
Proof.
  apply parsed_key_origin. left. reflexivity.
Defined.

(** C4, as stated, fails: an unindented data row named [A/B], in a report
    without any class-heading line, is stored under the key [A/B]. *)
Lemma slash_key_without_heading :
  ~ slash_keys_have_headings ["Class  Count  bpMasked  %masked"; "A/B  1  2  3%"].
Proof.
  intros H.
  destruct (H "A/B") as (c & fam & j & h & _ & Hj & Hh).
  - left. reflexivity.
  - reflexivity.
  - destruct j as [|[|j]]; simpl in Hj.
    + injection Hj as <-. discriminate Hh.
    + injection Hj as <-. discriminate Hh.
    + destruct j; discriminate Hj.
Qed.

(** ** LTR-known under LTR-total *)









(** ** The completeness gate *)

Lemma Forall_app_intro {A : Type} (P : A -> Prop) (l1 l2 : list A) :
  Forall P l1 -> Forall P l2 -> Forall P (l1 ++ l2).
Proof. intros H1 H2. apply Forall_app. split; assumption. Qed.

Lemma check_artifact_labels (required : bool) (path : string) (ok : string -> bool)
    (label : string) :
  In label artifact_labels ->
  Forall (fun m => In m artifact_labels) (check_artifact required path ok label).
Proof.
  intros H. unfold check_artifact.
  destruct required; [destruct (String.eqb path "" || negb (ok path))|];
    [apply Forall_cons; [exact H|apply Forall_nil] | apply Forall_nil | apply Forall_nil].
Qed.

Lemma tech_check_missing (fs : FS) (paths : Paths) (cfg : TechConfig) :
  let missing :=
    (check_artifact (require_teanno_sum cfg) (p_teanno_sum paths) (is_nonempty_file fs) "TEanno.sum"
     ++ check_artifact (require_teanno_gff3 cfg) (p_teanno_gff3 paths) (is_nonempty_file fs) "TEanno.gff3"
     ++ check_artifact (require_telib_fa cfg) (p_telib_fa paths) (is_nonempty_file fs) "TElib.fa"
     ++ check_artifact (require_anno_dir cfg) (p_anno_dir paths) (is_dir fs) "EDTA.anno/")%list in
  (missing = [] /\ tech_check fs paths cfg = (PASS, []))
  \/ (missing <> [] /\ tech_check fs paths cfg = (FAIL, missing)).
Proof.
  intros missing. unfold tech_check. fold missing.
  destruct missing; [left|right]; split; auto; discriminate.
Qed.

Lemma tech_check_labels (fs : FS) (paths : Paths) (cfg : TechConfig) :
  Forall (fun m => In m artifact_labels) (snd (tech_check fs paths cfg)).
Proof.
  destruct (tech_check_missing fs paths cfg) as [[_ ->]|[_ ->]]; simpl.
  - constructor.
  - repeat apply Forall_app_intro; apply check_artifact_labels; simpl; auto 6.
Qed.

Lemma tech_check_status (fs : FS) (paths : Paths) (cfg : TechConfig) :
  (fst (tech_check fs paths cfg) = PASS /\ snd (tech_check fs paths cfg) = [])
  \/ (fst (tech_check fs paths cfg) = FAIL /\ snd (tech_check fs paths cfg) <> []).
Proof.
  destruct (tech_check_missing fs paths cfg) as [[_ ->]|[H ->]]; simpl; auto.
Qed.

Lemma classify_one_tech_fail (fs : FS) (sample_dir profile : string)
    (plant_thr : PlantThresholds) (animal_thr : AnimalThresholds)
    (fungi_thr : FungiThresholds) (tech_cfg : TechConfig) (ms : list string) :
  tech_check fs (locate_outputs fs sample_dir) tech_cfg = (FAIL, ms) ->
  classify_one fs sample_dir profile plant_thr animal_thr fungi_thr tech_cfg
  = unevaluated profile (extract_genome_id (basename sample_dir)) (basename sample_dir)
                "TECH_FAIL: incomplete EDTA output"
                (join "; " (map (fun m => "TECH_MISSING_" ++ m) ms)) (join "; " ms)
                (or_NA (p_teanno_sum (locate_outputs fs sample_dir))) sample_dir.
Proof.
  intros H. unfold classify_one. rewrite H. reflexivity.
Qed.

Lemma unevaluated_metrics_absent (p g s n t m ts sd : string) :
  metrics_absent (unevaluated p g s n t m ts sd).
Proof. unfold metrics_absent. simpl. repeat split. Qed.

(** C1.  When the completeness check of a sample directory fails, the list
    of missing artifacts is not empty and [classify_one] returns a record
    with overall FAIL, technical FAIL, biological NA and no metric
    populated, whose missing field is that list; the record is the same
    whatever the files contain and whatever the thresholds are, so nothing
    is parsed, extracted or classified.  In particular, when the repeat
    library is required and absent, the check fails, [TElib.fa] is in the
    list, and the record of an animal-profile sample is of that kind. *)
Theorem tech_fail_record :
  (forall (fs : FS) (sample_dir profile : string)
     (plant_thr : PlantThresholds) (animal_thr : AnimalThresholds)
     (fungi_thr : FungiThresholds) (tech_cfg : TechConfig) (ms : list string),
     tech_check fs (locate_outputs fs sample_dir) tech_cfg = (FAIL, ms) ->
     let r := classify_one fs sample_dir profile plant_thr animal_thr fungi_thr
                           tech_cfg in
     ms <> []
     /\ overall_status r = FAIL /\ tech_status r = FAIL /\ bio_status r = NA
     /\ metrics_absent r
     /\ missing r = join "; " ms
     /\ forall rd plant_thr' animal_thr' fungi_thr',
          classify_one (with_contents fs rd) sample_dir profile
                       plant_thr' animal_thr' fungi_thr' tech_cfg = r)
  /\ (forall (fs : FS) (sample_dir : string)
        (plant_thr : PlantThresholds) (animal_thr : AnimalThresholds)
        (fungi_thr : FungiThresholds) (tech_cfg : TechConfig),
        require_telib_fa tech_cfg = true ->
        telib_missing fs sample_dir ->
        let r := classify_one fs sample_dir "animal" plant_thr animal_thr fungi_thr
                              tech_cfg in
        exists ms,
          tech_check fs (locate_outputs fs sample_dir) tech_cfg = (FAIL, ms)
          /\ In "TElib.fa" ms
          /\ missing r = join "; " ms
          /\ overall_status r = FAIL /\ tech_status r = FAIL /\ bio_status r = NA
          /\ metrics_absent r).
Proof.
  split.
  - intros fs sample_dir profile plant_thr animal_thr fungi_thr tech_cfg ms H r.
    assert (Hne : ms <> []).
    { destruct (tech_check_status fs (locate_outputs fs sample_dir) tech_cfg)
        as [[E _]|[_ E]]; rewrite H in E; simpl in E; congruence. }
    subst r. rewrite (classify_one_tech_fail _ _ _ _ _ _ _ _ H).
    repeat (split; [first [exact Hne | reflexivity | apply unevaluated_metrics_absent]|]).
    intros rd plant_thr' animal_thr' fungi_thr'.
    exact (classify_one_tech_fail (with_contents fs rd) sample_dir profile
                                  plant_thr' animal_thr' fungi_thr' tech_cfg ms H).
  - intros fs sample_dir plant_thr animal_thr fungi_thr tech_cfg Hreq Hmiss r.
    destruct (tech_check_missing fs (locate_outputs fs sample_dir) tech_cfg)
      as [[E _]|[_ E]].
    + exfalso. apply app_eq_nil in E. destruct E as [_ E].
      apply app_eq_nil in E. destruct E as [_ E].
      apply app_eq_nil in E. destruct E as [E _].
      unfold check_artifact in E. rewrite Hreq in E.
      destruct Hmiss as [Hm|Hm]; rewrite Hm in E; simpl in E; try discriminate E.
      rewrite orb_true_r in E. discriminate E.
    + eexists. split; [exact E|].
      split.
      { apply in_or_app. right. apply in_or_app. right. apply in_or_app. left.
        unfold check_artifact. rewrite Hreq.
        destruct Hmiss as [Hm|Hm]; rewrite Hm; simpl; [left; reflexivity|].
        rewrite orb_true_r. left. reflexivity. }
      subst r. rewrite (classify_one_tech_fail _ _ _ _ _ _ _ _ E).
      repeat (split; [first [reflexivity | apply unevaluated_metrics_absent]|]).
      apply unevaluated_metrics_absent.
Qed.

Lemma tech_fail_record_witness :
  let r := classify_one no_telib_fs "/data/GCA_000001.1_x_genomic" "animal"
                        plant_defaults animal_defaults fungi_defaults tech_defaults in
  missing r = "TElib.fa"
  /\ overall_status r = FAIL /\ tech_status r = FAIL /\ bio_status r = NA
  /\ metrics_absent r.
Proof.
  intros r.
  destruct (proj1 tech_fail_record no_telib_fs "/data/GCA_000001.1_x_genomic" "animal"
                  plant_defaults animal_defaults fungi_defaults tech_defaults
                  ["TElib.fa"] eq_refl)
    as (_ & Ho & Ht & Hb & Hm & Hmiss & _).
  destruct (proj2 tech_fail_record no_telib_fs "/data/GCA_000001.1_x_genomic"
                  plant_defaults animal_defaults fungi_defaults tech_defaults
                  eq_refl (or_intror eq_refl))
    as (ms & _ & Hin & _).
  repeat split; assumption.
Defined.

(** ** The tags and missing fields *)

Lemma no_semicolon_hard_tag (st : status) (f s : string) :
  no_semicolon f -> no_semicolon s -> Forall no_semicolon (hard_tag st f s).
Proof. intros Hf Hs. destruct st; simpl; repeat constructor; assumption. Qed.

Lemma no_semicolon_tag_if (c : bool) (t : string) :
  no_semicolon t -> Forall no_semicolon (tag_if c t).
Proof. intros H. destruct c; simpl; repeat constructor; assumption. Qed.

Lemma no_semicolon_zero_tag (v : option B64.float) (n z : string) :
  no_semicolon n -> no_semicolon z -> Forall no_semicolon (B64.zero_tag v n z).
Proof.
  intros Hn Hz. destruct v; unfold B64.zero_tag.
  - apply no_semicolon_tag_if. exact Hz.
  - repeat constructor. exact Hn.
Qed.

Ltac tag_pieces :=
  repeat apply Forall_app_intro;
  first [ apply no_semicolon_hard_tag; reflexivity
        | apply no_semicolon_tag_if; reflexivity
        | apply no_semicolon_zero_tag; reflexivity
        | idtac ].

Lemma classify_plant_tags_clean
    (total_te ltr_total tir helitron line_pct sine_pct ltr_known ltr_unknown :
       option B64.float)
    (thr : B64.PlantThresholds) :
  Forall no_semicolon
         (tags_of (B64.classify_plant total_te ltr_total tir helitron line_pct sine_pct
                                      ltr_known ltr_unknown thr)).
Proof.
  unfold B64.classify_plant.
  destruct (among3 FAIL _ _ _); [|destruct (among3 SUSPECT _ _ _)];
    unfold tags_of, snd; tag_pieces.
  all: try (destruct helitron as [h|];
            [destruct (B64.flt h _); [|destruct (B64.flt h _)]|];
            repeat constructor; fail).
  all: try (destruct ltr_known as [k|];
            [apply no_semicolon_tag_if; reflexivity|repeat constructor]; fail).
  all: destruct ltr_unknown as [u|], ltr_total as [t|]; try constructor;
       destruct (B64.fgt t B64.zero); [apply no_semicolon_tag_if; reflexivity|constructor].
Qed.

Lemma classify_animal_tags_clean
    (total_te ltr_total tir line_pct sine_pct : option B64.float)
    (thr : B64.AnimalThresholds) :
  Forall no_semicolon
         (tags_of (B64.classify_animal total_te ltr_total tir line_pct sine_pct thr)).
Proof.
  unfold B64.classify_animal.
  destruct line_pct, sine_pct; unfold tags_of, snd; tag_pieces.
Qed.

Lemma classify_fungi_tags_clean
    (total_te ltr_total tir helitron line_pct sine_pct : option B64.float)
    (thr : B64.FungiThresholds) :
  Forall no_semicolon
         (tags_of (B64.classify_fungi total_te ltr_total tir helitron line_pct sine_pct
                                      thr)).
Proof.
  unfold B64.classify_fungi, tags_of, snd. tag_pieces.
Qed.

Lemma pick_total_source (te : B64.table) :
  no_semicolon ("INFO_TOTAL_SOURCE_" ++ snd (fst (B64.pick_total te))).
Proof.
  unfold B64.pick_total, B64.get_key.
  destruct (B64.dict_get te "TOTAL"); [reflexivity|].
  destruct (B64.dict_get te "TOTAL_INTERSPERSED"); reflexivity.
Qed.

Lemma missing_tags_clean (ms : list string) :
  Forall (fun m => In m artifact_labels) ms ->
  Forall no_semicolon (map (fun m => "TECH_MISSING_" ++ m) ms).
Proof.
  induction 1 as [|m ms Hm _ IH]; simpl; constructor; [|exact IH].
  simpl in Hm. destruct Hm as [<-|[<-|[<-|[<-|[]]]]]; reflexivity.
Qed.

Lemma Forall_filter {A : Type} (P : A -> Prop) (f : A -> bool) (l : list A) :
  Forall P l -> Forall P (filter f l).
Proof.
  induction 1 as [|x l Hx _ IH]; simpl; [constructor|].
  destruct (f x); [constructor|]; assumption.
Qed.

(** The three ways [classify_one] fills the tags and missing fields. *)
Lemma classify_one_fields (fs : FS) (sample_dir profile : string)
    (plant_thr : B64.PlantThresholds) (animal_thr : B64.AnimalThresholds)
    (fungi_thr : B64.FungiThresholds) (tech_cfg : TechConfig) :
  let r := B64.classify_one fs sample_dir profile plant_thr animal_thr fungi_thr
                            tech_cfg in
  let paths := locate_outputs fs sample_dir in
  tags_well_formed (B64.tags r)
  /\ ((exists ms, tech_check fs paths tech_cfg = (FAIL, ms)
                  /\ B64.missing r = join "; " ms
                  /\ Forall (fun m => In m artifact_labels) ms)
      \/ (exists e, tech_check fs paths tech_cfg = (PASS, [])
                    /\ B64.parse_teanno_sum_repeat_classes fs (p_teanno_sum paths) = inl e
                    /\ B64.missing r = "TEanno.sum(parse_error)")
      \/ (exists te, tech_check fs paths tech_cfg = (PASS, [])
                     /\ B64.parse_teanno_sum_repeat_classes fs (p_teanno_sum paths) = inr te
                     /\ B64.missing r = "")).
Proof.
  intros r paths. subst r.
  pose proof (tech_check_labels fs paths tech_cfg) as Hl.
  destruct (tech_check_missing fs paths tech_cfg) as [[_ E]|[_ E]].
  - (* complete sample *)
    unfold B64.classify_one. fold paths. rewrite E. cbn [status_eqb].
    destruct (B64.parse_teanno_sum_repeat_classes fs (p_teanno_sum paths))
      as [e|te] eqn:Er.
    + split.
      * exists ["TECH_PARSE_ERROR"]. split; [reflexivity|].
        repeat constructor.
      * right. left. exists e. auto.
    + pose proof (pick_total_source te) as Hsrc.
      destruct (B64.pick_total _) as [[[tp tb] src] tok].
      destruct (B64.sum_by_prefix _ "LTR/") as [[lp lb] lpr].
      destruct (B64.ltr_known _) as [kp kb].
      destruct (B64.get_either _ "LTR/unknown" _) as [[up ub] upr].
      destruct (B64.sum_by_prefix _ "TIR/") as [[ip ib] ipr].
      destruct (B64.get_either _ "NONTIR/helitron" _) as [[hp hb] hpr].
      destruct (B64.sum_by_prefix _ "LINE/") as [[np nb] npr].
      destruct (B64.sum_by_prefix _ "SINE/") as [[sp sb] spr].
      cbv zeta.
      set (res := if String.eqb profile "plant" then _ else _).
      assert (Hbio : Forall no_semicolon (tags_of res)).
      { subst res.
        destruct (String.eqb profile "plant"); [apply classify_plant_tags_clean|].
        destruct (String.eqb profile "animal");
          [apply classify_animal_tags_clean|apply classify_fungi_tags_clean]. }
      destruct res as [[bs bn] bt].
      simpl in Hbio, Hsrc. split.
      * eexists. split; [reflexivity|].
        apply Forall_filter. constructor; assumption.
      * right. right. exists te. auto.
  - (* incomplete sample *)
    unfold B64.classify_one. fold paths. rewrite E. cbn [status_eqb].
    fold paths in Hl. rewrite E in Hl. simpl in Hl. split.
    + eexists. split; [reflexivity|]. apply missing_tags_clean. exact Hl.
    + left. eexists. split; [reflexivity|]. split; [reflexivity|exact Hl].
Qed.

(** C9, as the code has it.  In every record of [classify_one] the tags
    field is a list joined by [; ] whose tags hold no semicolon.  The missing
    field is: for a sample whose completeness check fails, the list of its
    missing artifact labels joined by [; ]; for a complete sample whose
    summary file makes the parser raise (the file cannot be opened or read,
    or a bpMasked integer is too large for a float), the literal
    [TEanno.sum(parse_error)]; and empty for an evaluated sample.  The
    completeness check has no other result than these. *)
Theorem record_tags_and_missing (fs : FS) (sample_dir profile : string)
    (plant_thr : B64.PlantThresholds) (animal_thr : B64.AnimalThresholds)
    (fungi_thr : B64.FungiThresholds) (tech_cfg : TechConfig) :
  let r := B64.classify_one fs sample_dir profile plant_thr animal_thr fungi_thr
                            tech_cfg in
  let paths := locate_outputs fs sample_dir in
  tags_well_formed (B64.tags r)
  /\ (missing_uses_labels (B64.missing r)
      \/ B64.missing r = "TEanno.sum(parse_error)")
  /\ ((exists ms, ms <> [] /\ tech_check fs paths tech_cfg = (FAIL, ms))
      \/ tech_check fs paths tech_cfg = (PASS, []))
  /\ (forall ms, tech_check fs paths tech_cfg = (FAIL, ms) ->
                 B64.missing r = join "; " ms
                 /\ Forall (fun m => In m artifact_labels) ms)
  /\ (forall e, tech_check fs paths tech_cfg = (PASS, []) ->
                B64.parse_teanno_sum_repeat_classes fs (p_teanno_sum paths) = inl e ->
                B64.missing r = "TEanno.sum(parse_error)")
  /\ (forall te, tech_check fs paths tech_cfg = (PASS, []) ->
                 B64.parse_teanno_sum_repeat_classes fs (p_teanno_sum paths) = inr te ->
                 B64.missing r = "").
Proof.
  intros r paths.
  destruct (classify_one_fields fs sample_dir profile plant_thr animal_thr fungi_thr
                                tech_cfg)
    as [Ht Hc]; fold r paths in Ht, Hc.
  split; [exact Ht|]. split; [|split; [|split; [|split]]].
  - destruct Hc as [(ms & _ & Hm & Hl)|[(e & _ & _ & Hm)|(te & _ & _ & Hm)]].
    + left. exists ms. auto.
    + right. exact Hm.
    + left. exists []. split; [exact Hm|constructor].
  - destruct (tech_check_missing fs paths tech_cfg) as [[_ E]|[N E]]; [right|left]; eauto.
  - intros ms E.
    destruct Hc as [(ms' & E' & Hm & Hl)|[(e & E' & _)|(te & E' & _)]];
      rewrite E in E'; try discriminate E'.
    injection E' as <-. auto.
  - intros e E Hp.
    destruct Hc as [(ms' & E' & _)|[(e' & _ & _ & Hm)|(te & _ & Hp' & _)]];
      [rewrite E in E'; discriminate E' | exact Hm | rewrite Hp in Hp'; discriminate Hp'].
  - intros te E Hp.
    destruct Hc as [(ms' & E' & _)|[(e' & _ & Hp' & _)|(te' & _ & _ & Hm)]];
      [rewrite E in E'; discriminate E' | rewrite Hp in Hp'; discriminate Hp' | exact Hm].
Qed.

Lemma record_tags_and_missing_witness :
  B64.missing (B64.classify_one unreadable_fs "/data/GCA_000001.1_x_genomic" "plant"
                                B64.plant_defaults B64.animal_defaults
                                B64.fungi_defaults tech_defaults)
  = "TEanno.sum(parse_error)".
Proof.
  pose proof (record_tags_and_missing unreadable_fs "/data/GCA_000001.1_x_genomic"
                "plant" B64.plant_defaults B64.animal_defaults B64.fungi_defaults
                tech_defaults) as H.
  cbv zeta in H. destruct H as (_ & _ & _ & _ & H & _).
  apply (H "Permission denied"); vm_compute; reflexivity.
Defined.

Lemma parse_error_not_labels : ~ missing_uses_labels "TEanno.sum(parse_error)".
Proof.
  intros (ms & E & F).
  destruct ms as [|m ms]; [discriminate E|].
  inversion F as [|? ? Hm _]; subst.
  simpl in Hm.
  destruct Hm as [<-|[<-|[<-|[<-|[]]]]];
    destruct ms as [|m' ms]; simpl in E; discriminate E.
Qed.

(** C9, as stated, fails: for a complete sample whose summary file has a
    bpMasked integer of 310 digits, [float(bp)] raises and the missing
    field is [TEanno.sum(parse_error)], which is not a list of the four
    artifact labels. *)
Lemma missing_parse_error_entry :
  let r := B64.classify_one (fs_of_lines huge_bp_report) "/data/GCA_000001.1_x_genomic"
                            "plant" B64.plant_defaults B64.animal_defaults
                            B64.fungi_defaults tech_defaults in
  ~ (tags_well_formed (B64.tags r) /\ missing_uses_labels (B64.missing r)).
Proof.
  intros r [_ H].
  assert (E : B64.missing r = "TEanno.sum(parse_error)") by (vm_compute; reflexivity).
  rewrite E in H. exact (parse_error_not_labels H).
Qed.

(** * Further properties of the rule engine *)

(** X1.  [tri_level] is monotone in the value: a larger present value never
    gets a worse status, whatever the two cutoffs are. *)
Theorem tri_level_monotone (v v' pass_cut suspect_cut : Q) :
  v <= v' ->
  (severity (tri_level (Some v') pass_cut suspect_cut)
   <= severity (tri_level (Some v) pass_cut suspect_cut))%nat.
Proof.
  intros Hle. unfold tri_level.
  destruct (geb v pass_cut) eqn:Hp.
  - apply geb_true in Hp.
    assert (Hp' : geb v' pass_cut = true) by (apply geb_true; lra).
    rewrite Hp'. simpl. lia.
  - destruct (geb v' pass_cut); [simpl; destruct (geb v suspect_cut); simpl; lia|].
    destruct (geb v suspect_cut) eqn:Hs.
    + apply geb_true in Hs.
      assert (Hs' : geb v' suspect_cut = true) by (apply geb_true; lra).
      rewrite Hs'. simpl. lia.
    + destruct (geb v' suspect_cut); simpl; lia.
Qed.

Lemma tri_level_monotone_witness :
  (severity (tri_level (Some 12%Q) 20%Q 10%Q)
   <= severity (tri_level (Some 3%Q) 20%Q 10%Q))%nat.
Proof. apply tri_level_monotone. discriminate. Defined.

(** X2.  When the pass cutoff is not above the suspect cutoff, [tri_level]
    has no SUSPECT band: every value is PASS or FAIL. *)
Theorem tri_level_no_suspect_band (val : option Q) (pass_cut suspect_cut : Q) :
  pass_cut <= suspect_cut ->
  tri_level val pass_cut suspect_cut <> SUSPECT.
Proof.
  intros Hcut. unfold tri_level. destruct val as [v|]; [|discriminate].
  destruct (geb v pass_cut) eqn:Hp; [discriminate|].
  destruct (geb v suspect_cut) eqn:Hs; [|discriminate].
  apply geb_false in Hp. apply geb_true in Hs. lra.
Qed.

Lemma tri_level_no_suspect_band_witness :
  tri_level (Some 7) 5 5 <> SUSPECT.
Proof. apply tri_level_no_suspect_band. discriminate. Defined.

Lemma has_tag_with_app (p : string) (l1 l2 : list string) :
  has_tag_with p (l1 ++ l2) = has_tag_with p l1 || has_tag_with p l2.
Proof. apply existsb_app. Qed.

Lemma has_tag_with_tag_if (p : string) (c : bool) (t : string) :
  startswith t p = false -> has_tag_with p (tag_if c t) = false.
Proof. intros H. destruct c; cbn [tag_if has_tag_with existsb]; [rewrite H|]; reflexivity. Qed.

Lemma has_tag_with_zero_tag (p : string) (v : option Q) (n z : string) :
  startswith n p = false -> startswith z p = false ->
  has_tag_with p (zero_tag v n z) = false.
Proof.
  intros Hn Hz. destruct v; cbn [zero_tag].
  - apply has_tag_with_tag_if. exact Hz.
  - cbn [has_tag_with existsb]. rewrite Hn. reflexivity.
Qed.

Lemma classify_plant_tags
    (total_te ltr_total tir helitron line_pct sine_pct ltr_known ltr_unknown : option Q)
    (thr : PlantThresholds) :
  exists advisory,
    tags_of (classify_plant total_te ltr_total tir helitron line_pct sine_pct
                            ltr_known ltr_unknown thr)
    = (hard_tag (tri_level total_te (total_pass thr) (total_suspect thr))
                "HARD_FAIL_TOTAL_TE" "HARD_SUSPECT_TOTAL_TE"
       ++ hard_tag (tri_level ltr_total (ltr_pass thr) (ltr_suspect thr))
                   "HARD_FAIL_LTR_TOTAL" "HARD_SUSPECT_LTR_TOTAL"
       ++ hard_tag (tri_level tir (tir_pass thr) (tir_suspect thr))
                   "HARD_FAIL_TIR" "HARD_SUSPECT_TIR"
       ++ advisory)%list
    /\ has_tag_with "HARD_" advisory = false
    /\ has_tag_with "HARD_FAIL_" advisory = false
    /\ has_tag_with "HARD_SUSPECT_" advisory = false
    /\ has_tag_with "TECH_" advisory = false.
Proof.
  unfold classify_plant.
  eexists. split.
  - destruct (among3 FAIL _ _ _); [|destruct (among3 SUSPECT _ _ _)]; reflexivity.
  - assert (A : forall p,
               startswith "WARN_HELITRON_NOT_REPORTED" p = false ->
               startswith "WARN_LOW_HELITRON" p = false ->
               startswith "WARN_LINE_NOT_REPORTED" p = false ->
               startswith "WARN_LINE_ZERO" p = false ->
               startswith "WARN_SINE_NOT_REPORTED" p = false ->
               startswith "WARN_SINE_ZERO" p = false ->
               startswith "WARN_LTR_KNOWN_NOT_REPORTED" p = false ->
               startswith "HINT_LOW_LTR_KNOWN" p = false ->
               startswith "HINT_HIGH_LTR_UNKNOWN" p = false ->
               has_tag_with p
                 (match helitron with
                  | None => ["WARN_HELITRON_NOT_REPORTED"]
                  | Some h =>
                      if ltb h (heli_warn_low thr) then ["WARN_LOW_HELITRON"]
                      else if ltb h (heli_warn_mid thr) then ["WARN_LOW_HELITRON"]
                      else []
                  end
                  ++ zero_tag line_pct "WARN_LINE_NOT_REPORTED" "WARN_LINE_ZERO"
                  ++ zero_tag sine_pct "WARN_SINE_NOT_REPORTED" "WARN_SINE_ZERO"
                  ++ match ltr_known with
                     | None => ["WARN_LTR_KNOWN_NOT_REPORTED"]
                     | Some k => tag_if (ltb k (ltr_known_hint_low thr)) "HINT_LOW_LTR_KNOWN"
                     end
                  ++ match ltr_unknown, ltr_total with
                     | Some u, Some t =>
                         if ltb 0 t then
                           tag_if (geb u (ltr_unknown_pct_hint thr)
                                   || geb (u / t) (ltr_unknown_ratio_hint thr))
                                  "HINT_HIGH_LTR_UNKNOWN"
                         else []
                     | _, _ => []
                     end)%list = false).
    { intros p H1 H2 H3 H4 H5 H6 H7 H8 H9.
      rewrite !has_tag_with_app.
      rewrite (has_tag_with_zero_tag p line_pct _ _ H3 H4).
      rewrite (has_tag_with_zero_tag p sine_pct _ _ H5 H6).
      assert (E1 : has_tag_with p
                     match helitron with
                     | None => ["WARN_HELITRON_NOT_REPORTED"]
                     | Some h =>
                         if ltb h (heli_warn_low thr) then ["WARN_LOW_HELITRON"]
                         else if ltb h (heli_warn_mid thr) then ["WARN_LOW_HELITRON"]
                         else []
                     end = false).
      { destruct helitron as [h|]; [destruct (ltb h _); [|destruct (ltb h _)]|];
          cbn [has_tag_with existsb]; rewrite ?H1, ?H2; reflexivity. }
      assert (E2 : has_tag_with p
                     match ltr_known with
                     | None => ["WARN_LTR_KNOWN_NOT_REPORTED"]
                     | Some k => tag_if (ltb k (ltr_known_hint_low thr)) "HINT_LOW_LTR_KNOWN"
                     end = false).
      { destruct ltr_known as [k|]; [apply has_tag_with_tag_if; exact H8|].
        cbn [has_tag_with existsb]. rewrite H7. reflexivity. }
      assert (E3 : has_tag_with p
                     match ltr_unknown, ltr_total with
                     | Some u, Some t =>
                         if ltb 0 t then
                           tag_if (geb u (ltr_unknown_pct_hint thr)
                                   || geb (u / t) (ltr_unknown_ratio_hint thr))
                                  "HINT_HIGH_LTR_UNKNOWN"
                         else []
                     | _, _ => []
                     end = false).
      { destruct ltr_unknown as [u|], ltr_total as [t|]; try reflexivity.
        destruct (ltb 0 t); [apply has_tag_with_tag_if; exact H9|reflexivity]. }
      rewrite E1, E2, E3. reflexivity. }
    repeat split; apply A; reflexivity.
Qed.



Lemma plant_verdict_worst
    (total_te ltr_total tir helitron line_pct sine_pct ltr_known ltr_unknown : option Q)
    (thr : PlantThresholds) :
  verdict (classify_plant total_te ltr_total tir helitron line_pct sine_pct
                          ltr_known ltr_unknown thr)
  = worst (worst (tri_level total_te (total_pass thr) (total_suspect thr))
                 (tri_level ltr_total (ltr_pass thr) (ltr_suspect thr)))
          (tri_level tir (tir_pass thr) (tir_suspect thr)).
Proof.
  unfold classify_plant.
  pose proof (tri_level_not_NA total_te (total_pass thr) (total_suspect thr)) as N1.
  pose proof (tri_level_not_NA ltr_total (ltr_pass thr) (ltr_suspect thr)) as N2.
  pose proof (tri_level_not_NA tir (tir_pass thr) (tir_suspect thr)) as N3.
  destruct (tri_level total_te _ _), (tri_level ltr_total _ _), (tri_level tir _ _);
    try reflexivity; congruence.
Qed.

(** X3.  In [classify_plant] the verdict and the hard tags agree: the
    verdict is FAIL exactly when a [HARD_FAIL_] tag is emitted, SUSPECT
    exactly when a [HARD_SUSPECT_] tag and no [HARD_FAIL_] tag is emitted,
    and PASS exactly when no [HARD_] tag is emitted. *)
Theorem classify_plant_hard_tags
    (total_te ltr_total tir helitron line_pct sine_pct ltr_known ltr_unknown : option Q)
    (thr : PlantThresholds) :
  let r := classify_plant total_te ltr_total tir helitron line_pct sine_pct
                          ltr_known ltr_unknown thr in
  (verdict r = FAIL <-> has_tag_with "HARD_FAIL_" (tags_of r) = true)
  /\ (verdict r = SUSPECT <->
      has_tag_with "HARD_SUSPECT_" (tags_of r) = true
      /\ has_tag_with "HARD_FAIL_" (tags_of r) = false)
  /\ (verdict r = PASS <-> has_tag_with "HARD_" (tags_of r) = false).
Proof.
  intros r. subst r.
  destruct (classify_plant_tags total_te ltr_total tir helitron line_pct sine_pct
                                ltr_known ltr_unknown thr)
    as (adv & -> & Hadv & Hf & Hs & _).
  rewrite plant_verdict_worst.
  rewrite !has_tag_with_app, Hadv, Hf, Hs.
  pose proof (tri_level_not_NA total_te (total_pass thr) (total_suspect thr)) as N1.
  pose proof (tri_level_not_NA ltr_total (ltr_pass thr) (ltr_suspect thr)) as N2.
  pose proof (tri_level_not_NA tir (tir_pass thr) (tir_suspect thr)) as N3.
  destruct (tri_level total_te _ _), (tri_level ltr_total _ _), (tri_level tir _ _);
    try congruence; vm_compute; intuition congruence.
Qed.

Lemma none_or_below_iff (v : option Q) (cut : Q) :
  none_or_below v cut = true <-> absent_or_below v cut.
Proof.
  destruct v as [x|]; simpl; [apply ltb_true|tauto].
Qed.

Lemma is_none_iff {A : Type} (v : option A) : is_none v = true <-> v = None.
Proof. destruct v; simpl; split; congruence. Qed.

Lemma in_existsb (t : string) (l : list string) :
  In t l <-> existsb (String.eqb t) l = true.
Proof.
  rewrite existsb_exists. split.
  - intros H. exists t. split; [exact H|apply String.eqb_refl].
  - intros (x & Hx & E). apply String.eqb_eq in E. subst x. exact Hx.
Qed.

Lemma existsb_tag_if (f : string -> bool) (c : bool) (t : string) :
  existsb f (tag_if c t) = c && f t.
Proof. destruct c; simpl; [apply orb_false_r|reflexivity]. Qed.

Ltac tag_iff :=
  rewrite in_existsb; unfold tags_of, snd;
  rewrite !existsb_app, !existsb_tag_if;
  match goal with
  | |- context [hard_tag ?st _ _] => destruct st
  end;
  cbn;
  repeat match goal with
         | |- context [none_or_below ?v ?c] => destruct (none_or_below v c)
         | |- context [is_none ?v] => destruct (is_none v)
         end;
  cbn; intuition congruence.

(** X4.  [classify_fungi] gates on total-TE% alone, and each advisory tag
    has its own trigger: [WARN_LOW_LTR] / [WARN_LOW_TIR] when the metric is
    absent or below its minimum, and the three [NOT_REPORTED] tags exactly
    when Helitron%, LINE% or SINE% is absent (a reported 0 raises none). *)
Theorem classify_fungi_tags
    (total_te ltr_total tir helitron line_pct sine_pct : option Q)
    (thr : FungiThresholds) :
  let r := classify_fungi total_te ltr_total tir helitron line_pct sine_pct thr in
  verdict r = tri_level total_te (fu_total_pass thr) (fu_total_suspect thr)
  /\ (In "WARN_LOW_LTR" (tags_of r) <-> absent_or_below ltr_total (fu_min_ltr thr))
  /\ (In "WARN_LOW_TIR" (tags_of r) <-> absent_or_below tir (fu_min_tir thr))
  /\ (In "WARN_HELITRON_NOT_REPORTED" (tags_of r) <-> helitron = None)
  /\ (In "WARN_LINE_NOT_REPORTED" (tags_of r) <-> line_pct = None)
  /\ (In "WARN_SINE_NOT_REPORTED" (tags_of r) <-> sine_pct = None).
Proof.
  intros r. subst r. unfold classify_fungi.
  split; [reflexivity|].
  rewrite <- !none_or_below_iff, <- !is_none_iff.
  repeat split; tag_iff.
Qed.

(** X5.  In [classify_animal], [WARN_LOW_LTR] is emitted exactly when
    LTR-total% is absent or below [min_ltr], and [WARN_LOW_TIR] exactly when
    TIR% is absent or below [min_tir]. *)
Theorem classify_animal_low_tags
    (total_te ltr_total tir line_pct sine_pct : option Q) (thr : AnimalThresholds) :
  let r := classify_animal total_te ltr_total tir line_pct sine_pct thr in
  (In "WARN_LOW_LTR" (tags_of r) <-> absent_or_below ltr_total (an_min_ltr thr))
  /\ (In "WARN_LOW_TIR" (tags_of r) <-> absent_or_below tir (an_min_tir thr)).
Proof.
  intros r. subst r. unfold classify_animal.
  rewrite <- !none_or_below_iff.
  destruct line_pct as [l|], sine_pct as [s|]; cbn [fst snd];
    match goal with
    | |- context [tag_if ?c "WARN_LOW_NONLTR"] => generalize c; intros [|]
    end;
    split; tag_iff.
Qed.

(** The tags of the two single-gate profiles: the hard tag of the total-TE
    status, then advisory tags only. *)
Lemma classify_animal_shape
    (total_te ltr_total tir line_pct sine_pct : option Q) (thr : AnimalThresholds) :
  let r := classify_animal total_te ltr_total tir line_pct sine_pct thr in
  exists advisory,
    tags_of r = (hard_tag (verdict r) "HARD_FAIL_TOTAL_TE" "HARD_SUSPECT_TOTAL_TE"
                 ++ advisory)%list
    /\ verdict r = tri_level total_te (an_total_pass thr) (an_total_suspect thr)
    /\ has_tag_with "HARD_" advisory = false
    /\ has_tag_with "HARD_FAIL_" advisory = false
    /\ has_tag_with "HARD_SUSPECT_" advisory = false
    /\ has_tag_with "TECH_" advisory = false.
Proof.
  intros r. subst r. unfold classify_animal.
  destruct line_pct as [l|], sine_pct as [s|]; cbn [fst snd verdict tags_of];
    (eexists; split; [reflexivity|]; split; [reflexivity|]);
    repeat split; rewrite !has_tag_with_app;
    rewrite !has_tag_with_tag_if by reflexivity; reflexivity.
Qed.

Lemma classify_fungi_shape
    (total_te ltr_total tir helitron line_pct sine_pct : option Q)
    (thr : FungiThresholds) :
  let r := classify_fungi total_te ltr_total tir helitron line_pct sine_pct thr in
  exists advisory,
    tags_of r = (hard_tag (verdict r) "HARD_FAIL_TOTAL_TE" "HARD_SUSPECT_TOTAL_TE"
                 ++ advisory)%list
    /\ verdict r = tri_level total_te (fu_total_pass thr) (fu_total_suspect thr)
    /\ has_tag_with "HARD_" advisory = false
    /\ has_tag_with "HARD_FAIL_" advisory = false
    /\ has_tag_with "HARD_SUSPECT_" advisory = false
    /\ has_tag_with "TECH_" advisory = false.
Proof.
  intros r. subst r. unfold classify_fungi. cbn [fst snd verdict tags_of].
  eexists. split; [reflexivity|]. split; [reflexivity|].
  repeat split; rewrite !has_tag_with_app;
    rewrite !has_tag_with_tag_if by reflexivity; reflexivity.
Qed.

(** X6.  In [classify_animal] and [classify_fungi] the verdict is FAIL
    exactly when [HARD_FAIL_TOTAL_TE] is emitted, SUSPECT exactly when
    [HARD_SUSPECT_TOTAL_TE] is, and PASS exactly when no [HARD_] tag is. *)
Theorem single_gate_hard_tags
    (total_te ltr_total tir helitron line_pct sine_pct : option Q)
    (athr : AnimalThresholds) (fthr : FungiThresholds) :
  let a := classify_animal total_te ltr_total tir line_pct sine_pct athr in
  let f := classify_fungi total_te ltr_total tir helitron line_pct sine_pct fthr in
  ((verdict a = FAIL <-> In "HARD_FAIL_TOTAL_TE" (tags_of a))
   /\ (verdict a = SUSPECT <-> In "HARD_SUSPECT_TOTAL_TE" (tags_of a))
   /\ (verdict a = PASS <-> has_tag_with "HARD_" (tags_of a) = false))
  /\ ((verdict f = FAIL <-> In "HARD_FAIL_TOTAL_TE" (tags_of f))
      /\ (verdict f = SUSPECT <-> In "HARD_SUSPECT_TOTAL_TE" (tags_of f))
      /\ (verdict f = PASS <-> has_tag_with "HARD_" (tags_of f) = false)).
Proof.
  intros a f. split.
  - destruct (classify_animal_shape total_te ltr_total tir line_pct sine_pct athr)
      as (adv & Et & Ev & Hh & Hf & Hs & _).
    fold a in Et, Ev. rewrite Et.
    pose proof (tri_level_not_NA total_te (an_total_pass athr) (an_total_suspect athr)) as N.
    rewrite <- Ev in N.
    assert (Hin : forall t, startswith t "HARD_" = true -> ~ In t adv).
    { intros t Ht Hin. unfold has_tag_with in Hh.
      assert (existsb (fun t0 => startswith t0 "HARD_") adv = true)
        by (apply existsb_exists; exists t; auto).
      congruence. }
    rewrite has_tag_with_app, Hh, !in_app_iff.
    destruct (verdict a); try congruence; cbn;
      (repeat split; intros H; try reflexivity; try discriminate H; auto;
       try (destruct H as [[H|[]]|H]; [discriminate H|exfalso; revert H; apply Hin; reflexivity]);
       try (destruct H as [[]|H]; exfalso; revert H; apply Hin; reflexivity)).
  - destruct (classify_fungi_shape total_te ltr_total tir helitron line_pct sine_pct fthr)
      as (adv & Et & Ev & Hh & Hf & Hs & _).
    fold f in Et, Ev. rewrite Et.
    pose proof (tri_level_not_NA total_te (fu_total_pass fthr) (fu_total_suspect fthr)) as N.
    rewrite <- Ev in N.
    assert (Hin : forall t, startswith t "HARD_" = true -> ~ In t adv).
    { intros t Ht Hin. unfold has_tag_with in Hh.
      assert (existsb (fun t0 => startswith t0 "HARD_") adv = true)
        by (apply existsb_exists; exists t; auto).
      congruence. }
    rewrite has_tag_with_app, Hh, !in_app_iff.
    destruct (verdict f); try congruence; cbn;
      (repeat split; intros H; try reflexivity; try discriminate H; auto;
       try (destruct H as [[H|[]]|H]; [discriminate H|exfalso; revert H; apply Hin; reflexivity]);
       try (destruct H as [[]|H]; exfalso; revert H; apply Hin; reflexivity)).
Qed.

(** * Further properties of the parser and the extractor *)

Lemma run_skip_preamble (pre rest : list string) (st : Parser.state) :
  Parser.in_table st = false ->
  (forall raw, In raw pre -> Parser.is_header (rstrip_nl raw) = false) ->
  Parser.run st (pre ++ rest) = Parser.run st rest.
Proof.
  induction pre as [|raw pre IH]; intros Hin Hall; [reflexivity|].
  cbn [app Parser.run]. rewrite step_before_header; auto using in_eq.
  apply IH; auto using in_cons.
Qed.

(** X7.  Lines before the header line are ignored: whatever stands in a
    preamble without a header line, data rows and class headings included,
    the table is that of the rest of the input. *)
Theorem preamble_ignored (pre rest : list string) :
  (forall raw, In raw pre -> Parser.is_header (rstrip_nl raw) = false) ->
  parse_teanno_sum_repeat_classes (pre ++ rest) = parse_teanno_sum_repeat_classes rest.
Proof.
  intros H. unfold parse_teanno_sum_repeat_classes.
  apply run_skip_preamble; [reflexivity|exact H].
Qed.

Lemma preamble_ignored_witness :
  parse_teanno_sum_repeat_classes
    (["LTR  --  --  --"; "    Copia  1  2  9.9%"] ++ small_report)
  = parse_teanno_sum_repeat_classes small_report.
Proof.
  apply preamble_ignored.
  intros raw [<-|[<-|[]]]; reflexivity.
Defined.

Lemma step_in_table (st st' : Parser.state) (raw : string) :
  Parser.step st raw = Some st' ->
  Parser.in_table st = true \/ Parser.is_header (rstrip_nl raw) = true ->
  Parser.in_table st' = true.
Proof.
  unfold Parser.step. intros H Hor.
  destruct (Parser.in_table st) eqn:Hin; cbn [negb] in H.
  - repeat match type of H with
           | (if ?c then _ else _) = _ => destruct c
           | match ?x with _ => _ end = _ => destruct x
           | (let _ := _ in _) = _ => cbv zeta in H
           end;
      try discriminate H; injection H as <-; cbn [Parser.in_table]; auto.
  - destruct Hor as [Hor|Hor]; [discriminate Hor|].
    rewrite Hor in H. injection H as <-. reflexivity.
Qed.

Lemma run_stop (stop : string) (post pre : list string) (st : Parser.state) :
  startswith (strip (rstrip_nl stop)) "Repeat Stats" = true ->
  Parser.in_table st = true
  \/ (exists h, In h pre /\ Parser.is_header (rstrip_nl h) = true) ->
  Parser.run st (pre ++ stop :: post) = Parser.run st pre.
Proof.
  intros Hstop. revert st. induction pre as [|raw pre IH]; intros st Hor.
  - destruct Hor as [Hin|(h & [] & _)].
    cbn [app Parser.run]. unfold Parser.step. rewrite Hin, Hstop. reflexivity.
  - cbn [app Parser.run].
    destruct (Parser.step st raw) as [st'|] eqn:Hs; [|reflexivity].
    apply IH.
    destruct Hor as [Hin|(h & [<-|Hh] & Hhd)].
    + left. eapply step_in_table; eauto.
    + left. eapply step_in_table; eauto.
    + right. exists h. auto.
Qed.

(** X8.  The table ends at [Repeat Stats]: once the header line has been
    seen, a line whose trimmed text starts with [Repeat Stats] stops the
    scan, and nothing after it, rows and headings included, reaches the
    table. *)
Theorem repeat_stats_ends_table (pre post : list string) (stop : string) :
  (exists h, In h pre /\ Parser.is_header (rstrip_nl h) = true) ->
  startswith (strip (rstrip_nl stop)) "Repeat Stats" = true ->
  parse_teanno_sum_repeat_classes (pre ++ stop :: post)
  = parse_teanno_sum_repeat_classes pre.
Proof.
  intros Hh Hstop. unfold parse_teanno_sum_repeat_classes.
  apply run_stop; auto.
Qed.

Lemma repeat_stats_ends_table_witness :
  parse_teanno_sum_repeat_classes
    (small_report ++ "  Repeat Stats" :: ["TIR  --  --  --"; "    CACTA  1  2  3%"])
  = parse_teanno_sum_repeat_classes small_report.
Proof.
  apply repeat_stats_ends_table; [|reflexivity].
  exists "Class  Count  bpMasked  %masked". split; [left|]; reflexivity.
Defined.

(** ** The table as a dictionary *)

Lemma dict_get_set_same (te : table) (k : string) (v : entry) :
  dict_get (dict_set te k v) k = Some v.
Proof.
  induction te as [|[k' v'] te IH]; simpl.
  - rewrite String.eqb_refl. reflexivity.
  - destruct (String.eqb k' k) eqn:E; simpl; rewrite E; auto.
Qed.

Lemma dict_get_set_other (te : table) (k k' : string) (v : entry) :
  k' <> k -> dict_get (dict_set te k v) k' = dict_get te k'.
Proof.
  intros Hne. induction te as [|[k0 v0] te IH]; simpl.
  - destruct (String.eqb k k') eqn:E; [|reflexivity].
    apply String.eqb_eq in E. congruence.
  - destruct (String.eqb k0 k) eqn:E; simpl.
    + apply String.eqb_eq in E. subst k0.
      destruct (String.eqb k k') eqn:E'; [|reflexivity].
      apply String.eqb_eq in E'. congruence.
    + rewrite IH. reflexivity.
Qed.

Lemma keys_dict_set_nodup (te : table) (k : string) (v : entry) :
  NoDup (keys te) -> NoDup (keys (dict_set te k v)).
Proof.
  unfold keys. induction te as [|[k0 v0] te IH]; simpl; intros H.
  - constructor; [intros []|constructor].
  - inversion H as [|? ? Hnot Hrest]; subst.
    destruct (String.eqb k0 k) eqn:E; simpl.
    + constructor; assumption.
    + constructor; [|apply IH; exact Hrest].
      intros Hin. apply (keys_dict_set te k v k0) in Hin.
      destruct Hin as [->|Hin]; [|exact (Hnot Hin)].
      rewrite String.eqb_refl in E. discriminate E.
Qed.

Lemma step_nodup (st st' : Parser.state) (raw : string) :
  NoDup (keys (Parser.out st)) ->
  Parser.step st raw = Some st' ->
  NoDup (keys (Parser.out st')).
Proof.
  intros Hn Hs. apply step_out in Hs.
  destruct Hs as [->|(k & b & g & q & _ & ->)]; [exact Hn|].
  apply keys_dict_set_nodup. exact Hn.
Qed.

Lemma run_nodup (raws : list string) (st : Parser.state) :
  NoDup (keys (Parser.out st)) -> NoDup (keys (Parser.run st raws)).
Proof.
  revert st. induction raws as [|raw rest IH]; intros st Hn; simpl; [exact Hn|].
  destruct (Parser.step st raw) as [st'|] eqn:Hs; [|exact Hn].
  apply IH. eapply step_nodup; eauto.
Qed.

(** X9.  The returned table has every key once, however often a row name
    is repeated in the report, and looking up the key of a stored pair
    returns that pair's value. *)
Theorem parsed_keys_unique (raws : list string) :
  NoDup (keys (parse_teanno_sum_repeat_classes raws))
  /\ forall k v, In (k, v) (parse_teanno_sum_repeat_classes raws) ->
       dict_get (parse_teanno_sum_repeat_classes raws) k = Some v.
Proof.
  assert (N : NoDup (keys (parse_teanno_sum_repeat_classes raws)))
    by (apply run_nodup; constructor).
  split; [exact N|].
  intros k v. generalize dependent N.
  generalize (parse_teanno_sum_repeat_classes raws) as te.
  induction te as [|[k0 v0] te IH]; intros N Hin; [destruct Hin|].
  unfold keys in N. simpl in N. inversion N as [|? ? Hnot Hrest]; subst.
  simpl. destruct Hin as [E|Hin].
  - injection E as -> ->. rewrite String.eqb_refl. reflexivity.
  - destruct (String.eqb k0 k) eqn:E.
    + apply String.eqb_eq in E. subst k0. exfalso. apply Hnot.
      apply in_map_iff. exists (k, v). auto.
    + apply IH; assumption.
Qed.

Lemma parsed_keys_unique_witness :
  exists v, dict_get (parse_teanno_sum_repeat_classes small_report) "LTR/Gypsy" = Some v.
Proof.
  eexists. apply (proj2 (parsed_keys_unique small_report)).
  right. left. reflexivity.
Defined.

(** * Further properties of artifact location and the completeness gate *)

Lemma append_nil_r (s : string) : s ++ "" = s.
Proof. induction s as [|c s IH]; simpl; [reflexivity|rewrite IH; reflexivity]. Qed.

Lemma append_assoc (a b c : string) : (a ++ b) ++ c = a ++ (b ++ c).
Proof. induction a as [|x a IH]; simpl; [reflexivity|rewrite IH; reflexivity]. Qed.

Lemma length_append (a b : string) :
  String.length (a ++ b) = (String.length a + String.length b)%nat.
Proof. induction a as [|x a IH]; simpl; [reflexivity|rewrite IH; reflexivity]. Qed.

Lemma substring_0_app (a b : string) : substring 0 (String.length a) (a ++ b) = a.
Proof.
  induction a as [|x a IH]; simpl.
  - destruct b; reflexivity.
  - rewrite IH. reflexivity.
Qed.

Lemma substring_0_all (s : string) : substring 0 (String.length s) s = s.
Proof. induction s as [|x s IH]; simpl; [reflexivity|rewrite IH; reflexivity]. Qed.

Lemma substring_skip (a b : string) (m : nat) :
  substring (String.length a) m (a ++ b) = substring 0 m b.
Proof.
  induction a as [|x a IH]; simpl; [reflexivity|exact IH].
Qed.

Lemma substring_split (n : nat) (s : string) :
  (n <= String.length s)%nat ->
  s = substring 0 n s ++ substring n (String.length s - n) s.
Proof.
  revert s. induction n as [|n IH]; intros s Hn.
  - rewrite Nat.sub_0_r, substring_0_all. destruct s; reflexivity.
  - destruct s as [|c s]; simpl in Hn; [lia|].
    cbn [substring String.length Nat.sub append]. f_equal. apply IH. lia.
Qed.

Lemma endswith_split (s p : string) :
  endswith s p = true -> exists pre, s = pre ++ p.
Proof.
  unfold endswith. intros H. apply andb_true_iff in H. destruct H as [Hl He].
  apply Nat.leb_le in Hl. apply String.eqb_eq in He.
  exists (substring 0 (String.length s - String.length p) s).
  pose proof (substring_split (String.length s - String.length p) s) as E.
  replace (String.length s - (String.length s - String.length p))%nat
    with (String.length p) in E by lia.
  rewrite He in E. apply E. lia.
Qed.

Lemma endswith_app (pre p : string) : endswith (pre ++ p) p = true.
Proof.
  unfold endswith. rewrite length_append. apply andb_true_iff. split.
  - apply Nat.leb_le. lia.
  - replace (String.length pre + String.length p - String.length p)%nat
      with (String.length pre) by lia.
    rewrite substring_skip, substring_0_all. apply String.eqb_refl.
Qed.

Lemma drop_last_app (b t : string) : drop_last (String.length t) (b ++ t) = b.
Proof.
  unfold drop_last. rewrite length_append.
  replace (String.length b + String.length t - String.length t)%nat
    with (String.length b) by lia.
  apply substring_0_app.
Qed.

Lemma path_join_suffix (dir fn : string) : exists x, path_join dir fn = x ++ fn.
Proof.
  unfold path_join.
  destruct (startswith fn "/"); [exists ""; reflexivity|].
  destruct (String.eqb dir "" || endswith dir "/"); [exists dir; reflexivity|].
  exists (dir ++ "/"). rewrite append_assoc. reflexivity.
Qed.

Lemma first_with_suffix_found (dir : string) (sufs fns : list string) :
  existsb (fun fn => existsb (endswith fn) sufs) fns = true ->
  exists fn, In fn fns /\ existsb (endswith fn) sufs = true
             /\ first_with_suffix dir sufs fns = path_join dir fn.
Proof.
  induction fns as [|fn fns IH]; simpl; [discriminate|].
  destruct (existsb (endswith fn) sufs) eqn:E.
  - intros _. exists fn. auto.
  - simpl. intros H. destruct (IH H) as (fn' & Hin & Hs & Hf).
    exists fn'. auto.
Qed.

Lemma first_with_suffix_none (dir : string) (sufs fns : list string) :
  existsb (fun fn => existsb (endswith fn) sufs) fns = false ->
  first_with_suffix dir sufs fns = "".
Proof.
  induction fns as [|fn fns IH]; simpl; [reflexivity|].
  destruct (existsb (endswith fn) sufs); [discriminate|]. exact IH.
Qed.

(** The name that the loop stops at: no name before it has the suffix. *)
Lemma first_with_suffix_split (dir : string) (sufs fns : list string) :
  existsb (fun fn => existsb (endswith fn) sufs) fns = true ->
  exists before fn after,
    fns = (before ++ fn :: after)%list
    /\ Forall (fun g => existsb (endswith g) sufs = false) before
    /\ existsb (endswith fn) sufs = true
    /\ first_with_suffix dir sufs fns = path_join dir fn.
Proof.
  induction fns as [|fn fns IH]; simpl; [discriminate|].
  destruct (existsb (endswith fn) sufs) eqn:E.
  - intros _. exists [], fn, fns. auto.
  - simpl. intros H. destruct (IH H) as (before & fn' & after & -> & Hb & Hs & Hf).
    exists (fn :: before), fn', after. auto.
Qed.

Lemma summary_suffix (fn : string) :
  existsb (endswith fn) [".EDTA.TEanno.sum"; "EDTA.TEanno.sum"]
  = endswith fn "EDTA.TEanno.sum".
Proof.
  cbn [existsb]. rewrite orb_false_r.
  destruct (endswith fn ".EDTA.TEanno.sum") eqn:E; [|reflexivity].
  apply endswith_split in E. destruct E as (pre & ->).
  change (pre ++ ".EDTA.TEanno.sum") with (pre ++ "." ++ "EDTA.TEanno.sum").
  rewrite <- append_assoc. rewrite endswith_app. reflexivity.
Qed.

Lemma existsb_summary (fns : list string) :
  existsb (fun fn => existsb (endswith fn) [".EDTA.TEanno.sum"; "EDTA.TEanno.sum"]) fns
  = existsb (fun fn => endswith fn "EDTA.TEanno.sum") fns.
Proof.
  induction fns as [|fn fns IH]; [reflexivity|].
  cbn [existsb] in *. rewrite IH. f_equal.
  rewrite orb_false_r.
  pose proof (summary_suffix fn) as H. cbn [existsb] in H.
  rewrite orb_false_r in H. exact H.
Qed.

Lemma nonempty_app (x : string) (c : ascii) (t : string) :
  String.eqb (x ++ String c t) "" = false.
Proof. destruct x; reflexivity. Qed.

(** X11.  When the listing has a summary file, the summary path is the
    first name of the listing that ends in [EDTA.TEanno.sum] (no name before
    it does), joined to the sample directory; the annotation and
    repeat-library paths are the summary path with its final [TEanno.sum]
    replaced by [TEanno.gff3] and by [TElib.fa]: the three paths share one
    base, which ends in [EDTA.]. *)
Theorem located_paths_share_base (fs : FS) (sample_dir : string) :
  (exists fn, In fn (listdir fs sample_dir) /\ endswith fn "EDTA.TEanno.sum" = true) ->
  let p := locate_outputs fs sample_dir in
  exists before fn after x,
    listdir fs sample_dir = (before ++ fn :: after)%list
    /\ Forall (fun g => endswith g "EDTA.TEanno.sum" = false) before
    /\ endswith fn "EDTA.TEanno.sum" = true
    /\ p_teanno_sum p = path_join sample_dir fn
    /\ p_teanno_sum p = x ++ "EDTA." ++ "TEanno.sum"
    /\ p_teanno_gff3 p = x ++ "EDTA." ++ "TEanno.gff3"
    /\ p_telib_fa p = x ++ "EDTA." ++ "TElib.fa".
Proof.
  intros (fn0 & Hin0 & He0) p.
  assert (Hex : existsb (fun fn => existsb (endswith fn)
                                     [".EDTA.TEanno.sum"; "EDTA.TEanno.sum"])
                        (listdir fs sample_dir) = true).
  { rewrite existsb_summary. apply existsb_exists. exists fn0. auto. }
  destruct (first_with_suffix_split sample_dir _ _ Hex)
    as (before & fn & after & Hl & Hb & Hs & Hf).
  rewrite summary_suffix in Hs.
  destruct (endswith_split _ _ Hs) as (pre & Epre).
  destruct (path_join_suffix sample_dir fn) as (y & Ey).
  assert (Esum : first_with_suffix sample_dir [".EDTA.TEanno.sum"; "EDTA.TEanno.sum"]
                                   (listdir fs sample_dir)
                 = ((y ++ pre) ++ "EDTA.") ++ "TEanno.sum").
  { rewrite Hf, Ey, Epre. rewrite !append_assoc. reflexivity. }
  exists before, fn, after, (y ++ pre).
  subst p. unfold locate_outputs. rewrite Esum.
  rewrite (nonempty_app ((y ++ pre) ++ "EDTA.") "T" "Eanno.sum"). cbn [negb].
  cbn [p_teanno_sum p_teanno_gff3 p_telib_fa].
  rewrite (drop_last_app ((y ++ pre) ++ "EDTA.") "TEanno.sum").
  split; [exact Hl|]. split.
  { eapply Forall_impl; [|exact Hb]. intros g Hg. cbv beta in Hg.
    rewrite summary_suffix in Hg. exact Hg. }
  split; [exact Hs|].
  split; [rewrite Ey, Epre, !append_assoc; reflexivity|].
  repeat split; rewrite !append_assoc; reflexivity.
Qed.

(** Of two summary files, the first of the listing is taken. *)
Lemma located_paths_share_base_witness :
  exists before fn after x,
    listdir two_summaries_fs "/data/s" = (before ++ fn :: after)%list
    /\ Forall (fun g => endswith g "EDTA.TEanno.sum" = false) before
    /\ endswith fn "EDTA.TEanno.sum" = true
    /\ p_teanno_sum (locate_outputs two_summaries_fs "/data/s") = path_join "/data/s" fn
    /\ p_teanno_sum (locate_outputs two_summaries_fs "/data/s")
       = x ++ "EDTA." ++ "TEanno.sum"
    /\ p_teanno_gff3 (locate_outputs two_summaries_fs "/data/s")
       = x ++ "EDTA." ++ "TEanno.gff3"
    /\ p_telib_fa (locate_outputs two_summaries_fs "/data/s")
       = x ++ "EDTA." ++ "TElib.fa".
Proof.
  apply (located_paths_share_base two_summaries_fs "/data/s").
  exists "b.EDTA.TEanno.sum". split; [simpl; auto|reflexivity].
Defined.

Example first_summary_taken :
  p_teanno_sum (locate_outputs two_summaries_fs "/data/s") = "/data/s/a.EDTA.TEanno.sum".
Proof. reflexivity. Qed.

Lemma no_summary_first (fs : FS) (sample_dir : string) :
  no_summary_file fs sample_dir ->
  first_with_suffix sample_dir [".EDTA.TEanno.sum"; "EDTA.TEanno.sum"]
                    (listdir fs sample_dir) = "".
Proof.
  intros H. apply first_with_suffix_none. rewrite existsb_summary.
  unfold no_summary_file in H. induction H as [|fn fns Hfn _ IH]; [reflexivity|].
  cbn [existsb]. rewrite Hfn, IH. reflexivity.
Qed.

Lemma existsb_single (fn suf : string) : existsb (endswith fn) [suf] = endswith fn suf.
Proof. cbn [existsb]. apply orb_false_r. Qed.

Lemma joined_nonempty (dir fn suf : string) (c : ascii) (t : string) :
  suf = String c t -> endswith fn suf = true ->
  String.eqb (path_join dir fn) "" = false.
Proof.
  intros -> H. apply endswith_split in H. destruct H as (pre & ->).
  destruct (path_join_suffix dir (pre ++ String c t)) as (x & ->).
  rewrite <- append_assoc. apply nonempty_app.
Qed.

(** X12.  Without a summary file the paths are guessed from a genome file
    of the listing, a [.fna.mod] name before a [.fna] name: the summary path
    is empty, the annotation and library paths are the seed followed by
    [.EDTA.TEanno.gff3] and [.EDTA.TElib.fa], and the annotation directory is
    the seed followed by [.EDTAanno], without a dot before [anno]. *)
Theorem guessed_paths (fs : FS) (sample_dir : string) :
  no_summary_file fs sample_dir ->
  (exists fn, In fn (listdir fs sample_dir)
              /\ (endswith fn ".fna.mod" = true \/ endswith fn ".fna" = true)) ->
  let p := locate_outputs fs sample_dir in
  exists fn,
    In fn (listdir fs sample_dir)
    /\ (endswith fn ".fna.mod" = true
        \/ (endswith fn ".fna" = true
            /\ Forall (fun g => endswith g ".fna.mod" = false) (listdir fs sample_dir)))
    /\ p_teanno_sum p = ""
    /\ p_teanno_gff3 p = path_join sample_dir fn ++ ".EDTA.TEanno.gff3"
    /\ p_telib_fa p = path_join sample_dir fn ++ ".EDTA.TElib.fa"
    /\ p_anno_dir p = path_join sample_dir fn ++ ".EDTAanno".
Proof.
  intros Hno (fn0 & Hin0 & Hsuf0) p. subst p.
  unfold locate_outputs. rewrite (no_summary_first fs sample_dir Hno).
  cbn [String.eqb negb].
  assert (Hseed : exists fn,
             In fn (listdir fs sample_dir)
             /\ (endswith fn ".fna.mod" = true
                 \/ (endswith fn ".fna" = true
                     /\ Forall (fun g => endswith g ".fna.mod" = false)
                               (listdir fs sample_dir)))
             /\ (if String.eqb (first_with_suffix sample_dir [".fna.mod"]
                                                  (listdir fs sample_dir)) ""
                 then first_with_suffix sample_dir [".fna"] (listdir fs sample_dir)
                 else first_with_suffix sample_dir [".fna.mod"] (listdir fs sample_dir))
                = path_join sample_dir fn
             /\ String.eqb (path_join sample_dir fn) "" = false).
  { destruct (existsb (fun fn => existsb (endswith fn) [".fna.mod"])
                      (listdir fs sample_dir)) eqn:Emod.
    - destruct (first_with_suffix_found sample_dir _ _ Emod) as (fn & Hin & Hs & Hf).
      rewrite existsb_single in Hs.
      exists fn. rewrite Hf.
      rewrite (joined_nonempty sample_dir fn ".fna.mod" "." "fna.mod" eq_refl Hs).
      auto.
    - assert (Hall : Forall (fun g => endswith g ".fna.mod" = false)
                            (listdir fs sample_dir)).
      { apply Forall_forall. intros g Hg.
        destruct (endswith g ".fna.mod") eqn:Eg; [|reflexivity].
        assert (existsb (fun fn => existsb (endswith fn) [".fna.mod"])
                        (listdir fs sample_dir) = true).
        { apply existsb_exists. exists g. rewrite existsb_single. auto. }
        congruence. }
      rewrite (first_with_suffix_none sample_dir _ _ Emod). cbn [String.eqb].
      assert (Efna : existsb (fun fn => existsb (endswith fn) [".fna"])
                             (listdir fs sample_dir) = true).
      { apply existsb_exists. exists fn0. rewrite existsb_single.
        split; [exact Hin0|]. destruct Hsuf0 as [H|H]; [|exact H].
        rewrite Forall_forall in Hall. rewrite (Hall fn0 Hin0) in H. discriminate H. }
      destruct (first_with_suffix_found sample_dir _ _ Efna) as (fn & Hin & Hs & Hf).
      rewrite existsb_single in Hs.
      exists fn. rewrite Hf.
      rewrite (joined_nonempty sample_dir fn ".fna" "." "fna" eq_refl Hs).
      auto. }
  destruct Hseed as (fn & Hin & Hkind & -> & ->). cbn [negb].
  cbn [p_teanno_sum p_teanno_gff3 p_telib_fa p_anno_dir].
  exists fn. split; [exact Hin|]. split; [exact Hkind|]. split; [reflexivity|].
  split; [apply append_assoc|]. split; [apply append_assoc|].
  change (path_join sample_dir fn ++ ".EDTA.")
    with (path_join sample_dir fn ++ ".EDTA" ++ ".").
  rewrite <- (append_assoc (path_join sample_dir fn) ".EDTA" ".").
  change 1%nat with (String.length ".").
  rewrite drop_last_app. apply append_assoc.
Qed.

Lemma guessed_paths_witness :
  let fs := mk_fs (fun _ => ["README"; "g.fna"]) (fun _ => true) (fun _ => true)
                  (fun _ => inr []) in
  exists fn,
    In fn (listdir fs "/data/s")
    /\ (endswith fn ".fna.mod" = true
        \/ (endswith fn ".fna" = true
            /\ Forall (fun g => endswith g ".fna.mod" = false) (listdir fs "/data/s")))
    /\ p_teanno_sum (locate_outputs fs "/data/s") = ""
    /\ p_teanno_gff3 (locate_outputs fs "/data/s")
       = path_join "/data/s" fn ++ ".EDTA.TEanno.gff3"
    /\ p_telib_fa (locate_outputs fs "/data/s") = path_join "/data/s" fn ++ ".EDTA.TElib.fa"
    /\ p_anno_dir (locate_outputs fs "/data/s") = path_join "/data/s" fn ++ ".EDTAanno".
Proof.
  intros fs. apply (guessed_paths fs "/data/s").
  - repeat constructor.
  - exists "g.fna". split; [right; left; reflexivity|right; reflexivity].
Defined.

Lemma check_artifact_nil (required : bool) (path : string) (ok : string -> bool)
    (label : string) :
  check_artifact required path ok label = [] <-> artifact_ok required path ok.
Proof.
  unfold check_artifact, artifact_ok.
  destruct required.
  - destruct (String.eqb path "") eqn:Ep; simpl.
    + apply String.eqb_eq in Ep. split; [discriminate|].
      intros H. destruct (H eq_refl) as [Hn _]. contradiction.
    + apply String.eqb_neq in Ep. destruct (ok path); simpl.
      * split; auto.
      * split; [discriminate|]. intros H. destruct (H eq_refl) as [_ Hk]. discriminate Hk.
  - split; [discriminate|reflexivity].
Qed.

Lemma check_artifact_shape (required : bool) (path : string) (ok : string -> bool)
    (label : string) :
  check_artifact required path ok label = []
  \/ check_artifact required path ok label = [label].
Proof.
  unfold check_artifact. destruct required; [|auto].
  destruct (String.eqb path "" || negb (ok path)); auto.
Qed.

(** X13.  [tech_check] returns PASS, with an empty list, exactly when every
    required artifact has a path and passes its test (a non-empty file, or a
    directory for the annotation directory); otherwise it returns FAIL.  An
    artifact that is not required never fails the check, and the missing list
    names no artifact twice. *)
Theorem tech_check_pass_iff (fs : FS) (paths : Paths) (cfg : TechConfig) :
  (tech_check fs paths cfg = (PASS, [])
   <-> artifact_ok (require_teanno_sum cfg) (p_teanno_sum paths) (is_nonempty_file fs)
       /\ artifact_ok (require_teanno_gff3 cfg) (p_teanno_gff3 paths) (is_nonempty_file fs)
       /\ artifact_ok (require_telib_fa cfg) (p_telib_fa paths) (is_nonempty_file fs)
       /\ artifact_ok (require_anno_dir cfg) (p_anno_dir paths) (is_dir fs))
  /\ (fst (tech_check fs paths cfg) = PASS \/ fst (tech_check fs paths cfg) = FAIL)
  /\ NoDup (snd (tech_check fs paths cfg)).
Proof.
  destruct (tech_check_missing fs paths cfg) as [[Em E]|[Em E]]; rewrite E;
    cbn [fst snd].
  - split; [|split; [auto|constructor]].
    split; [intros _|reflexivity].
    apply app_eq_nil in Em. destruct Em as [E1 Em].
    apply app_eq_nil in Em. destruct Em as [E2 Em].
    apply app_eq_nil in Em. destruct Em as [E3 E4].
    apply check_artifact_nil in E1, E2, E3, E4. auto.
  - split; [|split; [auto|]].
    + split; [intros H; injection H as H; discriminate H|].
      intros (A1 & A2 & A3 & A4). exfalso. apply Em.
      rewrite (proj2 (check_artifact_nil _ _ _ "TEanno.sum") A1).
      rewrite (proj2 (check_artifact_nil _ _ _ "TEanno.gff3") A2).
      rewrite (proj2 (check_artifact_nil _ _ _ "TElib.fa") A3).
      rewrite (proj2 (check_artifact_nil _ _ _ "EDTA.anno/") A4).
      reflexivity.
    + destruct (check_artifact_shape (require_teanno_sum cfg) (p_teanno_sum paths)
                                     (is_nonempty_file fs) "TEanno.sum") as [-> | ->],
               (check_artifact_shape (require_teanno_gff3 cfg) (p_teanno_gff3 paths)
                                     (is_nonempty_file fs) "TEanno.gff3") as [-> | ->],
               (check_artifact_shape (require_telib_fa cfg) (p_telib_fa paths)
                                     (is_nonempty_file fs) "TElib.fa") as [-> | ->],
               (check_artifact_shape (require_anno_dir cfg) (p_anno_dir paths)
                                     (is_dir fs) "EDTA.anno/") as [-> | ->];
        cbn [app];
        repeat (constructor; [cbn [In]; intuition discriminate|]); constructor.
Qed.

Lemma prefix_app (x y : string) : String.prefix x (x ++ y) = true.
Proof.
  induction x as [|c x IH]; simpl; [destruct y; reflexivity|].
  destruct (ascii_dec c c); [exact IH|contradiction].
Qed.

Lemma startswith_join (sep x : string) (l : list string) :
  startswith (join sep (x :: l)) x = true.
Proof.
  unfold startswith. destruct l as [|y l]; cbn [join].
  - rewrite <- (append_nil_r x) at 2. apply prefix_app.
  - apply prefix_app.
Qed.

Lemma no_summary_path (fs : FS) (sample_dir : string) :
  no_summary_file fs sample_dir -> p_teanno_sum (locate_outputs fs sample_dir) = "".
Proof.
  intros H. unfold locate_outputs. rewrite (no_summary_first fs sample_dir H).
  cbn [String.eqb negb].
  destruct (negb (String.eqb _ "")); reflexivity.
Qed.

(** X14.  A sample directory without a summary file, when the summary is
    required, always fails the completeness check: the record has technical
    status FAIL, its summary path is [NA], and [TEanno.sum] is the first
    entry of its missing field and of its tags. *)
Theorem no_summary_record (fs : FS) (sample_dir profile : string)
    (plant_thr : PlantThresholds) (animal_thr : AnimalThresholds)
    (fungi_thr : FungiThresholds) (tech_cfg : TechConfig) :
  require_teanno_sum tech_cfg = true ->
  no_summary_file fs sample_dir ->
  let r := classify_one fs sample_dir profile plant_thr animal_thr fungi_thr tech_cfg in
  tech_status r = FAIL /\ overall_status r = FAIL /\ bio_status r = NA
  /\ teanno_sum r = "NA"
  /\ startswith (missing r) "TEanno.sum" = true
  /\ startswith (tags r) "TECH_MISSING_TEanno.sum" = true.
Proof.
  intros Hreq Hno r.
  pose proof (no_summary_path fs sample_dir Hno) as Hp.
  destruct (tech_check_missing fs (locate_outputs fs sample_dir) tech_cfg) as [[Em _]|[_ E]].
  - exfalso. apply app_eq_nil in Em. destruct Em as [Em _].
    unfold check_artifact in Em. rewrite Hreq, Hp in Em. discriminate Em.
  - unfold check_artifact at 1 in E. rewrite Hreq, Hp in E.
    cbn [String.eqb orb app] in E.
    subst r. rewrite (classify_one_tech_fail _ _ _ _ _ _ _ _ E).
    cbn [tech_status overall_status bio_status teanno_sum missing tags unevaluated].
    rewrite Hp. cbn [map].
    repeat split; try reflexivity; apply startswith_join.
Qed.

Lemma no_summary_record_witness :
  let fs := mk_fs (fun _ => ["g.fna"]) (fun _ => true) (fun _ => true)
                  (fun _ => inr []) in
  let r := classify_one fs "/data/GCA_000001.1_genomic" "plant"
                        plant_defaults animal_defaults fungi_defaults tech_defaults in
  tech_status r = FAIL /\ overall_status r = FAIL /\ bio_status r = NA
  /\ teanno_sum r = "NA"
  /\ startswith (missing r) "TEanno.sum" = true
  /\ startswith (tags r) "TECH_MISSING_TEanno.sum" = true.
Proof.
  intros fs. apply (no_summary_record fs); [reflexivity|].
  repeat constructor.
Defined.

(** * The genome identifier *)

Lemma span_digits_app (s d r : string) : span_digits s = (d, r) -> s = d ++ r.
Proof.
  revert d r. induction s as [|c s IH]; intros d r; simpl.
  - intros H. injection H as <- <-. reflexivity.
  - destruct (is_digit c).
    + destruct (span_digits s) as [d' r']. intros H. injection H as <- <-.
      simpl. rewrite (IH d' r' eq_refl). reflexivity.
    + intros H. injection H as <- <-. reflexivity.
Qed.

Lemma span_digits_digits (s d r : string) :
  span_digits s = (d, r) -> forall_chars is_digit d = true.
Proof.
  revert d r. induction s as [|c s IH]; intros d r; simpl.
  - intros H. injection H as <- <-. reflexivity.
  - destruct (is_digit c) eqn:E.
    + destruct (span_digits s) as [d' r']. intros H. injection H as <- <-.
      simpl. rewrite E. exact (IH d' r' eq_refl).
    + intros H. injection H as <- <-. reflexivity.
Qed.

Lemma span_digits_stop (d : string) (c : ascii) (t : string) :
  forall_chars is_digit d = true -> is_digit c = false ->
  span_digits (d ++ String c t) = (d, String c t).
Proof.
  intros Hd Hc. induction d as [|x d IH]; simpl.
  - rewrite Hc. reflexivity.
  - simpl in Hd. apply andb_true_iff in Hd. destruct Hd as [Hx Hd].
    rewrite Hx, (IH Hd). reflexivity.
Qed.

Lemma span_digits_all (d : string) :
  forall_chars is_digit d = true -> span_digits d = (d, "").
Proof.
  intros Hd. induction d as [|x d IH]; simpl; [reflexivity|].
  simpl in Hd. apply andb_true_iff in Hd. destruct Hd as [Hx Hd].
  rewrite Hx, (IH Hd). reflexivity.
Qed.

Lemma span_digits_rest (s d r : string) :
  span_digits s = (d, r) -> no_leading_digit r = true.
Proof.
  revert d r. induction s as [|c s IH]; intros d r; simpl.
  - intros H. injection H as <- <-. reflexivity.
  - destruct (is_digit c) eqn:E.
    + destruct (span_digits s) as [d' r']. intros H. injection H as <- <-.
      exact (IH d' r' eq_refl).
    + intros H. injection H as <- <-. simpl. rewrite E. reflexivity.
Qed.

Lemma span_digits_longest (d r : string) :
  forall_chars is_digit d = true -> no_leading_digit r = true ->
  span_digits (d ++ r) = (d, r).
Proof.
  intros Hd Hr. destruct r as [|c t].
  - rewrite append_nil_r. apply span_digits_all. exact Hd.
  - apply span_digits_stop; [exact Hd|].
    simpl in Hr. destruct (is_digit c); [discriminate Hr|reflexivity].
Qed.

(** The two outcomes of [extract_genome_id]: no match, or the accession
    [GC[AF]_digits.digits] that the identifier starts with. *)
Lemma extract_genome_id_cases (s : string) :
  extract_genome_id s = s
  \/ exists a, accession_of s a /\ extract_genome_id s = a.
Proof.
  destruct s as [|a0 s]; [left; reflexivity|].
  destruct a0 as [[] [] [] [] [] [] [] []]; try (left; reflexivity).
  destruct s as [|a1 s]; [left; reflexivity|].
  destruct a1 as [[] [] [] [] [] [] [] []]; try (left; reflexivity).
  destruct s as [|c s]; [left; reflexivity|].
  destruct s as [|a3 r]; [left; reflexivity|].
  destruct a3 as [[] [] [] [] [] [] [] []]; try (left; reflexivity).
  cbn [extract_genome_id].
  destruct (Ascii.eqb c "A" || Ascii.eqb c "F") eqn:Ec; [|left; reflexivity].
  destruct (span_digits r) as [d1 r1] eqn:E1.
  destruct r1 as [|a r2]; [left; reflexivity|].
  destruct a as [[] [] [] [] [] [] [] []]; try (left; reflexivity).
  destruct (span_digits r2) as [d2 r3] eqn:E2.
  destruct (String.eqb d1 "") eqn:N1; [left; reflexivity|].
  destruct (String.eqb d2 "") eqn:N2; [left; reflexivity|].
  right. eexists. split; [|reflexivity].
  exists c, d1, d2, r3.
  apply String.eqb_neq in N1, N2.
  apply orb_true_iff in Ec.
  split; [destruct Ec as [Ec|Ec]; apply Ascii.eqb_eq in Ec; auto|].
  split; [exact (span_digits_digits _ _ _ E1)|]. split; [exact N1|].
  split; [exact (span_digits_digits _ _ _ E2)|]. split; [exact N2|].
  split; [exact (span_digits_rest _ _ _ E2)|].
  split; [|reflexivity].
  rewrite (span_digits_app _ _ _ E1), (span_digits_app _ _ _ E2). reflexivity.
Qed.

(** An identifier that starts with an accession yields that accession. *)
Lemma extract_genome_id_accession (s a : string) :
  accession_of s a -> extract_genome_id s = a.
Proof.
  intros (c & d1 & d2 & rest & Hc & D1 & N1 & D2 & N2 & Hr & -> & ->).
  cbn [extract_genome_id].
  assert (Ec : Ascii.eqb c "A" || Ascii.eqb c "F" = true).
  { destruct Hc as [-> | ->]; reflexivity. }
  rewrite Ec.
  rewrite (span_digits_stop d1 "." (d2 ++ rest) D1 eq_refl).
  rewrite (span_digits_longest d2 rest D2 Hr).
  apply String.eqb_neq in N1, N2. rewrite N1, N2. reflexivity.
Qed.

(** X15.  [extract_genome_id] returns the accession that the sample
    identifier starts with ([GCA_] or [GCF_], a run of digits, a point and
    the longest run of digits after it), and the identifier itself when it
    starts with no accession.  So the genome identifier is always a prefix
    of the sample identifier, and extracting again changes nothing. *)
Theorem genome_id_prefix (sample_id : string) :
  (forall a, accession_of sample_id a -> extract_genome_id sample_id = a)
  /\ ((forall a, ~ accession_of sample_id a) -> extract_genome_id sample_id = sample_id)
  /\ (exists rest, sample_id = extract_genome_id sample_id ++ rest)
  /\ extract_genome_id (extract_genome_id sample_id) = extract_genome_id sample_id.
Proof.
  split; [exact (extract_genome_id_accession sample_id)|].
  destruct (extract_genome_id_cases sample_id) as [E|(a & Ha & Eg)].
  - rewrite !E. split; [reflexivity|].
    split; [exists ""; rewrite append_nil_r|]; reflexivity.
  - split; [intros N; destruct (N a Ha)|].
    rewrite Eg.
    destruct Ha as (c & d1 & d2 & rest & Hc & D1 & N1 & D2 & N2 & Hr & Es & Ea).
    split.
    + exists rest. rewrite Es, Ea. cbn [append]. do 4 f_equal.
      rewrite append_assoc. reflexivity.
    + apply extract_genome_id_accession.
      exists c, d1, d2, "". rewrite append_nil_r. repeat split; auto.
Qed.

Lemma genome_id_prefix_witness :
  extract_genome_id "GCA_000001405.29_GRCh38_genomic" = "GCA_000001405.29"
  /\ extract_genome_id "sample_7" = "sample_7".
Proof.
  split.
  - apply (proj1 (genome_id_prefix "GCA_000001405.29_GRCh38_genomic")).
    exists "A"%char, "000001405", "29", "_GRCh38_genomic".
    repeat split; try reflexivity; try discriminate. left. reflexivity.
  - apply (proj1 (proj2 (genome_id_prefix "sample_7"))).
    intros a (c & d1 & d2 & rest & _ & _ & _ & _ & _ & _ & E & _). discriminate E.
Defined.

(** * Records and the digest *)

Lemma forallb_clean_hard_tag (st : status) (f s : string) :
  clean_tag f = true -> clean_tag s = true -> forallb clean_tag (hard_tag st f s) = true.
Proof. intros Hf Hs. destruct st; cbn [hard_tag forallb]; rewrite ?Hf, ?Hs; reflexivity. Qed.

Lemma forallb_clean_tag_if (c : bool) (t : string) :
  clean_tag t = true -> forallb clean_tag (tag_if c t) = true.
Proof. intros H. destruct c; cbn [tag_if forallb]; rewrite ?H; reflexivity. Qed.

Lemma forallb_clean_zero_tag (v : option Q) (n z : string) :
  clean_tag n = true -> clean_tag z = true -> forallb clean_tag (zero_tag v n z) = true.
Proof.
  intros Hn Hz. destruct v; cbn [zero_tag].
  - apply forallb_clean_tag_if. exact Hz.
  - cbn [forallb]. rewrite Hn. reflexivity.
Qed.

Ltac clean_pieces :=
  rewrite ?forallb_app;
  rewrite ?forallb_clean_hard_tag by reflexivity;
  rewrite ?forallb_clean_tag_if by reflexivity;
  rewrite ?forallb_clean_zero_tag by reflexivity.

(** What every rule set guarantees about its verdict and tags. *)
Lemma bio_result_props (total : option Q) (res : status * list string * list string) :
  bio_result total res ->
  verdict res <> NA
  /\ (total = None -> verdict res = FAIL)
  /\ (verdict res = FAIL -> has_tag_with "HARD_FAIL_" (tags_of res) = true)
  /\ (verdict res = SUSPECT -> has_tag_with "HARD_SUSPECT_" (tags_of res) = true)
  /\ (verdict res = PASS -> has_tag_with "HARD_" (tags_of res) = false)
  /\ has_tag_with "TECH_" (tags_of res) = false
  /\ forallb clean_tag (tags_of res) = true.
Proof.
  intros [(ltr & tir & hel & line & sine & known & unk & thr & ->)
         |[(ltr & tir & line & sine & thr & ->)
          |(ltr & tir & hel & line & sine & thr & ->)]].
  - (* plant *)
    destruct (classify_plant_tags total ltr tir hel line sine known unk thr)
      as (adv & Et & Hh & Hf & Hs & Ht).
    rewrite Et, plant_verdict_worst, !has_tag_with_app, Hh, Hf, Hs, Ht.
    assert (Hclean : forallb clean_tag
                       (tags_of (classify_plant total ltr tir hel line sine known unk thr))
                     = true).
    { unfold classify_plant.
      destruct (among3 FAIL _ _ _); [|destruct (among3 SUSPECT _ _ _)];
        unfold tags_of, snd; clean_pieces;
        (destruct hel as [h|]; [destruct (ltb h _); [|destruct (ltb h _)]|]);
        (destruct known as [k|]; [rewrite forallb_clean_tag_if by reflexivity|]);
        (destruct unk as [u|]; [destruct ltr as [t|];
           [destruct (ltb 0 t); [rewrite forallb_clean_tag_if by reflexivity|]|]|]);
        reflexivity. }
    rewrite Et in Hclean.
    pose proof (tri_level_not_NA total (total_pass thr) (total_suspect thr)) as N1.
    pose proof (tri_level_not_NA ltr (ltr_pass thr) (ltr_suspect thr)) as N2.
    pose proof (tri_level_not_NA tir (tir_pass thr) (tir_suspect thr)) as N3.
    split; [|split; [|split; [|split; [|split; [|split; [|exact Hclean]]]]]].
    + destruct (tri_level total _ _), (tri_level ltr _ _), (tri_level tir _ _);
        try congruence; discriminate.
    + intros ->. cbn [tri_level].
      destruct (tri_level ltr _ _), (tri_level tir _ _); try congruence; reflexivity.
    + destruct (tri_level total _ _), (tri_level ltr _ _), (tri_level tir _ _);
        try congruence; vm_compute; congruence.
    + destruct (tri_level total _ _), (tri_level ltr _ _), (tri_level tir _ _);
        try congruence; vm_compute; congruence.
    + destruct (tri_level total _ _), (tri_level ltr _ _), (tri_level tir _ _);
        try congruence; vm_compute; congruence.
    + destruct (tri_level total _ _), (tri_level ltr _ _), (tri_level tir _ _);
        reflexivity.
  - (* animal *)
    destruct (classify_animal_shape total ltr tir line sine thr)
      as (adv & Et & Ev & Hh & Hf & Hs & Ht).
    assert (Hclean : forallb clean_tag
                       (tags_of (classify_animal total ltr tir line sine thr)) = true).
    { unfold classify_animal. destruct line, sine; unfold tags_of, snd;
        clean_pieces; reflexivity. }
    rewrite Et in Hclean |- *. rewrite !has_tag_with_app, Hh, Hf, Hs, Ht.
    pose proof (tri_level_not_NA total (an_total_pass thr) (an_total_suspect thr)) as N.
    rewrite <- Ev in N.
    split; [exact N|]. split; [intros ->; rewrite Ev; reflexivity|].
    destruct (verdict (classify_animal total ltr tir line sine thr));
      try congruence; repeat split; try congruence; try reflexivity; exact Hclean.
  - (* fungi *)
    destruct (classify_fungi_shape total ltr tir hel line sine thr)
      as (adv & Et & Ev & Hh & Hf & Hs & Ht).
    assert (Hclean : forallb clean_tag
                       (tags_of (classify_fungi total ltr tir hel line sine thr)) = true).
    { unfold classify_fungi, tags_of, snd. clean_pieces. reflexivity. }
    rewrite Et in Hclean |- *. rewrite !has_tag_with_app, Hh, Hf, Hs, Ht.
    pose proof (tri_level_not_NA total (fu_total_pass thr) (fu_total_suspect thr)) as N.
    rewrite <- Ev in N.
    split; [exact N|]. split; [intros ->; rewrite Ev; reflexivity|].
    destruct (verdict (classify_fungi total ltr tir hel line sine thr));
      try congruence; repeat split; try congruence; try reflexivity; exact Hclean.
Qed.

Lemma filter_nonempty_clean (ts : list string) :
  forallb clean_tag ts = true ->
  filter (fun t => negb (String.eqb t "")) ts = ts.
Proof.
  induction ts as [|t ts IH]; [reflexivity|].
  cbn [forallb filter]. intros H. apply andb_true_iff in H. destruct H as [Ht Hts].
  unfold clean_tag in Ht.
  apply andb_true_iff in Ht. destruct Ht as [Ht _].
  apply andb_true_iff in Ht. destruct Ht as [Ht _].
  apply andb_true_iff in Ht. destruct Ht as [Ht _].
  rewrite Ht, (IH Hts). reflexivity.
Qed.

Lemma missing_tags_cleaned (ms : list string) :
  Forall (fun m => In m artifact_labels) ms ->
  forallb clean_tag (map (fun m => "TECH_MISSING_" ++ m) ms) = true.
Proof.
  induction 1 as [|m ms Hm _ IH]; [reflexivity|].
  cbn [map forallb]. rewrite IH, andb_true_r.
  simpl in Hm. destruct Hm as [<-|[<-|[<-|[<-|[]]]]]; reflexivity.
Qed.

Lemma pick_total_source_cases (te : table) :
  let '(pct, _, src, _) := pick_total te in
  clean_tag ("INFO_TOTAL_SOURCE_" ++ src) = true
  /\ (src = "MISSING" -> pct = None).
Proof.
  unfold pick_total, get_key.
  destruct (dict_get te "TOTAL"); [split; [reflexivity|discriminate]|].
  destruct (dict_get te "TOTAL_INTERSPERSED"); [split; [reflexivity|discriminate]|].
  split; reflexivity.
Qed.

(** The tag list behind the tags field of every record. *)
Lemma classify_one_tag_list (fs : FS) (sample_dir profile : string)
    (plant_thr : PlantThresholds) (animal_thr : AnimalThresholds)
    (fungi_thr : FungiThresholds) (tech_cfg : TechConfig) :
  exists ts,
    record_tag_list fs sample_dir profile plant_thr animal_thr fungi_thr tech_cfg ts.
Proof.
  unfold record_tag_list.
  pose proof (tech_check_labels fs (locate_outputs fs sample_dir) tech_cfg) as Hl.
  destruct (tech_check_missing fs (locate_outputs fs sample_dir) tech_cfg)
    as [[_ E]|[Hne E]].
  - unfold classify_one. rewrite E. cbn [status_eqb].
    destruct (read_lines fs _) as [e|raws].
    + exists ["TECH_PARSE_ERROR"]. split; [reflexivity|]. split; [reflexivity|].
      right. left. repeat split; reflexivity.
    + pose proof (pick_total_source_cases (parse_teanno_sum_repeat_classes raws)) as Hsrc.
      destruct (pick_total _) as [[[tp tb] src] tok].
      destruct Hsrc as [Hsc Hsm].
      destruct (sum_by_prefix _ "LTR/") as [[lp lb] lpr].
      destruct (ltr_known _) as [kp kb].
      destruct (get_either _ "LTR/unknown" _) as [[up ub] upr].
      destruct (sum_by_prefix _ "TIR/") as [[ip ib] ipr].
      destruct (get_either _ "NONTIR/helitron" _) as [[hp hb] hpr].
      destruct (sum_by_prefix _ "LINE/") as [[np nb] npr].
      destruct (sum_by_prefix _ "SINE/") as [[sp sb] spr].
      assert (Hbio : bio_result tp
                (if String.eqb profile "plant"
                 then classify_plant tp lp ip hp np sp kp up plant_thr
                 else if String.eqb profile "animal"
                      then classify_animal tp lp ip np sp animal_thr
                      else classify_fungi tp lp ip hp np sp fungi_thr)).
      { destruct (String.eqb profile "plant").
        - left. do 8 eexists. reflexivity.
        - destruct (String.eqb profile "animal").
          + right. left. do 5 eexists. reflexivity.
          + right. right. do 6 eexists. reflexivity. }
      pose proof (bio_result_props _ _ Hbio) as HP.
      destruct (if String.eqb profile "plant" then _ else _) as [[bs bn] bt].
      destruct HP as (_ & _ & _ & _ & _ & _ & Hc).
      cbn [tags_of snd] in Hc.
      assert (Hall : forallb clean_tag (("INFO_TOTAL_SOURCE_" ++ src) :: bt) = true).
      { cbn [forallb]. rewrite Hsc, Hc. reflexivity. }
      exists (("INFO_TOTAL_SOURCE_" ++ src) :: bt).
      cbn [tags tech_status overall_status bio_status total_te_source total_te_pct].
      split.
      { cbn [app]. rewrite (filter_nonempty_clean _ Hall). reflexivity. }
      split; [exact Hall|].
      right. right. exists (bs, bn, bt), src.
      repeat split; auto.
  - rewrite (classify_one_tech_fail _ _ _ _ _ _ _ _ E).
    rewrite E in Hl. cbn [snd] in Hl.
    eexists. split; [reflexivity|].
    split; [apply missing_tags_cleaned; exact Hl|].
    left. eexists. split; [exact E|]. repeat split; auto.
Qed.

(** X16.  In every record of [classify_one] the technical status is PASS or
    FAIL; the biological status is NA exactly when the technical status is
    FAIL; a technical FAIL makes the overall status FAIL, a technical PASS
    makes it the biological status; and the overall status is never NA. *)
Theorem record_statuses (fs : FS) (sample_dir profile : string)
    (plant_thr : PlantThresholds) (animal_thr : AnimalThresholds)
    (fungi_thr : FungiThresholds) (tech_cfg : TechConfig) :
  let r := classify_one fs sample_dir profile plant_thr animal_thr fungi_thr tech_cfg in
  (tech_status r = PASS \/ tech_status r = FAIL)
  /\ (bio_status r = NA <-> tech_status r = FAIL)
  /\ (tech_status r = FAIL -> overall_status r = FAIL)
  /\ (tech_status r = PASS -> overall_status r = bio_status r)
  /\ overall_status r <> NA.
Proof.
  intros r.
  destruct (classify_one_tag_list fs sample_dir profile plant_thr animal_thr fungi_thr
                                  tech_cfg) as (ts & _ & _ & H).
  fold r in H.
  destruct H as [(ms & _ & _ & _ & _ & Ht & Ho & Hb & _)
                |[(_ & Ht & Ho & Hb & _)
                 |(res & src & _ & Ht & Ho & Hb & _ & _ & Hres)]].
  - rewrite Ht, Ho, Hb. repeat split; auto; congruence.
  - rewrite Ht, Ho, Hb. repeat split; auto; congruence.
  - destruct (bio_result_props _ _ Hres) as (Hna & _).
    rewrite Ht, Ho, Hb. repeat split; auto; congruence.
Qed.

Lemma record_statuses_witness :
  let r := classify_one no_telib_fs "/data/GCA_000001.1_x_genomic" "animal"
                        plant_defaults animal_defaults fungi_defaults tech_defaults in
  overall_status r = FAIL /\ bio_status r = NA.
Proof.
  intros r.
  destruct (record_statuses no_telib_fs "/data/GCA_000001.1_x_genomic" "animal"
                            plant_defaults animal_defaults fungi_defaults tech_defaults)
    as (_ & Hb & Ho & _).
  fold r in Hb, Ho. split; [apply Ho|apply Hb]; reflexivity.
Defined.

(** X17.  A record without a total-TE percentage is never better than FAIL:
    whether the sample is incomplete, its summary unreadable, or its report
    has neither a [Total] nor a [total interspersed] row (source [MISSING]),
    the overall status is FAIL in every profile. *)
Theorem no_total_is_fail (fs : FS) (sample_dir profile : string)
    (plant_thr : PlantThresholds) (animal_thr : AnimalThresholds)
    (fungi_thr : FungiThresholds) (tech_cfg : TechConfig) :
  let r := classify_one fs sample_dir profile plant_thr animal_thr fungi_thr tech_cfg in
  (total_te_pct r = None -> overall_status r = FAIL)
  /\ (total_te_source r = "MISSING" -> overall_status r = FAIL).
Proof.
  intros r.
  destruct (classify_one_tag_list fs sample_dir profile plant_thr animal_thr fungi_thr
                                  tech_cfg) as (ts & _ & _ & H).
  fold r in H.
  destruct H as [(ms & _ & _ & _ & _ & _ & Ho & _)
                |[(_ & _ & Ho & _)
                 |(res & src & _ & _ & Ho & _ & Hs & Hm & Hres)]];
    [split; intros _; exact Ho | split; intros _; exact Ho |].
  destruct (bio_result_props _ _ Hres) as (_ & Hnone & _).
  rewrite Ho. split.
  - exact Hnone.
  - intros E. apply Hnone. apply Hm. congruence.
Qed.

Lemma no_total_is_fail_witness :
  let fs := mk_fs (fun _ => ["g.fna.mod.EDTA.TEanno.sum"]) (fun _ => true)
                  (fun _ => true)
                  (fun _ => inr ["Class  Count  bpMasked  %masked";
                                 "LTR  --  --  --"; "    Copia  10  1,000  40.0%"]) in
  overall_status (classify_one fs "/data/GCA_000001.1_genomic" "fungi"
                               plant_defaults animal_defaults fungi_defaults tech_defaults)
  = FAIL.
Proof.
  intros fs.
  apply (proj2 (no_total_is_fail fs "/data/GCA_000001.1_genomic" "fungi"
                                 plant_defaults animal_defaults fungi_defaults
                                 tech_defaults)).
  reflexivity.
Defined.

(** ** Splitting the tags field *)

Lemma exists_char_app (p : ascii -> bool) (a b : string) :
  exists_char p (a ++ b) = exists_char p a || exists_char p b.
Proof.
  induction a as [|c a IH]; simpl; [reflexivity|].
  rewrite IH. apply orb_assoc.
Qed.

Lemma split_char_none (c : ascii) (t : string) :
  exists_char (Ascii.eqb c) t = false -> split_char c t = [t].
Proof.
  induction t as [|a t IH]; simpl; [reflexivity|].
  intros H. apply orb_false_iff in H. destruct H as [Ha Ht].
  rewrite Ascii.eqb_sym, Ha, (IH Ht). reflexivity.
Qed.

Lemma split_char_sep (c : ascii) (t rest : string) :
  exists_char (Ascii.eqb c) t = false ->
  split_char c (t ++ String c rest) = t :: split_char c rest.
Proof.
  induction t as [|a t IH]; simpl.
  - intros _. rewrite Ascii.eqb_refl. reflexivity.
  - intros H. apply orb_false_iff in H. destruct H as [Ha Ht].
    rewrite Ascii.eqb_sym, Ha, (IH Ht). reflexivity.
Qed.

Lemma clean_tag_parts (t : string) :
  clean_tag t = true ->
  String.eqb t "" = false
  /\ exists_char (Ascii.eqb ";") t = false
  /\ lstrip t = t /\ rstrip t = t.
Proof.
  unfold clean_tag. intros H.
  apply andb_true_iff in H. destruct H as [H Hr].
  apply andb_true_iff in H. destruct H as [H Hl].
  apply andb_true_iff in H. destruct H as [Hn Hs].
  apply negb_true_iff in Hn, Hs. apply String.eqb_eq in Hl, Hr. auto.
Qed.

Lemma strip_clean (t : string) : clean_tag t = true -> strip t = t.
Proof.
  intros H. apply clean_tag_parts in H. destruct H as (_ & _ & Hl & Hr).
  unfold strip. rewrite Hr. exact Hl.
Qed.

Lemma strip_blank_clean (t : string) :
  clean_tag t = true -> strip (String " " t) = t.
Proof.
  intros H. apply clean_tag_parts in H. destruct H as (Hn & _ & Hl & Hr).
  unfold strip, rstrip in *. cbn [rstrip_by]. rewrite Hr.
  destruct t as [|c t]; [discriminate Hn|].
  unfold lstrip in *. cbn [lstrip_by]. change (is_space " ") with true.
  cbn iota. exact Hl.
Qed.

Lemma join_cons (sep t t' : string) (ts : list string) :
  join sep (t :: t' :: ts) = t ++ sep ++ join sep (t' :: ts).
Proof. reflexivity. Qed.

Lemma split_join_from (ts : list string) :
  forallb clean_tag ts = true -> ts <> [] ->
  forall pre, pre = "" \/ pre = " " ->
    filter (fun x => negb (String.eqb x ""))
           (map strip (split_char ";" (pre ++ join "; " ts))) = ts.
Proof.
  induction ts as [|t ts IH]; intros Hc Hne pre Hpre; [contradiction|].
  cbn [forallb] in Hc. apply andb_true_iff in Hc. destruct Hc as [Ht Hts].
  destruct (clean_tag_parts t Ht) as (Hn & Hs & _ & _).
  assert (Hstrip : strip (pre ++ t) = t).
  { destruct Hpre as [-> | ->]; [apply strip_clean|apply strip_blank_clean]; exact Ht. }
  assert (Hsemi : exists_char (Ascii.eqb ";") (pre ++ t) = false).
  { rewrite exists_char_app, Hs. destruct Hpre as [-> | ->]; reflexivity. }
  destruct ts as [|t' ts].
  - cbn [join]. rewrite (split_char_none _ _ Hsemi).
    cbn [map filter]. rewrite Hstrip, Hn. reflexivity.
  - rewrite join_cons.
    set (J := join "; " (t' :: ts)).
    change ("; " ++ J) with (String ";" (" " ++ J)).
    rewrite <- append_assoc.
    rewrite (split_char_sep _ _ _ Hsemi). subst J.
    cbn [map filter]. rewrite Hstrip, Hn. cbn [negb]. f_equal.
    apply IH; [exact Hts|discriminate|right; reflexivity].
Qed.

Lemma split_tags_join_clean (ts : list string) :
  forallb clean_tag ts = true -> split_tags (join "; " ts) = ts.
Proof.
  intros Hc. destruct ts as [|t ts]; [reflexivity|].
  unfold split_tags.
  assert (Hne : String.eqb (join "; " (t :: ts)) "" = false).
  { cbn [forallb] in Hc. apply andb_true_iff in Hc. destruct Hc as [Ht _].
    destruct (clean_tag_parts t Ht) as (Hn & _).
    destruct t as [|c t]; [discriminate Hn|].
    destruct ts; reflexivity. }
  rewrite Hne.
  apply (split_join_from (t :: ts) Hc ltac:(discriminate) "" (or_introl eq_refl)).
Qed.

Lemma record_split_tags (fs : FS) (sample_dir profile : string)
    (plant_thr : PlantThresholds) (animal_thr : AnimalThresholds)
    (fungi_thr : FungiThresholds) (tech_cfg : TechConfig) :
  exists ts,
    record_tag_list fs sample_dir profile plant_thr animal_thr fungi_thr tech_cfg ts
    /\ split_tags (tags (classify_one fs sample_dir profile plant_thr animal_thr
                                      fungi_thr tech_cfg)) = ts.
Proof.
  destruct (classify_one_tag_list fs sample_dir profile plant_thr animal_thr fungi_thr
                                  tech_cfg) as (ts & H).
  exists ts. split; [exact H|].
  destruct H as (Ej & Hc & _). rewrite Ej. apply split_tags_join_clean. exact Hc.
Qed.

(** X18.  [split_tags] undoes the [; ]-join: a list of tags that are not
    empty, hold no semicolon and neither begin nor end with a blank is
    recovered exactly, in order, from its joined text.  The tags of every
    record of [classify_one] are of that kind, so the digest reads back from
    the tags field exactly the tags that [classify_one] joined. *)
Theorem split_tags_join :
  (forall ts, forallb clean_tag ts = true -> split_tags (join "; " ts) = ts)
  /\ (forall (fs : FS) (sample_dir profile : string)
         (plant_thr : PlantThresholds) (animal_thr : AnimalThresholds)
         (fungi_thr : FungiThresholds) (tech_cfg : TechConfig),
         let r := classify_one fs sample_dir profile plant_thr animal_thr fungi_thr
                               tech_cfg in
         exists ts, tags r = join "; " ts /\ split_tags (tags r) = ts).
Proof.
  split.
  - exact split_tags_join_clean.
  - intros fs sample_dir profile plant_thr animal_thr fungi_thr tech_cfg r.
    destruct (record_split_tags fs sample_dir profile plant_thr animal_thr fungi_thr
                                tech_cfg) as (ts & (Ej & _) & Hs).
    exists ts. split; [exact Ej|exact Hs].
Qed.

Lemma split_tags_join_witness :
  split_tags "INFO_TOTAL_SOURCE_TOTAL; HARD_FAIL_TIR; WARN_LINE_ZERO"
  = ["INFO_TOTAL_SOURCE_TOTAL"; "HARD_FAIL_TIR"; "WARN_LINE_ZERO"].
Proof.
  apply (proj1 split_tags_join
               ["INFO_TOTAL_SOURCE_TOTAL"; "HARD_FAIL_TIR"; "WARN_LINE_ZERO"]).
  reflexivity.
Defined.


(** ** The counters of the digest *)

Lemma filter_nonempty_iff {A : Type} (f : A -> bool) (l : list A) :
  existsb f l = true -> filter f l <> [].
Proof.
  induction l as [|x l IH]; simpl; [discriminate|].
  destruct (f x); [discriminate|exact IH].
Qed.

Lemma existsb_weaken {A : Type} (f g : A -> bool) (l : list A) :
  (forall x, f x = true -> g x = true) -> existsb f l = true -> existsb g l = true.
Proof.
  intros H. induction l as [|x l IH]; simpl; [auto|].
  intros E. apply orb_true_iff in E. apply orb_true_iff.
  destruct E as [E|E]; auto.
Qed.

(** X19.  Every FAIL record explains itself in the digest: it contributes
    at least one [TECH_] or [HARD_FAIL_] tag to the FAIL reason counter; and
    every SUSPECT record contributes at least one [HARD_SUSPECT_] tag to the
    SUSPECT reason counter. *)
Theorem record_reason_tags (fs : FS) (sample_dir profile : string)
    (plant_thr : PlantThresholds) (animal_thr : AnimalThresholds)
    (fungi_thr : FungiThresholds) (tech_cfg : TechConfig) :
  let r := classify_one fs sample_dir profile plant_thr animal_thr fungi_thr tech_cfg in
  (overall_status r = FAIL -> fail_tag_keys r <> [])
  /\ (overall_status r = SUSPECT -> suspect_tag_keys r <> []).
Proof.
  intros r.
  destruct (record_split_tags fs sample_dir profile plant_thr animal_thr fungi_thr
                              tech_cfg) as (ts & (_ & _ & H) & Hs).
  fold r in H, Hs. unfold fail_tag_keys, suspect_tag_keys. rewrite Hs.
  destruct H as [(ms & _ & Hne & _ & -> & _ & Ho & _)
                |[(-> & _ & Ho & _)
                 |(res & src & -> & _ & Ho & _ & _ & _ & Hres)]].
  - rewrite Ho. cbn [status_eqb]. split; [intros _|discriminate].
    destruct ms as [|m ms]; [contradiction|]. cbn [map filter].
    change ("TECH_MISSING_" ++ m) with ("TECH_" ++ "MISSING_" ++ m).
    unfold startswith at 1. rewrite prefix_app. discriminate.
  - rewrite Ho. split; [intros _|discriminate]. discriminate.
  - destruct (bio_result_props _ _ Hres) as (_ & _ & Hf & Hsus & _).
    rewrite Ho. split; intros E; rewrite E; cbn [status_eqb].
    + apply filter_nonempty_iff. cbn [existsb]. apply orb_true_iff. right.
      apply (existsb_weaken (fun t => startswith t "HARD_FAIL_")); [|exact (Hf E)].
      intros x Hx. rewrite Hx. apply orb_true_r.
    + apply filter_nonempty_iff. cbn [existsb]. apply orb_true_iff. right.
      exact (Hsus E).
Qed.

Lemma record_reason_tags_witness :
  fail_tag_keys (classify_one unreadable_fs "/data/GCA_000001.1_x_genomic" "plant"
                              plant_defaults animal_defaults fungi_defaults tech_defaults)
  <> [].
Proof.
  apply (proj1 (record_reason_tags unreadable_fs "/data/GCA_000001.1_x_genomic" "plant"
                                   plant_defaults animal_defaults fungi_defaults
                                   tech_defaults)).
  reflexivity.
Defined.

Lemma tech_missing_roundtrip (ms : list string) :
  Forall (fun m => In m artifact_labels) ms ->
  map (replace_all "TECH_MISSING_" "")
      (filter (fun t => startswith t "TECH_MISSING_")
              (map (fun m => "TECH_MISSING_" ++ m) ms)) = ms.
Proof.
  induction 1 as [|m ms Hm _ IH]; [reflexivity|].
  cbn [map filter]. unfold startswith at 1. rewrite prefix_app. cbn [map].
  rewrite IH. f_equal.
  simpl in Hm. destruct Hm as [<-|[<-|[<-|[<-|[]]]]]; reflexivity.
Qed.

(** X20.  The digest's breakdown of missing artifacts counts, for an
    incomplete sample, exactly the artifacts that [tech_check] reported, each
    once and in order; a complete sample adds nothing to it, not even when
    its summary file cannot be parsed. *)
Theorem tech_missing_breakdown (fs : FS) (sample_dir profile : string)
    (plant_thr : PlantThresholds) (animal_thr : AnimalThresholds)
    (fungi_thr : FungiThresholds) (tech_cfg : TechConfig) :
  let r := classify_one fs sample_dir profile plant_thr animal_thr fungi_thr tech_cfg in
  tech_missing_keys r = snd (tech_check fs (locate_outputs fs sample_dir) tech_cfg).
Proof.
  intros r. subst r.
  pose proof (tech_check_labels fs (locate_outputs fs sample_dir) tech_cfg) as Hl.
  destruct (tech_check_missing fs (locate_outputs fs sample_dir) tech_cfg)
    as [[_ E]|[_ E]]; rewrite E in Hl |- *; cbn [snd] in Hl |- *.
  - unfold classify_one. rewrite E. cbn [status_eqb].
    destruct (read_lines fs _) as [e|raws]; [reflexivity|].
    destruct (pick_total _) as [[[? ?] ?] ?].
    destruct (sum_by_prefix _ "LTR/") as [[? ?] ?].
    destruct (ltr_known _) as [? ?].
    destruct (get_either _ "LTR/unknown" _) as [[? ?] ?].
    destruct (sum_by_prefix _ "TIR/") as [[? ?] ?].
    destruct (get_either _ "NONTIR/helitron" _) as [[? ?] ?].
    destruct (sum_by_prefix _ "LINE/") as [[? ?] ?].
    destruct (sum_by_prefix _ "SINE/") as [[? ?] ?].
    destruct (if String.eqb profile "plant" then _ else _) as [[? ?] ?].
    reflexivity.
  - rewrite (classify_one_tech_fail _ _ _ _ _ _ _ _ E).
    unfold tech_missing_keys. cbn [tech_status tags unevaluated status_eqb].
    rewrite split_tags_join_clean by (apply missing_tags_cleaned; exact Hl).
    apply tech_missing_roundtrip. exact Hl.
Qed.

Lemma overall_not_NA (fs : FS) (sample_dir profile : string)
    (plant_thr : PlantThresholds) (animal_thr : AnimalThresholds)
    (fungi_thr : FungiThresholds) (tech_cfg : TechConfig) :
  overall_status (classify_one fs sample_dir profile plant_thr animal_thr fungi_thr
                               tech_cfg) <> NA.
Proof.
  destruct (classify_one_tag_list fs sample_dir profile plant_thr animal_thr fungi_thr
                                  tech_cfg) as (ts & _ & _ & H).
  destruct H as [(ms & _ & _ & _ & _ & _ & Ho & _)
                |[(_ & _ & Ho & _)
                 |(res & src & _ & _ & Ho & _ & _ & _ & Hres)]];
    rewrite Ho; try discriminate.
  exact (proj1 (bio_result_props _ _ Hres)).
Qed.

(** X21.  The three output tables of [main] partition the run: every record
    is in exactly one of pass, suspect and fail, so their sizes add up to
    the number of sample directories, and no record is left out for having
    an overall status outside the three. *)
Theorem rows_partition (fs : FS) (sample_dirs : list string) (profile : string)
    (plant_thr : PlantThresholds) (animal_thr : AnimalThresholds)
    (fungi_thr : FungiThresholds) (tech_cfg : TechConfig) :
  let records := audit_records fs sample_dirs profile plant_thr animal_thr fungi_thr
                               tech_cfg in
  (List.length (rows_with PASS records) + List.length (rows_with SUSPECT records)
   + List.length (rows_with FAIL records))%nat = List.length sample_dirs
  /\ rows_with NA records = [].
Proof.
  intros records. subst records. unfold audit_records, rows_with.
  induction sample_dirs as [|sd dirs [IHl IHn]]; [split; reflexivity|].
  cbn [map filter List.length].
  pose proof (overall_not_NA fs sd profile plant_thr animal_thr fungi_thr tech_cfg) as N.
  destruct (overall_status (classify_one fs sd profile plant_thr animal_thr fungi_thr
                                         tech_cfg));
    try congruence; cbn [status_eqb List.length]; split; try exact IHn; lia.
Qed.

(** * The metric fields of a record *)














(** * Lines that the parser passes over *)

Lemma run_insert (x : string) (post pre : list string) (st : Parser.state) :
  (forall st', Parser.step st' x = Some st') ->
  Parser.run st (pre ++ x :: post) = Parser.run st (pre ++ post).
Proof.
  intros Hx. revert st. induction pre as [|raw pre IH]; intros st.
  - cbn [app Parser.run]. rewrite Hx. reflexivity.
  - cbn [app Parser.run]. destruct (Parser.step st raw); [apply IH|reflexivity].
Qed.

Lemma step_malformed (st : Parser.state) (raw : string) :
  plain_line raw = true -> malformed_row raw = true -> Parser.step st raw = Some st.
Proof.
  unfold plain_line, malformed_row, row_cols, Parser.step.
  intros Hp Hm. apply andb_true_iff in Hp. destruct Hp as [Hh Hs].
  apply negb_true_iff in Hh, Hs. rewrite Hh, Hs.
  destruct (negb (Parser.in_table st)); [reflexivity|].
  destruct (String.eqb (strip (rstrip_nl raw)) ""); [reflexivity|].
  destruct (Parser.is_separator (strip (rstrip_nl raw))); [reflexivity|].
  destruct (split_cols (strip (rstrip_nl raw))) as [|name [|count_s [|bp_s [|pct_s rest]]]];
    try reflexivity.
  apply andb_true_iff in Hm. destruct Hm as [Hd Hn].
  apply negb_true_iff in Hd. rewrite Hd.
  destruct (re_pct pct_s); [discriminate Hn|reflexivity].
Qed.

(** X25.  A malformed row is skipped without a trace: a line that is
    neither the header nor the end marker, and that has fewer than four
    columns or, not being a class heading, a %masked column that is no
    unsigned decimal, can be deleted from the input without changing the
    table. *)
Theorem malformed_row_skipped (pre post : list string) (raw : string) :
  plain_line raw = true -> malformed_row raw = true ->
  parse_teanno_sum_repeat_classes (pre ++ raw :: post)
  = parse_teanno_sum_repeat_classes (pre ++ post).
Proof.
  intros Hp Hm. unfold parse_teanno_sum_repeat_classes.
  apply run_insert. intros st. apply step_malformed; assumption.
Qed.

Lemma malformed_row_skipped_witness :
  parse_teanno_sum_repeat_classes
    (firstn 3 small_report ++ "    Gypsy  n/a  n/a  n/a" :: skipn 3 small_report)
  = parse_teanno_sum_repeat_classes (firstn 3 small_report ++ skipn 3 small_report).
Proof.
  apply malformed_row_skipped; reflexivity.
Defined.

Lemma lstrip_head_kept (p : ascii -> bool) (s : string) (c : ascii) (t : string) :
  lstrip_by p s = String c t ->
  exists t', lstrip_by p (rstrip_by p s) = String c t'.
Proof.
  revert c t. induction s as [|a s IH]; intros c t; cbn [lstrip_by rstrip_by].
  - discriminate.
  - destruct (p a) eqn:Ea.
    + intros H. destruct (IH c t H) as (t' & Ht').
      destruct (rstrip_by p s) as [|b r] eqn:Er; [discriminate Ht'|].
      cbn [lstrip_by]. rewrite Ea. exists t'. exact Ht'.
    + intros H. injection H as <- <-.
      destruct (rstrip_by p s) as [|b r]; cbn [lstrip_by]; rewrite Ea; eauto.
Qed.

Lemma header_starts_with_C (line : string) :
  Parser.is_header line = true -> exists t, strip line = String "C" t.
Proof.
  unfold Parser.is_header. intros H.
  destruct (lstrip line) as [|c t] eqn:El; [discriminate H|].
  cbn [strip_prefix] in H.
  destruct (Ascii.eqb_spec "C" c) as [<-|]; [|discriminate H].
  unfold strip, lstrip, rstrip in *.
  exact (lstrip_head_kept is_space line "C" t El).
Qed.

Lemma layout_is_plain (raw : string) : layout_line raw = true -> plain_line raw = true.
Proof.
  unfold layout_line, plain_line. intros H.
  apply andb_true_iff. split; apply negb_true_iff.
  - destruct (Parser.is_header (rstrip_nl raw)) eqn:Eh; [|reflexivity].
    apply header_starts_with_C in Eh. destruct Eh as (t & Et). rewrite Et in H.
    discriminate H.
  - destruct (strip (rstrip_nl raw)) as [|c t]; [reflexivity|].
    cbn [String.eqb orb] in H. unfold Parser.is_separator in H.
    cbn [forall_chars] in H.
    apply andb_true_iff in H. destruct H as [H _].
    apply andb_true_iff in H. destruct H as [H _].
    unfold startswith. cbn [String.prefix].
    destruct (ascii_dec "R" c) as [<-|]; [discriminate H|reflexivity].
Qed.

Lemma step_layout (st : Parser.state) (raw : string) :
  layout_line raw = true -> Parser.step st raw = Some st.
Proof.
  intros H. pose proof (layout_is_plain raw H) as Hp.
  unfold plain_line in Hp. apply andb_true_iff in Hp. destruct Hp as [Hh Hs].
  apply negb_true_iff in Hh, Hs.
  unfold Parser.step. rewrite Hh, Hs.
  destruct (negb (Parser.in_table st)); [reflexivity|].
  unfold layout_line in H.
  destruct (String.eqb (strip (rstrip_nl raw)) ""); [reflexivity|].
  cbn [orb] in H. rewrite H. reflexivity.
Qed.

(** X26.  Blank lines and rules (five or more [-] and [=]) are layout only:
    wherever one stands, before the header, inside the table or after it,
    deleting it leaves the table unchanged. *)
Theorem layout_line_ignored (pre post : list string) (raw : string) :
  layout_line raw = true ->
  parse_teanno_sum_repeat_classes (pre ++ raw :: post)
  = parse_teanno_sum_repeat_classes (pre ++ post).
Proof.
  intros H. unfold parse_teanno_sum_repeat_classes.
  apply run_insert. intros st. apply step_layout. exact H.
Qed.

Lemma layout_line_ignored_witness :
  parse_teanno_sum_repeat_classes
    (firstn 1 small_report ++ "==========" :: skipn 1 small_report)
  = parse_teanno_sum_repeat_classes (firstn 1 small_report ++ skipn 1 small_report).
Proof.
  apply layout_line_ignored. reflexivity.
Defined.

(** * Numbers of the report *)

Lemma digit_not_space (c : ascii) : is_digit c = true -> is_space c = false.
Proof.
  destruct c as [[] [] [] [] [] [] [] []]; intros H; try reflexivity;
    vm_compute in H; discriminate H.
Qed.

Lemma strip_digits (d : string) : forall_chars is_digit d = true -> strip d = d.
Proof.
  intros H.
  assert (Hr : rstrip d = d).
  { unfold rstrip. induction d as [|c d IH]; [reflexivity|].
    cbn [forall_chars] in H. apply andb_true_iff in H. destruct H as [Hc Hd].
    cbn [rstrip_by]. rewrite (IH Hd), (digit_not_space c Hc).
    destruct d; reflexivity. }
  unfold strip. rewrite Hr.
  destruct d as [|c d]; [reflexivity|].
  cbn [forall_chars] in H. apply andb_true_iff in H. destruct H as [Hc _].
  unfold lstrip. cbn [lstrip_by]. rewrite (digit_not_space c Hc). reflexivity.
Qed.

Lemma int_digits_all (s : string) (a : Z) (b : bool) :
  forall_chars is_digit s = true -> s <> "" \/ b = true ->
  int_digits a b s = Some (digits_value_from a s).
Proof.
  revert a b. induction s as [|c s IH]; intros a b H Hb.
  - destruct Hb as [Hb|Hb]; [contradiction|]. subst b. reflexivity.
  - cbn [forall_chars] in H. apply andb_true_iff in H. destruct H as [Hc Hs].
    cbn [int_digits digits_value_from]. rewrite Hc.
    apply IH; [exact Hs|right; reflexivity].
Qed.

(** X27.  Thousands separators do not matter to [safe_int]: a text that,
    commas removed, is a non-empty run of decimal digits (at most 4300 of
    them, the largest literal [int] accepts by default) is read as the number
    those digits spell. *)
Theorem safe_int_thousands (x : string) :
  remove_char "," x <> "" ->
  forall_chars is_digit (remove_char "," x) = true ->
  (String.length (remove_char "," x) <= 4300)%nat ->
  safe_int x = Some (digits_value (remove_char "," x)).
Proof.
  intros Hne Hd _. unfold safe_int. rewrite (strip_digits _ Hd).
  destruct (remove_char "," x) as [|c d] eqn:E; [contradiction|].
  assert (H : int_digits 0 false (String c d) = Some (digits_value (String c d))).
  { apply int_digits_all; [exact Hd|left; discriminate]. }
  cbn [forall_chars] in Hd. apply andb_true_iff in Hd. destruct Hd as [Hc _].
  destruct c as [[] [] [] [] [] [] [] []];
    try (exfalso; vm_compute in Hc; discriminate Hc); exact H.
Qed.

Lemma safe_int_thousands_witness : safe_int "1,234,567" = Some 1234567%Z.
Proof.
  apply (safe_int_thousands "1,234,567"); [discriminate|reflexivity|cbn; lia].
Defined.

(** * The rule engine on binary64 values *)

Lemma in_zero_tag64 (x : string) (v : option B64.float) (n z : string) :
  In x (B64.zero_tag v n z) -> x = n \/ x = z.
Proof.
  destruct v as [q|]; unfold B64.zero_tag.
  - intros H. apply in_tag_if in H. intuition.
  - simpl. intuition.
Qed.

(** The guarded block of [classify_plant] that can emit
    [HINT_HIGH_LTR_UNKNOWN]. *)
Lemma high_unknown_block (ltr_unknown ltr_total : option B64.float)
    (thr : B64.PlantThresholds) :
  In "HINT_HIGH_LTR_UNKNOWN"
     match ltr_unknown, ltr_total with
     | Some u, Some t =>
         if B64.fgt t B64.zero then
           tag_if (B64.fge u (B64.ltr_unknown_pct_hint thr)
                   || B64.fge (B64.fdiv u t) (B64.ltr_unknown_ratio_hint thr))
                  "HINT_HIGH_LTR_UNKNOWN"
         else []
     | _, _ => []
     end
  <-> high_unknown_guarded ltr_unknown ltr_total thr.
Proof.
  unfold high_unknown_guarded.
  destruct ltr_unknown as [u|], ltr_total as [t|];
    try (split; [intros [] | intros (u' & t' & ? & ? & _); discriminate]).
  destruct (B64.fgt t B64.zero) eqn:Ht.
  - rewrite in_tag_if, orb_true_iff. split.
    + intros [H _]. exists u, t. auto.
    + intros (u' & t' & Eu & Et & _ & H).
      injection Eu as <-. injection Et as <-. auto.
  - split; [intros []|].
    intros (u' & t' & _ & Et & Hpos & _). injection Et as <-. congruence.
Qed.

(** C7, as the code has it.  [classify_plant] emits [HINT_HIGH_LTR_UNKNOWN]
    exactly when LTR-unknown% and LTR-total% are both present, the test
    [ltr_total > 0] holds, and [ltr_unknown >= ltr_unknown_pct_hint] or
    [ltr_unknown / ltr_total >= ltr_unknown_ratio_hint], the quotient being
    the binary64 quotient and the comparisons those of binary64. *)
Theorem high_unknown_tag_guarded
    (total_te ltr_total tir helitron line_pct sine_pct ltr_known ltr_unknown :
       option B64.float)
    (thr : B64.PlantThresholds) :
  In "HINT_HIGH_LTR_UNKNOWN"
     (tags_of (B64.classify_plant total_te ltr_total tir helitron line_pct sine_pct
                                  ltr_known ltr_unknown thr))
  <-> high_unknown_guarded ltr_unknown ltr_total thr.
Proof.
  rewrite <- high_unknown_block.
  unfold B64.classify_plant.
  set (blk := match ltr_unknown with Some _ => _ | None => _ end).
  set (st1 := B64.tri_level total_te _ _). set (st2 := B64.tri_level ltr_total _ _).
  set (st3 := B64.tri_level tir _ _).
  assert (E : forall v n (l : list string),
             tags_of (if among3 FAIL st1 st2 st3 then (FAIL, n, l)
                      else if among3 SUSPECT st1 st2 st3 then (SUSPECT, n, l)
                      else (v, n, l)) = l).
  { intros. destruct (among3 FAIL _ _ _); [reflexivity|].
    destruct (among3 SUSPECT _ _ _); reflexivity. }
  rewrite E. clear E.
  split.
  - intros H.
    repeat (apply in_app_or in H; destruct H as [H|H]); try exact H; exfalso.
    + apply in_hard_tag in H. destruct H; discriminate.
    + apply in_hard_tag in H. destruct H; discriminate.
    + apply in_hard_tag in H. destruct H; discriminate.
    + destruct helitron as [h|];
        [destruct (B64.flt h _); [|destruct (B64.flt h _)]|]; in_tags.
    + apply in_zero_tag64 in H. destruct H; discriminate.
    + apply in_zero_tag64 in H. destruct H; discriminate.
    + destruct ltr_known as [k|]; [apply in_tag_if in H; destruct H as [_ H]|];
        in_tags; discriminate.
  - intros H. repeat (apply in_or_app; right). exact H.
Qed.

(** C7, as stated, fails: with LTR-unknown% = 15.0 (above the default
    absolute cutoff 10.0) and LTR-total% absent, the specified condition
    holds and the tag is not emitted. *)
Lemma high_unknown_needs_ltr_total :
  ~ (In "HINT_HIGH_LTR_UNKNOWN"
        (tags_of (B64.classify_plant (Some (B64.lit "25" "0")) None
                                     (Some (B64.lit "3" "0")) None None None None
                                     (Some (B64.lit "15" "0")) B64.plant_defaults))
     <-> high_unknown_as_specified (Some (B64.lit "15" "0")) None B64.plant_defaults).
Proof.
  intros [_ H].
  assert (S : high_unknown_as_specified (Some (B64.lit "15" "0")) None
                                        B64.plant_defaults).
  { eexists. split; [reflexivity|]. left. vm_compute. reflexivity. }
  apply H in S. vm_compute in S. in_tags. intuition discriminate.
Qed.

(** The ratio test is made on the rounded quotient: 1.7999999999999998 / 3.0
    is 0.6 in binary64, and the tag is emitted although the exact quotient
    is below 0.60; 2.01 / 3.35 is 0.5999999999999999, and no tag is emitted
    although the exact quotient is 0.6. *)
Example high_unknown_ratio_rounded :
  In "HINT_HIGH_LTR_UNKNOWN"
     (tags_of (B64.classify_plant (Some (B64.lit "25" "0")) (Some (B64.lit "3" "0"))
                                  (Some (B64.lit "3" "0")) None None None None
                                  (Some (B64.lit "1" "7999999999999998"))
                                  B64.plant_defaults))
  /\ ~ In "HINT_HIGH_LTR_UNKNOWN"
       (tags_of (B64.classify_plant (Some (B64.lit "25" "0")) (Some (B64.lit "3" "35"))
                                    (Some (B64.lit "3" "0")) None None None None
                                    (Some (B64.lit "2" "01"))
                                    B64.plant_defaults)).
Proof.
  split.
  - vm_compute. repeat (try (left; reflexivity); right).
  - vm_compute. intuition discriminate.
Qed.

(** ** The animal rule set *)

(** Adding to [0.0] first does not change what a sum compares to. *)
Lemma flt_add_zero_l (l s m : B64.float) :
  B64.flt (B64.fadd (B64.fadd B64.zero l) s) m = B64.flt (B64.fadd l s) m.
Proof.
  destruct l as [sl|sl| |sl ml el]; try reflexivity.
  destruct sl, s as [ss|ss| |ss ms es]; try reflexivity.
  all: destruct ss, m as [sm|sm| |sm mm em]; try reflexivity; destruct sm; reflexivity.
Qed.

Lemma flt_add_zero_r (l m : B64.float) :
  B64.flt (B64.fadd B64.zero l) m = B64.flt (B64.fadd l B64.zero) m.
Proof.
  destruct l as [sl|sl| |sl ml el]; try reflexivity.
  destruct sl, m as [sm|sm| |sm mm em]; try reflexivity; destruct sm; reflexivity.
Qed.

(** C8.  [classify_animal] emits [WARN_LOW_NONLTR] exactly when LINE% and
    SINE% are both absent or their binary64 sum, an absent one counting
    [0.0], is below [min_nonltr]; its verdict is the tri-level status of
    total-TE%. *)
Theorem classify_animal_nonltr
    (total_te ltr_total tir line_pct sine_pct : option B64.float)
    (thr : B64.AnimalThresholds) :
  (In "WARN_LOW_NONLTR"
      (tags_of (B64.classify_animal total_te ltr_total tir line_pct sine_pct thr))
   <-> (line_pct = None /\ sine_pct = None)
       \/ B64.flt (B64.fadd (contribution line_pct) (contribution sine_pct))
                  (B64.min_nonltr thr) = true)
  /\ verdict (B64.classify_animal total_te ltr_total tir line_pct sine_pct thr)
     = B64.tri_level total_te (B64.an_total_pass thr) (B64.an_total_suspect thr).
Proof.
  split.
  - unfold B64.classify_animal.
    assert (T : forall c,
               In "WARN_LOW_NONLTR"
                  (hard_tag (B64.tri_level total_te (B64.an_total_pass thr)
                                           (B64.an_total_suspect thr))
                            "HARD_FAIL_TOTAL_TE" "HARD_SUSPECT_TOTAL_TE"
                   ++ tag_if (B64.none_or_below ltr_total (B64.an_min_ltr thr)) "WARN_LOW_LTR"
                   ++ tag_if (B64.none_or_below tir (B64.an_min_tir thr)) "WARN_LOW_TIR"
                   ++ tag_if c "WARN_LOW_NONLTR")%list
               <-> c = true).
    { intros c. split.
      - intros H. repeat (apply in_app_or in H; destruct H as [H|H]).
        + apply in_hard_tag in H. destruct H; discriminate.
        + apply in_tag_if in H. destruct H; discriminate.
        + apply in_tag_if in H. destruct H; discriminate.
        + apply in_tag_if in H. tauto.
      - intros ->. repeat (apply in_or_app; right). left. reflexivity. }
    destruct line_pct as [l|], sine_pct as [s|]; cbn [tags_of snd contribution];
      rewrite T; cbn [negb orb].
    + rewrite flt_add_zero_l.
      split; [intros H; right; exact H | intros [[E _]|H]; [discriminate | exact H]].
    + rewrite flt_add_zero_r.
      split; [intros H; right; exact H | intros [[E _]|H]; [discriminate | exact H]].
    + split; [intros H; right; exact H | intros [[_ E]|H]; [discriminate | exact H]].
    + split; auto.
  - unfold B64.classify_animal.
    destruct line_pct, sine_pct; reflexivity.
Qed.

(** The sum is the rounded one: 0.02 + 0.18 is 0.19999999999999998 in
    binary64, below the default cutoff 0.2, and the tag is emitted;
    0.1 + 0.09999999999999999 is 0.2, and it is not. *)
Example nonltr_sum_rounded :
  In "WARN_LOW_NONLTR"
     (tags_of (B64.classify_animal (Some (B64.lit "25" "0")) (Some (B64.lit "3" "0"))
                                   (Some (B64.lit "3" "0"))
                                   (Some (B64.lit "0" "02")) (Some (B64.lit "0" "18"))
                                   B64.animal_defaults))
  /\ ~ In "WARN_LOW_NONLTR"
       (tags_of (B64.classify_animal (Some (B64.lit "25" "0")) (Some (B64.lit "3" "0"))
                                     (Some (B64.lit "3" "0"))
                                     (Some (B64.lit "0" "1"))
                                     (Some (B64.lit "0" "09999999999999999"))
                                     B64.animal_defaults)).
Proof.
  split.
  - vm_compute. repeat (try (left; reflexivity); right).
  - vm_compute. intuition discriminate.
Qed.

(** * The parser and the prefix sums on binary64 values *)

(** ** Rounding keeps the sign *)

Lemma shr_1_nonneg (mrs : shr_record) :
  (0 <= shr_m mrs)%Z -> (0 <= shr_m (shr_1 mrs))%Z.
Proof.
  destruct mrs as [m r s]. destruct m as [|[p|p|]|[p|p|]]; simpl; lia.
Qed.

Lemma iter_shr_1_nonneg (p : positive) (mrs : shr_record) :
  (0 <= shr_m mrs)%Z -> (0 <= shr_m (iter_pos shr_1 p mrs))%Z.
Proof.
  revert mrs. induction p as [p IH|p IH|]; intros mrs H; cbn [iter_pos];
    auto using shr_1_nonneg.
Qed.

Lemma shr_fexp_nonneg (m e : Z) (l : location) :
  (0 <= m)%Z -> (0 <= shr_m (fst (shr_fexp B64.prec B64.emax m e l)))%Z.
Proof.
  intros H. unfold shr_fexp, shr.
  assert (H0 : (0 <= shr_m (shr_record_of_loc m l))%Z)
    by (destruct l as [|[]]; exact H).
  destruct (_ - e)%Z; cbn [fst]; auto using iter_shr_1_nonneg.
Qed.

Lemma round_nearest_even_nonneg (m : Z) (l : location) :
  (0 <= m)%Z -> (0 <= round_nearest_even m l)%Z.
Proof.
  intros H. destruct l as [|[]]; cbn [round_nearest_even];
    try destruct (Z.even m); lia.
Qed.

Lemma binary_round_aux_nonneg (m e : Z) (l : location) :
  (0 <= m)%Z -> plus_or_zero (binary_round_aux B64.prec B64.emax false m e l) = true.
Proof.
  intros H. unfold binary_round_aux.
  pose proof (shr_fexp_nonneg m e l H) as H1.
  destruct (shr_fexp B64.prec B64.emax m e l) as [mrs1 e1]. cbn [fst] in H1.
  pose proof (shr_fexp_nonneg _ e1 loc_Exact
                (round_nearest_even_nonneg _ (loc_of_shr_record mrs1) H1)) as H2.
  destruct (shr_fexp B64.prec B64.emax _ e1 loc_Exact) as [mrs2 e2]. cbn [fst] in H2.
  destruct (shr_m mrs2) as [|q|q]; [reflexivity| |lia].
  destruct (Z.leb e2 _); reflexivity.
Qed.

Lemma binary_normalize_nonneg (m e : Z) :
  (0 <= m)%Z -> plus_or_zero (binary_normalize B64.prec B64.emax m e false) = true.
Proof.
  intros H. destruct m as [|p|p]; [reflexivity| |lia].
  cbn [binary_normalize]. unfold binary_round.
  destruct (shl_align p e _) as [mz ez].
  apply binary_round_aux_nonneg. lia.
Qed.

Lemma float_of_ratio_nonneg (n d : Z) :
  (0 <= n)%Z -> (0 < d)%Z -> plus_or_zero (B64.float_of_ratio n d) = true.
Proof.
  intros Hn Hd. unfold B64.float_of_ratio.
  destruct n as [|p|p]; [reflexivity| |lia].
  unfold SFdiv_core_binary.
  set (s := (_ - _ - _)%Z).
  set (m' := match s with Z0 => Z.pos p | Z.pos _ => Z.shiftl (Z.pos p) s | Z.neg _ => 0%Z end).
  assert (Hm : (0 <= m')%Z).
  { subst m'. destruct s; [lia| |lia]. apply Z.shiftl_nonneg. lia. }
  pose proof (Z.div_pos m' d Hm Hd) as Hq.
  unfold Z.div in Hq.
  destruct (Z.div_eucl m' d) as [q r]. cbn [fst] in Hq.
  apply binary_round_aux_nonneg. exact Hq.
Qed.

Lemma float_of_literal_nonneg (g : decimal_literal) :
  plus_or_zero (B64.float_of_literal g) = true.
Proof.
  destruct g as [ip [fp|]]; unfold B64.float_of_literal.
  - pose proof (digits_value_nonneg ip). pose proof (digits_value_nonneg fp).
    assert (0 < 10 ^ Z.of_nat (String.length fp))%Z by (apply Z.pow_pos_nonneg; lia).
    apply float_of_ratio_nonneg; [nia|assumption].
  - apply binary_normalize_nonneg. apply digits_value_nonneg.
Qed.

Lemma fadd_nonneg (x y : B64.float) :
  plus_or_zero x = true -> plus_or_zero y = true ->
  plus_or_zero (B64.fadd x y) = true.
Proof.
  destruct x as [sx|sx| |sx mx ex], y as [sy|sy| |sy my ey];
    cbn [plus_or_zero]; intros Hx Hy; try discriminate;
    try (destruct sx; try discriminate); try (destruct sy; try discriminate);
    try reflexivity.
  unfold B64.fadd, SFadd. apply binary_normalize_nonneg.
  cbn [cond_Zopp]. lia.
Qed.

Lemma plus_or_zero_nonneg (x : B64.float) : plus_or_zero x = true <-> nonneg64 x.
Proof.
  unfold nonneg64.
  destruct x as [s|s| |s m e]; try destruct s; cbn; split; congruence.
Qed.

(** ** Stored percentages *)

Lemma dict_set_nonneg64 (te : B64.table) (k : string) (v : B64.entry) :
  nonneg_table64 te -> plus_or_zero (B64.e_pct v) = true ->
  nonneg_table64 (B64.dict_set te k v).
Proof.
  unfold nonneg_table64. intros H Hv.
  induction H as [|[k' v'] te' Hk Hte IH]; simpl.
  - constructor; [exact Hv|constructor].
  - destruct (String.eqb k' k); constructor; auto.
Qed.

(** Every way through one loop iteration that goes on: the table is left
    alone or one key receives a row whose percentage is the float of the
    captured literal. *)
Lemma step_out64 (st st' : B64.state) (raw : string) :
  B64.step st raw = B64.Continue st' ->
  B64.out st' = B64.out st
  \/ exists k b g,
       B64.out st' = B64.dict_set (B64.out st) k (B64.mk_entry b (B64.float_of_literal g)).
Proof.
  unfold B64.step. intros H.
  repeat match type of H with
         | (if ?c then _ else _) = _ => destruct c
         | match ?x with _ => _ end = _ => destruct x eqn:?
         | (let _ := _ in _) = _ => cbv zeta in H
         end;
    try discriminate H; injection H as <-; simpl; auto;
    right;
    match goal with
    | Hq : match re_pct ?x with _ => _ end = Some _ |- _ =>
        destruct (re_pct x); [|discriminate Hq];
        unfold B64.safe_float in Hq; injection Hq as <-
    end;
    eauto 10.
Qed.

Lemma step_nonneg64 (st st' : B64.state) (raw : string) :
  nonneg_table64 (B64.out st) ->
  B64.step st raw = B64.Continue st' ->
  nonneg_table64 (B64.out st').
Proof.
  intros Hn Hs. apply step_out64 in Hs.
  destruct Hs as [->|(k & b & g & ->)]; [exact Hn|].
  apply dict_set_nonneg64; [exact Hn|]. apply float_of_literal_nonneg.
Qed.

Lemma run_nonneg64 (raws : list string) (st : B64.state) (te : B64.table) :
  nonneg_table64 (B64.out st) -> B64.run st raws = inr te -> nonneg_table64 te.
Proof.
  revert st. induction raws as [|raw rest IH]; intros st Hn; cbn [B64.run].
  - intros H. injection H as <-. exact Hn.
  - destruct (B64.step st raw) as [st'| |e] eqn:Hs.
    + apply IH. eapply step_nonneg64; eauto.
    + intros H. injection H as <-. exact Hn.
    + discriminate.
Qed.

Lemma parse_nonneg64 (fs : FS) (sum_path : string) (te : B64.table) :
  B64.parse_teanno_sum_repeat_classes fs sum_path = inr te -> nonneg_table64 te.
Proof.
  unfold B64.parse_teanno_sum_repeat_classes.
  destruct (read_lines fs sum_path) as [e|raws]; [discriminate|].
  apply run_nonneg64. constructor.
Qed.

(** ** Prefix sums *)

Lemma sum_fold_nonneg64 (prefix : string) (te : B64.table) (a : B64.acc) :
  nonneg_table64 te -> plus_or_zero (B64.a_pct a) = true ->
  plus_or_zero (B64.a_pct (fold_left (B64.sum_step prefix) te a)) = true.
Proof.
  intros H. revert a. induction H as [|[k v] te Hv _ IH]; intros a Ha; cbn [fold_left].
  - exact Ha.
  - apply IH. unfold B64.sum_step. cbn [snd] in Hv.
    destruct (startswith k prefix); [|exact Ha].
    destruct (B64.feq _ _); cbn [B64.a_pct]; apply fadd_nonneg; assumption.
Qed.

(** C10, as the code has it.  Every percentage stored in the table that
    [parse_teanno_sum_repeat_classes] returns satisfies [pct >= 0.0]: it is
    a zero, a positive number or [+inf], never NaN and never negative; and
    so does every percentage that [sum_by_prefix] returns as present on
    such a table. *)
Theorem parsed_percentages_nonneg (fs : FS) (sum_path : string) (te : B64.table) :
  B64.parse_teanno_sum_repeat_classes fs sum_path = inr te ->
  (forall k v, In (k, v) te -> nonneg64 (B64.e_pct v))
  /\ (forall prefix p b, B64.sum_by_prefix te prefix = (p, b, true) -> nonneg64 p).
Proof.
  intros Hp. pose proof (parse_nonneg64 _ _ _ Hp) as N. split.
  - intros k v Hin. apply plus_or_zero_nonneg.
    unfold nonneg_table64 in N. rewrite Forall_forall in N. exact (N (k, v) Hin).
  - intros prefix p b H. apply plus_or_zero_nonneg.
    unfold B64.sum_by_prefix in H.
    pose proof (sum_fold_nonneg64 prefix te (B64.mk_acc B64.zero B64.zero false false)
                  N eq_refl) as Hs.
    destruct (B64.a_present _); cbn [negb] in H; [|discriminate].
    injection H as <- _. exact Hs.
Qed.

Lemma parsed_percentages_nonneg_witness :
  exists te v p b,
    B64.parse_teanno_sum_repeat_classes (fs_of_lines rounding_report) "s" = inr te
    /\ In ("LTR/Copia", v) te /\ nonneg64 (B64.e_pct v)
    /\ B64.sum_by_prefix te "LTR/" = (p, b, true) /\ nonneg64 p.
Proof.
  assert (E : exists te,
             B64.parse_teanno_sum_repeat_classes (fs_of_lines rounding_report) "s" = inr te
             /\ (exists v, In ("LTR/Copia", v) te)
             /\ exists p b, B64.sum_by_prefix te "LTR/" = (p, b, true)).
  { eexists. split; [vm_compute; reflexivity|]. split.
    - eexists. left. reflexivity.
    - eexists. eexists. vm_compute. reflexivity. }
  destruct E as (te & Hp & (v & Hin) & p & b & Hs).
  destruct (parsed_percentages_nonneg _ _ te Hp) as [H1 H2].
  exists te, v, p, b.
  split; [exact Hp|]. split; [exact Hin|]. split; [exact (H1 _ _ Hin)|].
  split; [exact Hs|exact (H2 _ _ _ Hs)].
Defined.

(** C10, as stated, fails: a %masked literal of 310 digits matches the
    pattern and [float] turns it into [+inf], which the table stores. *)
Lemma huge_percentage_is_infinite :
  ~ percentages_finite_nonneg (fs_of_lines huge_percentage_report) "s".
Proof.
  intros H.
  assert (E : exists te,
             B64.parse_teanno_sum_repeat_classes (fs_of_lines huge_percentage_report) "s"
             = inr te
             /\ In ("SATELLITE", B64.mk_entry (B64.lit "2" "0") (S754_infinity false)) te).
  { eexists. split; [vm_compute; reflexivity|]. left. reflexivity. }
  destruct E as (te & Hp & Hin).
  destruct (H te Hp _ _ Hin) as [Hf _]. discriminate Hf.
Qed.

(** ** Prefix sums: what is added, and in which order *)

Lemma sum_fold_shape (prefix : string) (te : B64.table) (a : B64.acc) :
  fold_left (B64.sum_step prefix) te a
  = B64.mk_acc
      (fold_left B64.fadd (map (fun kv => B64.e_pct (snd kv))
                               (filter (under_prefix prefix) te)) (B64.a_pct a))
      (fold_left B64.fadd (map (fun kv => B64.e_bp (snd kv))
                               (filter (under_prefix_with_bp prefix) te)) (B64.a_bp a))
      (B64.a_bp_ok a || existsb (under_prefix_with_bp prefix) te)
      (B64.a_present a || existsb (under_prefix prefix) te).
Proof.
  revert a. induction te as [|[k v] te IH]; intros a.
  - destruct a. cbn. rewrite !orb_false_r. reflexivity.
  - cbn [fold_left filter existsb]. rewrite IH.
    unfold B64.sum_step, under_prefix, under_prefix_with_bp. cbn [fst snd].
    destruct (startswith k prefix); cbn [andb];
      [destruct (B64.feq (B64.e_bp v) (B64.e_bp v))|];
      cbn [map fold_left B64.a_pct B64.a_bp B64.a_bp_ok B64.a_present orb];
      rewrite ?orb_true_r; reflexivity.
Qed.

(** X10.  [sum_by_prefix] is absent, [(NaN, NaN, False)], exactly when no key
    starts with the prefix.  As soon as one does, the percentage is the
    binary64 sum [0.0 + p1 + ... + pn] of the matching entries, added from
    left to right in the order of the table (no exact sum: every addition
    rounds), and the base pairs are the like sum over the matching entries
    whose base-pair value is not NaN, or NaN when there is none. *)
Theorem sum_by_prefix_presence (te : B64.table) (prefix : string) :
  (existsb (under_prefix prefix) te = false ->
   B64.sum_by_prefix te prefix = (B64.nan, B64.nan, false))
  /\ (existsb (under_prefix prefix) te = true ->
      B64.sum_by_prefix te prefix
      = (float_sum (map (fun kv => B64.e_pct (snd kv)) (filter (under_prefix prefix) te)),
         if existsb (under_prefix_with_bp prefix) te
         then float_sum (map (fun kv => B64.e_bp (snd kv))
                             (filter (under_prefix_with_bp prefix) te))
         else B64.nan,
         true)).
Proof.
  unfold B64.sum_by_prefix. rewrite sum_fold_shape.
  cbn [B64.a_present B64.a_bp_ok B64.a_pct B64.a_bp orb].
  split; intros H; rewrite H; reflexivity.
Qed.

Lemma sum_by_prefix_presence_witness :
  let te := [("LTR/Copia", B64.mk_entry (B64.lit "1000" "0") (B64.lit "0" "1"));
             ("LTR/Gypsy", B64.mk_entry (B64.lit "5000" "0") (B64.lit "4" "1"));
             ("LTR/unknown", B64.mk_entry B64.nan (B64.lit "0" "8"))] in
  B64.sum_by_prefix te "TIR/" = (B64.nan, B64.nan, false)
  /\ B64.sum_by_prefix te "LTR/"
     = (B64.lit "4" "999999999999999", B64.lit "6000" "0", true).
Proof.
  intros te. split.
  - apply (proj1 (sum_by_prefix_presence te "TIR/")). reflexivity.
  - refine (eq_trans (proj2 (sum_by_prefix_presence te "LTR/") eq_refl) _).
    vm_compute. reflexivity.
Defined.

(** Three LTR rows 0.2, 0.3 and 0.1 in the order Gypsy, unknown, Copia:
    LTR-total% is 0.6, LTR-known% is 0.30000000000000004 and LTR-unknown% is
    0.3, so the sum of the last two is above the first. *)
Example known_plus_unknown_above_total :
  let te := [("LTR/Gypsy", B64.mk_entry B64.nan (B64.lit "0" "2"));
             ("LTR/unknown", B64.mk_entry B64.nan (B64.lit "0" "3"));
             ("LTR/Copia", B64.mk_entry B64.nan (B64.lit "0" "1"))] in
  let t := fst (fst (B64.sum_by_prefix te "LTR/")) in
  let k := fst (B64.ltr_known te) in
  let u := fst (fst (B64.get_either te "LTR/unknown" "LTR/Unknown")) in
  t = B64.lit "0" "6" /\ k = B64.lit "0" "30000000000000004" /\ u = B64.lit "0" "3"
  /\ B64.fgt (B64.fadd k u) t = true.
Proof. vm_compute. repeat split. Qed.
